(** * conan: command front end, build-folder digest and manifest synchronisation

    A shallow embedding of [conans/client/command.py] (argument handling of
    the [install], [test_package] and [upload] commands) together with the
    manifest and synchronisation rules exercised by
    [conans/test/integration/export_sources_test.py].

    Python [str] values are modelled as [string] (a sequence of bytes, i.e.
    the UTF-8 encoding that [str.encode()] produces; concatenation commutes
    with encoding).  Exceptions are modelled with an explicit [result] type. *)

From Stdlib Require Import ZArith Ascii String.
From stdpp Require Import base option list strings gmap fin_maps sorting pretty.

Open Scope string_scope.
Open Scope list_scope.

(** ** Python strings *)

Module PyStr.

(** [s.split(sep)] for a one-character separator: the chunks between the
    occurrences of [sep]; there is always at least one chunk. *)
Fixpoint split (sep : ascii) (s : string) : list string :=
  match s with
  | EmptyString => [EmptyString]
  | String c r =>
      if Ascii.eqb c sep then EmptyString :: split sep r
      else match split sep r with
           | h :: t => String c h :: t
           | [] => [String c EmptyString]
           end
  end.

(** [sep in s] for a one-character [sep]. *)
Fixpoint contains (sep : ascii) (s : string) : bool :=
  match s with
  | EmptyString => false
  | String c r => Ascii.eqb c sep || contains sep r
  end.

(** [s.split(sep, 1)]: cut at the first occurrence of [sep] only. *)
Fixpoint split1 (sep : ascii) (s : string) : list string :=
  match s with
  | EmptyString => [EmptyString]
  | String c r =>
      if Ascii.eqb c sep then [EmptyString; r]
      else match split1 sep r with
           | h :: t => String c h :: t
           | [] => [String c EmptyString]
           end
  end.

(** ["".join(l)] *)
Definition join (l : list string) : string := String.concat "" l.

(** [sep.join(l)] *)
Definition join_with (sep : string) (l : list string) : string :=
  String.concat sep l.

(** [s.startswith(p)] *)
Definition startswith (p s : string) : bool := String.prefix p s.

(** [s.endswith("/")] *)
Fixpoint endswith_char (c : ascii) (s : string) : bool :=
  match s with
  | EmptyString => false
  | String a EmptyString => Ascii.eqb a c
  | String _ r => endswith_char c r
  end.

(** Truthiness of a string: [""] is falsy. *)
Definition truthy (s : string) : bool :=
  match s with EmptyString => false | _ => true end.

(** Truthiness of an optional string ([None] or [""] are falsy). *)
Definition otruthy (o : option string) : bool :=
  match o with Some s => truthy s | None => false end.

(** Truthiness of an optional list ([None] or [[]] are falsy). *)
Definition ltruthy {A} (o : option (list A)) : bool :=
  match o with Some (_ :: _) => true | _ => false end.

(** [x or []] *)
Definition or_nil {A} (o : option (list A)) : list A :=
  match o with Some l => l | None => [] end.

End PyStr.

(** ** Message digests ([hashlib.sha1], [hashlib.md5])

    The two digests the code and its tests rely on, written out after
    FIPS 180-4 (SHA-1) and RFC 1321 (MD5) on 32-bit words held in [Z] with
    the wrap-around explicit. *)

Module Digest.

Local Open Scope Z_scope.

Definition w32 (x : Z) : Z := x mod 4294967296.
Definition add32 (x y : Z) : Z := w32 (x + y).
Definition rotl32 (n x : Z) : Z :=
  w32 (Z.lor (Z.shiftl x n) (Z.shiftr x (32 - n))).
Definition not32 (x : Z) : Z := 4294967295 - x.

Definition byte_of (c : ascii) : Z := Z.of_N (N_of_ascii c).

Fixpoint bytes_of (s : string) : list Z :=
  match s with
  | EmptyString => []
  | String c r => byte_of c :: bytes_of r
  end.

(** The 8 bytes of a 64-bit length, most significant first. *)
Definition be64 (n : Z) : list Z :=
  map (fun i => Z.land (Z.shiftr n (8 * i)) 255) [7; 6; 5; 4; 3; 2; 1; 0].
Definition le64 (n : Z) : list Z := rev (be64 n).

(** Padding: a [0x80] byte, zeros up to 56 modulo 64, then the bit length. *)
Definition pad (len_bytes : Z -> list Z) (msg : list Z) : list Z :=
  let l := Z.of_nat (length msg) in
  let zeros := Z.to_nat ((55 - l) mod 64) in
  msg ++ [128] ++ repeat 0 zeros ++ len_bytes (8 * l).

Definition be_word (bs : list Z) : Z :=
  fold_left (fun acc b => acc * 256 + b) bs 0.
Definition le_word (bs : list Z) : Z := be_word (rev bs).

(** Cut a list into consecutive pieces of [n] elements. *)
Fixpoint pieces {A} (fuel n : nat) (l : list A) : list (list A) :=
  match fuel with
  | O => []
  | S fuel' =>
      match l with
      | [] => []
      | _ => take n l :: pieces fuel' n (drop n l)
      end
  end.

Definition blocks (to_word : list Z -> Z) (bs : list Z) : list (list Z) :=
  map (fun blk => map to_word (pieces 16 4 blk)) (pieces (length bs) 64 bs).

Definition nibble (x : Z) : ascii :=
  ascii_of_N (Z.to_N (if x <? 10 then 48 + x else 87 + x)).
Definition hex_byte (b : Z) : string :=
  String (nibble (Z.land (Z.shiftr b 4) 15)) (String (nibble (Z.land b 15)) "").
Definition hex_be32 (w : Z) : string :=
  hex_byte (Z.land (Z.shiftr w 24) 255) +:+ hex_byte (Z.land (Z.shiftr w 16) 255)
  +:+ hex_byte (Z.land (Z.shiftr w 8) 255) +:+ hex_byte (Z.land w 255).
Definition hex_le32 (w : Z) : string :=
  hex_byte (Z.land w 255) +:+ hex_byte (Z.land (Z.shiftr w 8) 255)
  +:+ hex_byte (Z.land (Z.shiftr w 16) 255) +:+ hex_byte (Z.land (Z.shiftr w 24) 255).

(** *** SHA-1 *)

Record sha1_state := Sha1 { h0 : Z; h1 : Z; h2 : Z; h3 : Z; h4 : Z }.

Definition sha1_init : sha1_state :=
  Sha1 1732584193 4023233417 2562383102 271733878 3285377520.

(** The message schedule, most recent word first. *)
Fixpoint sha1_schedule (n : nat) (rev_ws : list Z) : list Z :=
  match n with
  | O => rev_ws
  | S n' =>
      let w := rotl32 1 (Z.lxor (Z.lxor (nth 2 rev_ws 0) (nth 7 rev_ws 0))
                                (Z.lxor (nth 13 rev_ws 0) (nth 15 rev_ws 0))) in
      sha1_schedule n' (w :: rev_ws)
  end.

Definition sha1_f (t b c d : Z) : Z :=
  if t <? 20 then Z.lor (Z.land b c) (Z.land (not32 b) d)
  else if t <? 40 then Z.lxor (Z.lxor b c) d
  else if t <? 60 then Z.lor (Z.lor (Z.land b c) (Z.land b d)) (Z.land c d)
  else Z.lxor (Z.lxor b c) d.

Definition sha1_k (t : Z) : Z :=
  if t <? 20 then 1518500249
  else if t <? 40 then 1859775393
  else if t <? 60 then 2400959708
  else 3395469782.

Definition sha1_round (acc : Z * sha1_state) (w : Z) : Z * sha1_state :=
  let '(t, Sha1 a b c d e) := acc in
  let temp := add32 (add32 (add32 (add32 (rotl32 5 a) (sha1_f t b c d)) e)
                           (sha1_k t)) w in
  (t + 1, Sha1 temp a (rotl32 30 b) c d).

Definition sha1_block (st : sha1_state) (blk : list Z) : sha1_state :=
  let ws := rev (sha1_schedule 64 (rev blk)) in
  let '(_, Sha1 a b c d e) := fold_left sha1_round ws (0, st) in
  Sha1 (add32 (h0 st) a) (add32 (h1 st) b) (add32 (h2 st) c)
       (add32 (h3 st) d) (add32 (h4 st) e).

Definition sha1_hex (st : sha1_state) : string :=
  hex_be32 (h0 st) +:+ hex_be32 (h1 st) +:+ hex_be32 (h2 st)
  +:+ hex_be32 (h3 st) +:+ hex_be32 (h4 st).

(** [hashlib.sha1(s.encode()).hexdigest()] *)
Definition sha1_hexdigest (s : string) : string :=
  sha1_hex (fold_left sha1_block (blocks be_word (pad be64 (bytes_of s))) sha1_init).

(** *** MD5 *)

Record md5_state := Md5 { ma : Z; mb : Z; mc : Z; md : Z }.

Definition md5_init : md5_state := Md5 1732584193 4023233417 2562383102 271733878.

Definition md5_shift : list Z :=
  [7; 12; 17; 22; 7; 12; 17; 22; 7; 12; 17; 22; 7; 12; 17; 22;
   5; 9; 14; 20; 5; 9; 14; 20; 5; 9; 14; 20; 5; 9; 14; 20;
   4; 11; 16; 23; 4; 11; 16; 23; 4; 11; 16; 23; 4; 11; 16; 23;
   6; 10; 15; 21; 6; 10; 15; 21; 6; 10; 15; 21; 6; 10; 15; 21].

Definition md5_sine : list Z :=
  [3614090360; 3905402710; 606105819; 3250441966;
   4118548399; 1200080426; 2821735955; 4249261313;
   1770035416; 2336552879; 4294925233; 2304563134;
   1804603682; 4254626195; 2792965006; 1236535329;
   4129170786; 3225465664; 643717713; 3921069994;
   3593408605; 38016083; 3634488961; 3889429448;
   568446438; 3275163606; 4107603335; 1163531501;
   2850285829; 4243563512; 1735328473; 2368359562;
   4294588738; 2272392833; 1839030562; 4259657740;
   2763975236; 1272893353; 4139469664; 3200236656;
   681279174; 3936430074; 3572445317; 76029189;
   3654602809; 3873151461; 530742520; 3299628645;
   4096336452; 1126891415; 2878612391; 4237533241;
   1700485571; 2399980690; 4293915773; 2240044497;
   1873313359; 4264355552; 2734768916; 1309151649;
   4149444226; 3174756917; 718787259; 3951481745].

Definition md5_step (blk : list Z) (st : md5_state) (i : nat) : md5_state :=
  let 'Md5 a b c d := st in
  let iz := Z.of_nat i in
  let '(f, g) :=
    if iz <? 16 then (Z.lor (Z.land b c) (Z.land (not32 b) d), iz)
    else if iz <? 32 then
      (Z.lor (Z.land d b) (Z.land (not32 d) c), (5 * iz + 1) mod 16)
    else if iz <? 48 then (Z.lxor (Z.lxor b c) d, (3 * iz + 5) mod 16)
    else (Z.lxor c (Z.lor b (not32 d)), (7 * iz) mod 16) in
  let f := add32 (add32 (add32 f a) (nth i md5_sine 0)) (nth (Z.to_nat g) blk 0) in
  Md5 d (add32 b (rotl32 (nth i md5_shift 0) f)) b c.

Definition md5_block (st : md5_state) (blk : list Z) : md5_state :=
  let 'Md5 a b c d := fold_left (md5_step blk) (seq 0 64) st in
  Md5 (add32 (ma st) a) (add32 (mb st) b) (add32 (mc st) c) (add32 (md st) d).

Definition md5_hex (st : md5_state) : string :=
  hex_le32 (ma st) +:+ hex_le32 (mb st) +:+ hex_le32 (mc st) +:+ hex_le32 (md st).

(** [hashlib.md5(content).hexdigest()], the checksum [md5sum] records. *)
Definition md5_hexdigest (s : string) : string :=
  md5_hex (fold_left md5_block (blocks le_word (pad le64 (bytes_of s))) md5_init).

End Digest.

(** ** [os.path] (POSIX flavour) *)

Module PosixPath.

Definition isabs (s : string) : bool := PyStr.startswith "/" s.

(** [os.path.join(a, b)] *)
Definition join (a b : string) : string :=
  if PyStr.startswith "/" b then b
  else if negb (PyStr.truthy a) || PyStr.endswith_char "/" a then a +:+ b
  else a +:+ "/" +:+ b.

(** One turn of the component loop of [normpath]. *)
Definition norm_step (initial_slashes : nat) (new_comps : list string)
    (comp : string) : list string :=
  if String.eqb comp "" || String.eqb comp "." then new_comps
  else if negb (String.eqb comp "..")
          || (Nat.eqb initial_slashes 0 && Nat.eqb (length new_comps) 0)
          || (negb (Nat.eqb (length new_comps) 0)
              && String.eqb (List.last new_comps "") "..")
  then new_comps ++ [comp]
  else if negb (Nat.eqb (length new_comps) 0) then removelast new_comps
  else new_comps.

Fixpoint slashes (n : nat) : string :=
  match n with O => "" | S n' => "/" +:+ slashes n' end.

(** [os.path.normpath(path)] *)
Definition normpath (path : string) : string :=
  if negb (PyStr.truthy path) then "."
  else
    let initial_slashes :=
      if PyStr.startswith "/" path then
        if PyStr.startswith "//" path && negb (PyStr.startswith "///" path)
        then 2%nat else 1%nat
      else 0%nat in
    let comps := fold_left (norm_step initial_slashes) (PyStr.split "/" path) [] in
    let path := PyStr.join_with "/" comps in
    let path := if Nat.eqb initial_slashes 0 then path
                else slashes initial_slashes +:+ path in
    if PyStr.truthy path then path else ".".

End PosixPath.

(** ** Exceptions *)

(** [ConanException] is what [command.py] raises; the other constructors are
    the failure conditions of the synchronisation core. *)
Inductive exn :=
| ConanException (msg : string)
| NotFound (what : string)
| Integrity (what : string)
| MissingBinary (reference package_id : string)
| RemoteError (what : string)
| Conflict (what : string)
| BuildFailed (what : string).

Inductive result (A : Type) :=
| Ok (a : A)
| Raise (e : exn).
Arguments Ok {A} a.
Arguments Raise {A} e.

Global Instance result_ret : MRet result := fun A a => Ok a.
Global Instance result_bind : MBind result := fun A B k r =>
  match r with
  | Ok a => k a
  | Raise e => Raise e
  end.

(** ** conans/client/command.py: helpers of [Command] *)

Module Command.

(** The message of the exception raised on a malformed [name=value] item. *)
Definition invalid_input (item : string) : exn :=
  ConanException ("Invalid input '" +:+ item +:+ "', use 'name=value'").

(** The validation loop of [_get_tuples_list_from_extender_arg]: raises at
    the first item whose split on ["="] has not exactly two chunks. *)
Fixpoint validate_pairs (items : list string) : result unit :=
  match items with
  | [] => Ok tt
  | item :: rest =>
      let chunks := PyStr.split "=" item in
      if negb (Nat.eqb (length chunks) 2) then Raise (invalid_input item)
      else validate_pairs rest
  end.

(** [(item[0], item[1])] of the chunks of a validated item. *)
Definition first_two (chunks : list string) : string * string :=
  (nth 0 chunks "", nth 1 chunks "").

Definition _get_tuples_list_from_extender_arg (items : option (list string))
  : result (list (string * string)) :=
  if negb (PyStr.ltruthy items) then Ok []
  else
    let items := PyStr.or_nil items in
    _ ← validate_pairs items;
    Ok (map first_two (map (PyStr.split "=") items)).

(** [_get_simple_and_package_tuples]: the scoped items [pkg:name=value] go
    to a dictionary keyed by package, the others to a list. *)
Fixpoint scatter (tuples : list (string * string))
    (simple_items : list (string * string))
    (package_items : gmap string (list (string * string)))
  : list (string * string) * gmap string (list (string * string)) :=
  match tuples with
  | [] => (simple_items, package_items)
  | (name, value) :: rest =>
      if PyStr.contains ":" name then
        let tmp := PyStr.split1 ":" name in
        let ref_name := nth 0 tmp "" in
        let name := nth 1 tmp "" in
        scatter rest simple_items
          (<[ref_name := default [] (package_items !! ref_name) ++ [(name, value)]]>
             package_items)
      else scatter rest (simple_items ++ [(name, value)]) package_items
  end.

Definition _get_simple_and_package_tuples (items : option (list string))
  : result (list (string * string) * gmap string (list (string * string))) :=
  tuples ← _get_tuples_list_from_extender_arg items;
  Ok (scatter tuples [] ∅).

(** The raw value of [args.build]: what [argparse] stores for [--build]
    ([None] when absent, a list of strings otherwise), or any other
    non-list object the method may be handed. *)
Inductive build_param :=
| BuildNone
| BuildOther (s : string)
| BuildList (l : list string).

(** The loosely typed result: [False], [True], a keyword or a list. *)
Inductive build_mode :=
| ModeFalse
| ModeTrue
| ModeKeyword (k : string)
| ModePatterns (l : list string).

Definition _get_build_sources_parameter (p : build_param) : build_mode :=
  match p with
  | BuildList l =>
      if Nat.eqb (length l) 0 then ModePatterns ["*"]
      else if Nat.eqb (length l) 1 && String.eqb (nth 0 l "") "never"
      then ModeFalse
      else if Nat.eqb (length l) 1 && String.eqb (nth 0 l "") "missing"
      then ModeTrue
      else if Nat.eqb (length l) 1 && String.eqb (nth 0 l "") "outdated"
      then ModeKeyword "outdated"
      else ModePatterns (map (fun ref_expr => ref_expr +:+ "*") l)
  | _ => ModeFalse
  end.

(** The build-folder digest of [test_package]:
    [hashlib.sha1("".join(options + settings).encode()).hexdigest()] with
    [options = args.options or []] and [settings = args.settings or []]. *)
Definition test_package_sha (options settings : option (list string)) : string :=
  Digest.sha1_hexdigest (PyStr.join (PyStr.or_nil options ++ PyStr.or_nil settings)).

(** [ConanFileReference]: the named tuple [(name, version, user, channel)]. *)
Record ConanFileReference := {
  name : string; version : string; user : string; channel : string }.

(** The value bound to [reference] in [install]: a parsed reference, or
    the normalised path when parsing raised. *)
Inductive ref_or_path :=
| IsReference (r : ConanFileReference)
| IsPath (p : string).

Module install_args.
Record t := {
  reference : string;
  package : option (list string);
  all : bool;
  file : option string;
  update : bool;
  scope : option (list string);
  profile : option string;
  generator : option (list string);
  werror : bool;
  manifests : option string;
  manifests_interactive : option string;
  verify : option string;
  no_imports : bool;
  remote : option string;
  options : option (list string);
  settings : option (list string);
  env : option (list string);
  build : build_param }.
End install_args.

Module upload_args.
(** [retry] and [retry_wait] hold what was given on the command line;
    [None] stands for an absent flag, which [argparse] replaces by the
    declared default. *)
Record t := {
  pattern : string;
  package : option string;
  remote : option string;
  all : bool;
  force : bool;
  confirm : bool;
  retry : option Z;
  retry_wait : option Z }.
End upload_args.

(** The keyword arguments handed to [ConanManager.upload]. *)
Record upload_call := {
  up_pattern : string;
  up_package : option string;
  up_remote : option string;
  up_all_packages : bool;
  up_force : bool;
  up_confirm : bool;
  up_retry : Z;
  up_retry_wait : Z }.

(** Python's [a or b] on optional strings. *)
Definition por (a b : option string) : option string :=
  if PyStr.otruthy a then a else b.

Definition is_some {A} (o : option A) : bool :=
  match o with Some _ => true | None => false end.

Section commands.

(** Collaborators that live outside [command.py]. *)
Variable loads : string -> option ConanFileReference.
Variable Scopes : Type.
Variable Scopes_from_list : list string -> result Scopes.
Variable is_a_reference : string -> bool.
(** [os.getcwd()] *)
Variable current_path : string.

(** The keyword arguments handed to [ConanManager.install]. *)
Record install_call := {
  in_reference : ref_or_path;
  in_current_path : string;
  in_remote : option string;
  in_options : list (string * string);
  in_settings : list (string * string);
  in_build_mode : build_mode;
  in_filename : option string;
  in_update : bool;
  in_manifest_folder : option string;
  in_manifest_verify : bool;
  in_manifest_interactive : bool;
  in_scopes : option Scopes;
  in_generators : option (list string);
  in_profile_name : option string;
  in_package_settings : gmap string (list (string * string));
  in_env : list (string * string);
  in_package_env : gmap string (list (string * string));
  in_no_imports : bool }.

(** What the command asks of the manager. *)
Inductive manager_call :=
| CallDownload (r : ConanFileReference) (package : list string)
               (remote : option string)
| CallInstall (c : install_call).

Definition invalid_reference : exn :=
  ConanException
    "Invalid package recipe reference. e.g., MyPackage/1.2@user/channel".
Definition both_manifests : exn :=
  ConanException "Do not specify both manifests and manifests-interactive arguments".
Definition verify_and_manifests : exn :=
  ConanException
    "Do not specify both 'verify' and 'manifests' or 'manifests-interactive' arguments".

(** [try: ConanFileReference.loads(...) except: os.path.normpath(...)] *)
Definition resolve_reference (text : string) : ref_or_path :=
  match loads text with
  | Some r => IsReference r
  | None => IsPath (PosixPath.normpath (PosixPath.join current_path text))
  end.

Definition install (args : install_args.t) : result manager_call :=
  let reference := resolve_reference (install_args.reference args) in
  if install_args.all args || PyStr.ltruthy (install_args.package args) then
    let package :=
      if install_args.all args then []
      else PyStr.or_nil (install_args.package args) in
    match reference with
    | IsReference r =>
        if negb (PyStr.truthy (install_args.reference args))
        then Raise invalid_reference
        else Ok (CallDownload r package (install_args.remote args))
    | IsPath _ => Raise invalid_reference
    end
  else
    let build := _get_build_sources_parameter (install_args.build args) in
    options ← _get_tuples_list_from_extender_arg (install_args.options args);
    '(settings, package_settings) ←
      _get_simple_and_package_tuples (install_args.settings args);
    '(env, package_env) ← _get_simple_and_package_tuples (install_args.env args);
    scopes ←
      (if PyStr.ltruthy (install_args.scope args)
       then s ← Scopes_from_list (PyStr.or_nil (install_args.scope args)); Ok (Some s)
       else Ok None);
    if PyStr.otruthy (install_args.manifests args)
       && PyStr.otruthy (install_args.manifests_interactive args)
    then Raise both_manifests
    else if PyStr.otruthy (install_args.verify args)
            && (PyStr.otruthy (install_args.manifests args)
                || PyStr.otruthy (install_args.manifests_interactive args))
    then Raise verify_and_manifests
    else
      let manifest_folder :=
        por (por (install_args.verify args) (install_args.manifests args))
            (install_args.manifests_interactive args) in
      let '(manifest_folder, manifest_verify, manifest_interactive) :=
        match manifest_folder with
        | Some folder =>
            if PyStr.truthy folder then
              (Some (if negb (PosixPath.isabs folder) then
                       match reference with
                       | IsReference _ => PosixPath.join current_path folder
                       | IsPath p => PosixPath.join p folder
                       end
                     else folder),
               is_some (install_args.verify args),
               is_some (install_args.manifests_interactive args))
            else (manifest_folder, false, false)
        | None => (manifest_folder, false, false)
        end in
      Ok (CallInstall {|
            in_reference := reference;
            in_current_path := current_path;
            in_remote := install_args.remote args;
            in_options := options;
            in_settings := settings;
            in_build_mode := build;
            in_filename := install_args.file args;
            in_update := install_args.update args;
            in_manifest_folder := manifest_folder;
            in_manifest_verify := manifest_verify;
            in_manifest_interactive := manifest_interactive;
            in_scopes := scopes;
            in_generators := install_args.generator args;
            in_profile_name := install_args.profile args;
            in_package_settings := package_settings;
            in_env := env;
            in_package_env := package_env;
            in_no_imports := install_args.no_imports args |}).

Definition package_needs_reference : exn :=
  ConanException
    "-p parameter only allowed with a valid recipe reference, not with a pattern".

Definition upload (args : upload_args.t) : result upload_call :=
  if PyStr.otruthy (upload_args.package args)
     && negb (is_a_reference (upload_args.pattern args))
  then Raise package_needs_reference
  else Ok {|
         up_pattern := upload_args.pattern args;
         up_package := upload_args.package args;
         up_remote := upload_args.remote args;
         up_all_packages := upload_args.all args;
         up_force := upload_args.force args;
         up_confirm := upload_args.confirm args;
         up_retry := default 2%Z (upload_args.retry args);
         up_retry_wait := default 5%Z (upload_args.retry_wait args) |}.

End commands.

End Command.

(** ** Recipe references in text form *)

Module Reference.
Import Command.

(** Modelled from the spec: [ConanFileReference.loads] belongs to
    [conans/model/ref.py], which is not part of the sources at hand.  The
    spec fixes the canonical textual form [name/version@user/channel] with
    four opaque fields; a text parses when it has exactly that shape with
    non-empty fields. *)
Definition loads (text : string) : option ConanFileReference :=
  match PyStr.split "@" text with
  | [nv; uc] =>
      match PyStr.split "/" nv, PyStr.split "/" uc with
      | [n; v], [u; c] =>
          if PyStr.truthy n && PyStr.truthy v && PyStr.truthy u && PyStr.truthy c
          then Some {| name := n; version := v; user := u; channel := c |}
          else None
      | _, _ => None
      end
  | _ => None
  end.

(** Modelled from the spec: [is_a_reference] (same absent module) holds of
    the texts in canonical form. *)
Definition is_a_reference (text : string) : bool := is_some (loads text).

(** The canonical textual form. *)
Definition to_text (r : ConanFileReference) : string :=
  name r +:+ "/" +:+ version r +:+ "@" +:+ user r +:+ "/" +:+ channel r.

End Reference.

(** ** Manifests *)

Module Manifest.

(** Modelled from the spec: [FileTreeManifest] belongs to
    [conans/model/manifest.py], which is not part of the sources at hand.
    Per the spec a manifest is [{timestamp, map(relative_path -> checksum)}]
    over the regular files of a folder, transient artifacts excluded, and
    it serialises to a leading timestamp line followed by one line
    [relative/path: checksum] per tracked file, sorted by path.  The
    checksum is the MD5 hex digest the test expects. *)
Record t := { time : Z; file_sums : gmap string string }.

(** A folder: relative path to content. *)
Abbreviation folder := (gmap string string).

Section compute.
(** The fixed exclusion list of transient artifact names. *)
Variable excluded : string -> bool.

(** Modelled from the spec: the files a manifest covers. *)
Definition tracked (f : folder) : folder :=
  filter (fun kv => excluded kv.1 = false) f.

(** Modelled from the spec: the checksum map of a folder. *)
Definition sums (f : folder) : gmap string string :=
  Digest.md5_hexdigest <$> tracked f.

(** Modelled from the spec: [compute(folderPath)], stamped with the
    wall-clock time [now]; a missing folder signals [NotFound]. *)
Definition compute (now : Z) (f : option folder) : result t :=
  match f with
  | Some f => Ok {| time := now; file_sums := sums f |}
  | None => Raise (NotFound "folder")
  end.
End compute.

(** Modelled from the spec: the order of the serialised lines, by path. *)
Definition by_path (a b : string * string) : Prop := String.le a.1 b.1.

Global Instance by_path_dec : RelDecision by_path.
Proof. intros a b. unfold by_path. apply _. Defined.

(** Modelled from the spec: one line [relative/path: checksum]. *)
Definition line (kv : string * string) : string := kv.1 +:+ ": " +:+ kv.2.

(** Modelled from the spec: the checksum lines, sorted by path. *)
Definition sum_lines (m : t) : list string :=
  line <$> merge_sort by_path (map_to_list (file_sums m)).

(** Modelled from the spec: the lines of the serialised manifest. *)
Definition lines (m : t) : list string := pretty (time m) :: sum_lines m.

Definition newline : string := String (ascii_of_nat 10) "".

(** Modelled from the spec: [serialize]. *)
Definition serialize (m : t) : string :=
  String.concat "" ((fun l => l +:+ newline) <$> lines m).

End Manifest.

(** ** Local cache, remotes and the synchronisation engine *)

Module Sync.
Import Manifest.

(** Modelled from the spec: [ConanManager], the remote manager and the
    local cache belong to modules that are not part of the sources at
    hand (only the command front end that calls them and the integration
    test that drives them are).  The definitions below follow sections 3,
    4.3 to 4.7 and 7 of the spec. *)

(** Modelled from the spec: a transfer archive (section 4.3), the entries
    of one folder. *)
Definition archive := list (string * string).

(** Modelled from the spec: [pack], entries in sorted path order. *)
Definition pack (f : folder) : archive := merge_sort by_path (map_to_list f).

(** Modelled from the spec: a path-escaping entry (section 4.3): an
    absolute path, or one with a [..] component. *)
Definition escapes (p : string) : bool :=
  PyStr.startswith "/" p || existsb (String.eqb "..") (PyStr.split "/" p).

(** A folder none of whose paths escapes. *)
Definition safe (f : folder) : bool :=
  forallb (fun kv => negb (escapes kv.1)) (map_to_list f).

(** Modelled from the spec: [unpack] (section 4.3): an archive with a
    path-escaping entry is rejected and nothing is materialised.  The spec
    does not name the failure; [Integrity], the fatal transfer failure of
    section 7, is used. *)
Definition unpack (a : archive) : result folder :=
  if forallb (fun kv => negb (escapes kv.1)) a then Ok (list_to_map a)
  else Raise (Integrity "archive").

(** Modelled from the spec: the folder of the exported sources inside
    [export] (section 6: [export/export_source/]). *)
Definition EXPORT_SOURCES_DIR : string := "export_source".

(** The path of an exported source inside [export]. *)
Definition under_sources (p : string) : string := EXPORT_SOURCES_DIR +:+ "/" +:+ p.

(** The path lies in [export/export_source/]. *)
Definition in_sources (p : string) : bool :=
  PyStr.startswith (EXPORT_SOURCES_DIR +:+ "/") p.

(** Modelled from the spec: the content of [export] as it lies on disk
    (section 6): the recipe and the exported files, with the exported
    sources, when they are present, below [export_source/]; an exported
    file that has such a path itself is the one kept. *)
Definition export_tree (files : folder) (sources : option folder) : folder :=
  match sources with
  | Some srcs => files ∪ kmap under_sources srcs
  | None => files
  end.

(** The entries of a checksum map that lie outside [export_source/]. *)
Definition outside_sources (sums : gmap string string) : gmap string string :=
  filter (fun kv => in_sources kv.1 = false) sums.

(** Modelled from the spec: one binary variant (section 3): payload, its manifest, and the fingerprint of the
    recipe manifest it was built from. *)
Record package_entry := {
  payload : folder;
  package_manifest : Manifest.t;
  recipe_fingerprint : gmap string string }.

(** Modelled from the spec: the cache entry of one recipe reference
    (section 3); [None] is an absent folder.  [export] holds the recipe
    and the exported files, [export_sources] the exported sources, with
    their paths relative to [export/export_source/]; the manifest of
    [export] covers both (section 6, and the manifest the test reads). *)
Record cache_entry := {
  export : folder;
  export_manifest : Manifest.t;
  export_sources : option folder;
  source : option folder;
  builds : gmap string folder;
  packages : gmap string package_entry }.

(** Modelled from the spec: what a remote stores for one recipe reference:
    the archives and the manifests delivered alongside. *)
Record remote_entry := {
  r_export : archive;
  r_manifest : Manifest.t;
  r_export_sources : option archive;
  r_packages : gmap string (archive * Manifest.t * gmap string string) }.

(** Modelled from the spec: the local cache, the ordered remotes and the
    provenance map (sections 3, 4.4, 4.5); recipes
    are keyed by their canonical text. *)
Record world := {
  cache : gmap string cache_entry;
  remotes : list (string * gmap string remote_entry);
  provenance : gmap string string }.

(** Modelled from the spec: the build modes (section 9). *)
Inductive mode := Never | Missing | Outdated | ForcePatterns (l : list string).

(** Modelled from the spec: the terminal states of the resolver. *)
Inductive decision := Reuse | Download | Build.

(** Modelled from the spec: the answer of [checkUpdates]. *)
Inductive update_status := NoUpdate | UpdateAvailable.

(** What an operation reports to the user. *)
Inductive event :=
| RecipeRetrieved (remote : string)
| RecipeUpdateAvailable
| RecipeUpdated
| AlreadyInstalled
| PackageDownloaded
| PackageBuilt
| RecipeUploadSkipped
| RecipeUploaded.

(** Modelled from the spec: glob matching of a pattern against a canonical
    reference text ([*] any run of characters, [?] any character). *)
Fixpoint glob (pat s : string) : bool :=
  match pat with
  | EmptyString => negb (PyStr.truthy s)
  | String c pat' =>
      if Ascii.eqb c "*" then
        (fix star (s : string) : bool :=
           glob pat' s || match s with
                          | EmptyString => false
                          | String _ s' => star s'
                          end) s
      else match s with
           | EmptyString => false
           | String d s' => (Ascii.eqb c "?" || Ascii.eqb c d) && glob pat' s'
           end
  end.

Definition lookup_remote (name : string) (w : world)
  : option (gmap string remote_entry) :=
  (fun ir => ir.2.2) <$> list_find (fun r => r.1 = name) (remotes w).

Definition set_remote (name : string) (store : gmap string remote_entry)
    (w : world) : world :=
  {| cache := cache w;
     remotes := (fun r => if decide (r.1 = name) then (name, store) else r)
                <$> remotes w;
     provenance := provenance w |}.

Definition set_cache (ref : string) (e : cache_entry) (w : world) : world :=
  {| cache := <[ref := e]> (cache w);
     remotes := remotes w;
     provenance := provenance w |}.

Definition set_provenance (ref remote : string) (w : world) : world :=
  {| cache := cache w;
     remotes := remotes w;
     provenance := <[ref := remote]> (provenance w) |}.

Definition from_option {A} (e : exn) (o : option A) : result A :=
  match o with Some a => Ok a | None => Raise e end.

Section engine.
Variable excluded : string -> bool.
(** The recipe callbacks: they populate [source] from the exported files
    and [package/<id>] from the build folder; [None] is a failure. *)
Variable source_stage : folder -> option folder.
Variable package_stage : folder -> option folder.

Definition fresh (p : package_entry) : bool :=
  bool_decide (sums excluded (payload p) = file_sums (package_manifest p)).

(** Modelled from the spec: [export] (section 3, lifecycle): full replace
    of the exported folders and of the manifest, which is computed over
    the whole [export] folder, exported sources included; an existing
    [source] and existing packages stay. *)
Definition export_recipe (ref : string) (now : Z) (files sources : folder)
    (w : world) : world :=
  let m := {| time := now;
              file_sums := sums excluded (export_tree files (Some sources)) |} in
  let e :=
    match cache w !! ref with
    | Some old =>
        {| export := files; export_manifest := m;
           export_sources := Some sources; source := source old;
           builds := builds old; packages := packages old |}
    | None =>
        {| export := files; export_manifest := m;
           export_sources := Some sources; source := None;
           builds := ∅; packages := ∅ |}
    end in
  set_cache ref e w.

(** Modelled from the spec: [remove] (section 4.4): destroys the whole cache entry; an absent entry is
    reported unless forced. *)
Definition remove (ref : string) (force : bool) (w : world) : result world :=
  match cache w !! ref with
  | None => if force then Ok w else Raise (NotFound ref)
  | Some _ =>
      Ok {| cache := delete ref (cache w);
            remotes := remotes w;
            provenance := provenance w |}
  end.

(** Modelled from the spec: one package pushed to a remote entry
    (section 4.6): its manifest must match the
    folder, unless forced, in which case it is recomputed. *)
Definition push_package (now : Z) (force : bool)
    (acc : result remote_entry) (ip : string * package_entry)
  : result remote_entry :=
  re ← acc;
  m ← (if fresh ip.2 then Ok (package_manifest ip.2)
       else if force
            then Ok {| time := now; file_sums := sums excluded (payload ip.2) |}
            else Raise (Integrity ip.1));
  Ok {| r_export := r_export re; r_manifest := r_manifest re;
        r_export_sources := r_export_sources re;
        r_packages :=
          <[ip.1 := (pack (payload ip.2), m, recipe_fingerprint ip.2)]>
            (r_packages re) |}.

(** The optional package id filter of [upload]. *)
Definition wanted (id_filter : option string) (ip : string * package_entry)
  : bool :=
  match id_filter with
  | Some id => bool_decide (ip.1 = id)
  | None => true
  end.

(** Modelled from the spec: [upload] (section 4.6): the recipe transfer is skipped when the remote reports
    the same manifest content and [force] is off; the requested
    packages are evaluated independently; provenance is set. *)
Definition upload (ref : string) (include_packages : bool)
    (id_filter : option string) (remote : string) (force : bool) (now : Z)
    (w : world) : result (world * list event) :=
  e ← from_option (NotFound ref) (cache w !! ref);
  store ← from_option (NotFound remote) (lookup_remote remote w);
  let pushed :=
    {| r_export := pack (export e); r_manifest := export_manifest e;
       r_export_sources :=
         match export_sources e with
         | Some srcs => Some (pack srcs)
         | None => store !! ref ≫= r_export_sources
         end;
       r_packages := default ∅ (r_packages <$> store !! ref) |} in
  let '(re, ev) :=
    match store !! ref with
    | Some old =>
        if bool_decide (file_sums (r_manifest old) = file_sums (export_manifest e))
           && negb force
        then (old, RecipeUploadSkipped)
        else (pushed, RecipeUploaded)
    | None => (pushed, RecipeUploaded)
    end in
  let selected :=
    List.filter (wanted id_filter) (map_to_list (packages e)) in
  re ← (if include_packages || bool_decide (is_Some id_filter)
        then foldl (push_package now force) (Ok re) selected
        else Ok re);
  Ok (set_provenance ref remote (set_remote remote (<[ref := re]> store) w), [ev]).

(** Modelled from the spec: [download] of a recipe (section 4.6): unpack,
    then verify the computed checksums against the manifest delivered
    alongside.  The archive of [export] does not carry [export_source/]
    (section 3: the exported sources are synchronised independently, and
    the test finds no such folder after an install), so the comparison is
    made on the paths outside [export_source/]; the rest of the manifest
    is checked when the sources are retrieved. *)
Definition download_recipe (ref remote : string) (w : world) : result world :=
  store ← from_option (NotFound remote) (lookup_remote remote w);
  re ← from_option (NotFound ref) (store !! ref);
  files ← unpack (r_export re);
  if bool_decide (outside_sources (sums excluded files)
                  = outside_sources (file_sums (r_manifest re))) then
    let e :=
      match cache w !! ref with
      | Some old =>
          {| export := files; export_manifest := r_manifest re;
             export_sources := None; source := source old;
             builds := builds old; packages := packages old |}
      | None =>
          {| export := files; export_manifest := r_manifest re;
             export_sources := None; source := None;
             builds := ∅; packages := ∅ |}
      end in
    Ok (set_provenance ref remote (set_cache ref e w))
  else Raise (Integrity ref).

(** Modelled from the spec: [download] of one package (section 4.6) into an existing cache entry. *)
Definition download_package (ref id remote : string) (w : world)
  : result world :=
  e ← from_option (NotFound ref) (cache w !! ref);
  store ← from_option (NotFound remote) (lookup_remote remote w);
  re ← from_option (NotFound ref) (store !! ref);
  '(a, m, fp) ← from_option (NotFound id) (r_packages re !! id);
  files ← unpack a;
  if bool_decide (sums excluded files = file_sums m) then
    Ok (set_cache ref
          {| export := export e; export_manifest := export_manifest e;
             export_sources := export_sources e; source := source e;
             builds := builds e;
             packages := <[id := {| payload := files; package_manifest := m;
                                    recipe_fingerprint := fp |}]> (packages e) |}
          w)
  else Raise (Integrity id).

(** Modelled from the spec: [checkUpdates] on two manifests (section 4.6): an update is available when the
    contents differ and the remote timestamp is strictly newer. *)
Definition compare_manifests (local upstream : Manifest.t) : update_status :=
  if bool_decide (file_sums upstream = file_sums local) then NoUpdate
  else if bool_decide (time local < time upstream)%Z then UpdateAvailable
  else NoUpdate.

(** Modelled from the spec: [checkUpdates(RecipeReference)]: reads both manifests, applies
    nothing. *)
Definition checkUpdates (ref : string) (w : world) : result update_status :=
  e ← from_option (NotFound ref) (cache w !! ref);
  match provenance w !! ref ≫= fun r => lookup_remote r w ≫= fun st => st !! ref with
  | Some re => Ok (compare_manifests (export_manifest e) (r_manifest re))
  | None => Ok NoUpdate
  end.

(** Modelled from the spec: the first configured remote that has the
    recipe. *)
Definition find_remote (ref : string) (w : world) : option string :=
  (fun ir => ir.2.1) <$> list_find (fun r => is_Some (r.2 !! ref)) (remotes w).

(** Modelled from the spec: recipe retrieval of [install]: an absent recipe
    is fetched from its provenance remote or the first remote that has it;
    a present one is checked for updates, applied only on request. *)
Definition ensure_recipe (ref : string) (update : bool) (w : world)
  : result (world * list event) :=
  match cache w !! ref with
  | Some _ =>
      st ← checkUpdates ref w;
      match st with
      | NoUpdate => Ok (w, [])
      | UpdateAvailable =>
          if update then
            remote ← from_option (NotFound ref) (provenance w !! ref);
            w' ← download_recipe ref remote w;
            Ok (w', [RecipeUpdated])
          else Ok (w, [RecipeUpdateAvailable])
      end
  | None =>
      remote ← from_option (NotFound ref)
                 (match provenance w !! ref with
                  | Some r => Some r
                  | None => find_remote ref w
                  end);
      w' ← download_recipe ref remote w;
      Ok (w', [RecipeRetrieved remote])
  end.

(** Modelled from the spec: the reference matches a forced-build pattern. *)
Definition forced (m : mode) (ref : string) : bool :=
  match m with
  | ForcePatterns l => existsb (fun pat => glob pat ref) l
  | _ => false
  end.

(** Modelled from the spec: the provenance remote has this package. *)
Definition remote_has (ref id : string) (w : world) : bool :=
  match provenance w !! ref ≫= fun r => lookup_remote r w ≫= fun st => st !! ref with
  | Some re => bool_decide (is_Some (r_packages re !! id))
  | None => false
  end.

(** Modelled from the spec: a local package exists with a valid manifest
    and, under build-if-outdated, was built from the current recipe. *)
Definition reusable (m : mode) (e : cache_entry) (id : string) : bool :=
  match packages e !! id with
  | Some p =>
      fresh p
      && match m with
         | Outdated =>
             bool_decide (recipe_fingerprint p = file_sums (export_manifest e))
         | _ => true
         end
  | None => false
  end.

(** Modelled from the spec: the build policy resolver (section 4.7); every
    mode allows the remote lookup. *)
Definition resolve (m : mode) (ref id : string) (w : world) : result decision :=
  e ← from_option (NotFound ref) (cache w !! ref);
  if forced m ref then Ok Build
  else if reusable m e id then Ok Reuse
  else if remote_has ref id w then Ok Download
  else match m with
       | Never => Raise (MissingBinary ref id)
       | _ => Ok Build
       end.

(** Modelled from the spec: the exported sources of a cache entry, fetched
    from the provenance remote when the entry has none (section 4.6);
    with them the [export] folder is complete, and its computed checksums
    must match the recipe manifest in full. *)
Definition retrieve_sources (ref : string) (e : cache_entry) (w : world)
  : result folder :=
  match export_sources e with
  | Some srcs => Ok srcs
  | None =>
      a ← from_option (NotFound ref)
            (provenance w !! ref ≫= fun r =>
             lookup_remote r w ≫= fun st =>
             st !! ref ≫= r_export_sources);
      srcs ← unpack a;
      if bool_decide (sums excluded (export_tree (export e) (Some srcs))
                      = file_sums (export_manifest e))
      then Ok srcs
      else Raise (Integrity ref)
  end.

(** Modelled from the spec: a local build: [source] is populated once, by
    the source stage, from the exported files and sources; the package
    stage fills [package/<id>] and its manifest is computed. *)
Definition build (ref id : string) (now : Z) (w : world) : result world :=
  e ← from_option (NotFound ref) (cache w !! ref);
  srcs ← retrieve_sources ref e w;
  tree ← (match source e with
          | Some tree => Ok tree
          | None => from_option (BuildFailed ref) (source_stage (export e ∪ srcs))
          end);
  out ← from_option (BuildFailed id) (package_stage tree);
  Ok (set_cache ref
        {| export := export e; export_manifest := export_manifest e;
           export_sources := Some srcs; source := Some tree;
           builds := <[id := tree]> (builds e);
           packages :=
             <[id := {| payload := out;
                        package_manifest :=
                          {| time := now; file_sums := sums excluded out |};
                        recipe_fingerprint := file_sums (export_manifest e) |}]>
               (packages e) |}
        w).

(** Modelled from the spec: [install] of one package variant of a recipe. *)
Definition install (ref id : string) (m : mode) (update : bool) (now : Z)
    (w : world) : result (world * list event) :=
  '(w, evs) ← ensure_recipe ref update w;
  d ← resolve m ref id w;
  match d with
  | Reuse => Ok (w, evs ++ [AlreadyInstalled])
  | Download =>
      remote ← from_option (NotFound ref) (provenance w !! ref);
      w' ← download_package ref id remote w;
      Ok (w', evs ++ [PackageDownloaded])
  | Build =>
      w' ← build ref id now w;
      Ok (w', evs ++ [PackageBuilt])
  end.

End engine.

End Sync.

(** ** Retrying transfers *)

Module Retry.

(** What a transfer does, as observed from outside. *)
Inductive trace_event :=
| Attempt (i : nat)
| Sleep (seconds : Z).

Section with_retry.
(** The transport: attempt number [i] either succeeds ([None]) or fails
    transiently with a message. *)
Variable transport : nat -> option string.
Variable wait : Z.

(** Modelled from the spec: the retry policy of the remote manager (not
    part of the sources at hand): a transient failure is retried, after
    the given delay, up to the given number of times; once the retries
    are used up the failure is surfaced as [RemoteError]. *)
Fixpoint with_retry (retries i : nat) : result unit * list trace_event :=
  match transport i with
  | None => (Ok tt, [Attempt i])
  | Some err =>
      match retries with
      | O => (Raise (RemoteError err), [Attempt i])
      | S retries' =>
          let '(r, tr) := with_retry retries' (S i) in
          (r, Attempt i :: Sleep wait :: tr)
      end
  end.
End with_retry.

(** The delays slept during a run, in order. *)
Definition sleeps (tr : list trace_event) : list Z :=
  omap (fun ev => match ev with Sleep s => Some s | Attempt _ => None end) tr.

(** The attempts made during a run, in order. *)
Definition attempts (tr : list trace_event) : list nat :=
  omap (fun ev => match ev with Attempt i => Some i | Sleep _ => None end) tr.

(** The upload command followed by the transfer it asks for. *)
Definition upload_command (is_a_reference : string -> bool)
    (transport : nat -> option string) (args : Command.upload_args.t)
  : result unit * list trace_event :=
  match Command.upload is_a_reference args with
  | Ok call =>
      with_retry transport (Command.up_retry_wait call)
                 (Z.to_nat (Command.up_retry call)) 0
  | Raise e => (Raise e, [])
  end.

End Retry.

(** ** conans/client/command.py: the other commands *)

Module Cli.
Import Command.

(** What a handler of [command.py] can tell apart: a [ConanException], a
    [KeyboardInterrupt] or [SystemExit], and any other exception. *)
Inductive raised :=
| ConanError (e : exn)
| Interrupt (what : string)
| OtherError (what : string).

Inductive outcome (A : Type) :=
| Done (a : A)
| Raised (r : raised).
Arguments Done {A} a.
Arguments Raised {A} r.

Global Instance outcome_ret : MRet outcome := fun A a => Done a.
Global Instance outcome_bind : MBind outcome := fun A B k r =>
  match r with
  | Done a => k a
  | Raised e => Raised e
  end.

(** The helpers of [Command] raise [ConanException] only. *)
Definition lift {A} (r : result A) : outcome A :=
  match r with
  | Ok a => Done a
  | Raise e => Raised (ConanError e)
  end.

(** *** [Extender] *)

(** The state [Extender.__call__] reads and writes: the default of the
    action ([parser.set_defaults] rewrites it) and the attribute of the
    namespace. *)
Record extender_state := {
  action_default : option (list string);
  dest : option (list string) }.

(** [Extender.__call__]: a destination that is not a list, or that equals
    the default, is replaced by a fresh list and the default becomes
    [None]; then the values are appended. *)
Definition Extender_call (st : extender_state) (values : list string)
  : extender_state :=
  match dest st with
  | Some d =>
      if bool_decide (dest st = action_default st)
      then {| action_default := None; dest := Some ([] ++ values) |}
      else {| action_default := action_default st; dest := Some (d ++ values) |}
  | None => {| action_default := None; dest := Some ([] ++ values) |}
  end.

(** The attribute after [argparse] has stored the default and then called
    the action once per occurrence of the flag. *)
Definition extended (default : option (list string)) (occurrences : list (list string))
  : option (list string) :=
  dest (foldl Extender_call {| action_default := default; dest := default |}
              occurrences).

(** *** [os.path.abspath] *)

Definition abspath (cwd path : string) : string :=
  PosixPath.normpath (if negb (PosixPath.isabs path) then PosixPath.join cwd path
                      else path).

(** *** [remove] *)

(** The value of [--packages] and [--builds]: absent, given without a value
    (the constant [[]]), or given with a text. *)
Inductive ids_arg :=
| IdsAbsent
| IdsConst
| IdsText (s : string).

(** What [remove] hands on: [None], a list, or the text left as it is. *)
Inductive ids_filter :=
| FilterNone
| FilterList (l : list string)
| FilterText (s : string).

(** [if args.packages: args.packages = args.packages.split(",")] *)
Definition split_ids (a : ids_arg) : ids_filter :=
  match a with
  | IdsAbsent => FilterNone
  | IdsConst => FilterList []
  | IdsText s => if PyStr.truthy s then FilterList (PyStr.split "," s) else FilterText s
  end.

Module remove_args.
Record t := {
  pattern : string;
  packages : ids_arg;
  builds : ids_arg;
  src : bool;
  force : bool;
  remote : option string }.
End remove_args.

(** The arguments of [ConanManager.remove]. *)
Record remove_call := {
  rm_pattern : string;
  rm_package_ids_filter : ids_filter;
  rm_build_ids : ids_filter;
  rm_src : bool;
  rm_force : bool;
  rm_remote : option string }.

Definition remove (args : remove_args.t) : remove_call :=
  {| rm_pattern := remove_args.pattern args;
     rm_package_ids_filter := split_ids (remove_args.packages args);
     rm_build_ids := split_ids (remove_args.builds args);
     rm_src := remove_args.src args;
     rm_force := remove_args.force args;
     rm_remote := remove_args.remote args |}.

(** *** [test_package]: the test folder and the build mode *)

Definition no_test_folder (folder : string) : exn :=
  ConanException ("test folder '" +:+ folder
                  +:+ "' not available, or it doesn't have a conanfile.py").

(** The [for ... else] loop over the default test folder names. *)
Fixpoint first_test_folder (exists_ : string -> bool) (root_folder : string)
    (names : list string) : result (string * string) :=
  match names with
  | [] => Raise (no_test_folder "test_package")
  | name :: rest =>
      let test_folder := PosixPath.join root_folder name in
      let test_conanfile := PosixPath.join test_folder "conanfile.py" in
      if exists_ test_conanfile then Ok (name, test_folder)
      else first_test_folder exists_ root_folder rest
  end.

(** The choice of [(test_folder_name, test_folder)] in [test_package];
    [exists_] is [os.path.exists]. *)
Definition test_folder (exists_ : string -> bool) (current_path path : string)
    (folder : option string) : result (string * string) :=
  let root_folder := PosixPath.normpath (PosixPath.join current_path path) in
  if PyStr.otruthy folder then
    let test_folder_name := default "" folder in
    let test_folder := PosixPath.join root_folder test_folder_name in
    let test_conanfile := PosixPath.join test_folder "conanfile.py" in
    if negb (exists_ test_conanfile) then Raise (no_test_folder test_folder_name)
    else Ok (test_folder_name, test_folder)
  else first_test_folder exists_ root_folder ["test_package"; "test"].

(** [os.path.join(test_folder, "build", sha)] *)
Definition build_folder (test_folder : string)
    (options settings : option (list string)) : string :=
  PosixPath.join (PosixPath.join test_folder "build")
                 (test_package_sha options settings).

(** The build mode of [test_package]: without [--build] the tested library
    is forced, otherwise the argument is resolved as in [install]. *)
Definition test_package_build_mode (first_dep_name : string) (build : build_param)
  : build_mode :=
  let lib_to_test := first_dep_name +:+ "*" in
  match build with
  | BuildNone =>
      if PyStr.truthy lib_to_test then ModePatterns [lib_to_test]
      else _get_build_sources_parameter build
  | _ => _get_build_sources_parameter build
  end.

Module info_args.
Record t := {
  reference : string;
  file : option string;
  remote : option string;
  options : option (list string);
  settings : option (list string);
  only : option string;
  update : bool;
  build_order : option (list string);
  build : build_param;
  scope : option (list string) }.
End info_args.

Module build_args.
Record t := {
  path : string;
  file : option string;
  profile : option string }.
End build_args.

Module search_args.
Record t := {
  pattern : option string;
  case_sensitive : bool;
  remote : option string;
  query : option string }.
End search_args.

Module new_args.
Record t := {
  name : string;
  test : bool;
  header : bool;
  pure_c : bool }.
End new_args.

(** What [search] looks for: a parsed reference or the raw pattern. *)
Inductive search_target :=
| TargetReference (r : ConanFileReference)
| TargetPattern (p : option string).

(** The arguments of [ConanManager.search]. *)
Record search_call := {
  se_target : search_target;
  se_remote : option string;
  se_ignorecase : bool;
  se_packages_query : option string }.

Definition query_needs_reference : exn :=
  ConanException
    ("-q parameter only allowed with a valid recipe reference as search pattern. "
     +:+ "e.j conan search MyPackage/1.2@user/channel -q " +:+ String (ascii_of_nat 34) "os=Windows"
     +:+ String (ascii_of_nat 34) "").

Definition bad_parameter : exn :=
  ConanException
    "Bad parameter, please use full package name,e.g: MyLib/1.2.3@user/testing".

(** What [run] and [new] write to the user. *)
Inductive output :=
| OutSuccess (msg : string)
| OutError (msg : string)
| OutHelp
| LogError (what : string).

(** *** [_test_check] *)

(** [sub in s] on strings. *)
Fixpoint contains_text (sub s : string) : bool :=
  String.prefix sub s
  || match s with
     | EmptyString => false
     | String _ r => contains_text sub r
     end.

Definition quote : string := String (ascii_of_nat 34) "".

Definition layout_changed : string :=
  "******* conan test command layout has changed *******".

(** The message about [conanfile.py], with the folder name filled in. *)
Definition conanfile_layout_message (test_folder_name : string) : string :=
  String.concat Manifest.newline
    [layout_changed;
     "";
     "In your " +:+ quote +:+ test_folder_name +:+ quote
       +:+ " folder 'conanfile.py' you should use the";
     "path to the conanfile_directory, something like:";
     "";
     "    self.run('cmake %s %s' % (self.conanfile_directory, cmake.command_line))";
     "";
     " "].

(** The message about [CMakeLists.txt], with the folder name filled in. *)
Definition cmake_layout_message (test_folder_name : string) : string :=
  String.concat Manifest.newline
    [layout_changed;
     "";
     "In your " +:+ quote +:+ test_folder_name +:+ quote
       +:+ " folder 'CMakeLists.txt' you should use the";
     "path to the CMake binary directory, like this:";
     "";
     "   include(${CMAKE_BINARY_DIR}/conanbuildinfo.cmake)";
     "";
     " "].

(** [_test_check]: the errors written about the layout of the test folder;
    [exists_] is [os.path.exists] and [load] reads a file. *)
Definition _test_check (exists_ : string -> bool) (load : string -> string)
    (test_folder test_folder_name : string) : result (list output) :=
  let test_conanfile := PosixPath.join test_folder "conanfile.py" in
  if negb (exists_ test_conanfile)
  then Raise (ConanException "Test conanfile.py does not exist")
  else
    let test_conanfile_content := load test_conanfile in
    let out1 :=
      if negb (contains_text ".conanfile_directory" test_conanfile_content)
      then [OutError (conanfile_layout_message test_folder_name)]
      else [] in
    let test_cmake := PosixPath.join test_folder "CMakeLists.txt" in
    let out2 :=
      if exists_ test_cmake then
        let test_cmake_content := load test_cmake in
        if negb (contains_text "${CMAKE_BINARY_DIR}/conanbuildinfo.cmake"
                               test_cmake_content)
        then [OutError (cmake_layout_message test_folder_name)]
        else []
      else [] in
    Ok (out1 ++ out2).

(** How [run] ends: it returns its [errors] flag or lets an exception
    through. *)
Inductive run_result :=
| Returned (errors : bool)
| Propagated (r : raised).

Section commands.

(** Collaborators that live outside [command.py]. *)
Variable loads : string -> outcome ConanFileReference.
(** [os.getcwd()] *)
Variable current_path : string.

(** [_get_reference]: a reference, or a path when the text has no ["@"];
    a relative path is made absolute and normalised. *)
Definition _get_reference (reference : string) : outcome (string * ref_or_path) :=
  match loads reference with
  | Done r => Done (current_path, IsReference r)
  | Raised e =>
      if PyStr.contains "@" reference then Raised e
      else if negb (PosixPath.isabs reference)
      then Done (current_path,
                 IsPath (PosixPath.normpath (PosixPath.join current_path reference)))
      else Done (current_path, IsPath reference)
  end.

(** What the [package] command asks of the manager. *)
Inductive package_call :=
| CallPackage (r : ConanFileReference) (package : string)
| CallLocalPackage (current_path build_folder : string).

Variable manager_package : ConanFileReference -> string -> outcome unit.
Variable manager_local_package : string -> string -> outcome unit.

(** [package]: the calls made, in order, and how the command ends.  The
    [try] covers both the parsing and [ConanManager.package]. *)
Definition package (reference package_id : string)
  : list package_call * outcome unit :=
  let fallback (calls : list package_call) (e : raised) :=
    if PyStr.contains "@" reference then (calls, Raised e)
    else
      let build_folder :=
        if negb (PosixPath.isabs reference)
        then PosixPath.normpath (PosixPath.join current_path reference)
        else reference in
      (calls ++ [CallLocalPackage current_path build_folder],
       manager_local_package current_path build_folder) in
  match loads reference with
  | Done r =>
      match manager_package r package_id with
      | Done tt => ([CallPackage r package_id], Done tt)
      | Raised e => fallback [CallPackage r package_id] e
      end
  | Raised e => fallback [] e
  end.

(** [build]: the arguments of [ConanManager.build]. *)
Definition build (args : build_args.t)
  : string * string * option string * option string :=
  let root_path :=
    if PyStr.truthy (build_args.path args) then abspath current_path (build_args.path args)
    else current_path in
  (root_path, current_path, build_args.file args, build_args.profile args).

(** [export]: the arguments of [ConanManager.export]. *)
Definition export (user : string) (path : option string) (keep_source : bool)
  : string * string * bool :=
  (user,
   abspath current_path (if PyStr.otruthy path then default "" path else current_path),
   keep_source).

(** What the [imports] command asks of the manager. *)
Inductive imports_call :=
| CallImportsUndo (current_path : string)
| CallImports (current_path : string) (reference : ref_or_path)
              (file dest : option string).

(** [imports] *)
Definition imports (reference : string) (file dest : option string) (undo : bool)
  : outcome imports_call :=
  if undo then
    Done (CallImportsUndo
            (if negb (PosixPath.isabs reference)
             then PosixPath.normpath (PosixPath.join current_path reference)
             else reference))
  else
    '(current_path, reference) ← _get_reference reference;
    Done (CallImports current_path reference file dest).

(** [search] *)
Definition search (args : search_args.t) : outcome search_call :=
  reference ←
    (if PyStr.otruthy (search_args.pattern args) then
       match loads (default "" (search_args.pattern args)) with
       | Done r => Done (Some r)
       | Raised (ConanError _) =>
           if is_some (search_args.query args)
           then Raised (ConanError query_needs_reference)
           else Done None
       | Raised e => Raised e
       end
     else Done None);
  Done {| se_target :=
            match reference with
            | Some r => TargetReference r
            | None => TargetPattern (search_args.pattern args)
            end;
          se_remote := search_args.remote args;
          se_ignorecase := negb (search_args.case_sensitive args);
          se_packages_query := search_args.query args |}.

(** The templates of [conans.client.new], each with its [format], and the
    clean-up of the name ([re.sub] and [capitalize]). *)
Variable conanfile : string -> string -> string -> string.
Variable conanfile_header : string -> string -> string -> string.
Variable test_conanfile : string -> string -> string -> string -> string -> string.
Variables test_cmake test_main : string.
Variable package_name_of : string -> string.

Definition pure_c_config : string :=
  Manifest.newline +:+ "    def configure(self):" +:+ Manifest.newline
  +:+ "        del self.settings.compiler.libcxx".

(** [new]: the files saved and the messages written, in order. *)
Definition new (args : new_args.t) : result (gmap string string * list output) :=
  match loads (new_args.name args) with
  | Raised _ => Raise bad_parameter
  | Done r =>
      let package_name := package_name_of (name r) in
      let files : gmap string string :=
        if new_args.header args
        then {["conanfile.py" := conanfile_header (name r) (version r) package_name]}
        else
          let files : gmap string string :=
            {["conanfile.py" := conanfile (name r) (version r) package_name]} in
          if new_args.pure_c args
          then <["conanfile.py" := default "" (files !! "conanfile.py") +:+ pure_c_config]>
                 files
          else files in
      let files :=
        if new_args.test args
        then <["test_package/example.cpp" := test_main]>
               (<["test_package/CMakeLists.txt" := test_cmake]>
                  (<["test_package/conanfile.py" :=
                       test_conanfile (name r) (version r) (user r) (channel r)
                                      package_name]> files))
        else files in
      Ok (files,
          (fun f => OutSuccess ("File saved: " +:+ f))
            <$> merge_sort String.le (map_to_list files).*1)
  end.

(** The command table of [_commands], the version text, [str] of a
    [KeyError] and [exception_message_safe]. *)
Variable commands : gmap string (list string -> outcome unit).
Variable CLIENT_VERSION : string.
Variable key_error_text : string -> string.
Variable exception_message_safe : raised -> string.

(** The outer handlers of [run]. *)
Definition handle (shown : list output) (r : raised) : list output * run_result :=
  match r with
  | Interrupt what => (shown ++ [LogError what], Returned true)
  | ConanError _ => (shown ++ [OutError (exception_message_safe r)], Returned true)
  | OtherError _ => (shown, Propagated r)
  end.

(** [run]: what is written and how the dispatcher ends. *)
Definition run (argv : list string) : list output * run_result :=
  match argv with
  | [] => ([OutHelp], Returned false)
  | command :: rest =>
      match commands !! command with
      | None =>
          if bool_decide (command ∈ ["-v"; "--version"])
          then ([OutSuccess ("Conan version " +:+ CLIENT_VERSION)], Returned false)
          else if bool_decide (command ∈ ["-h"; "--help"])
          then ([OutHelp], Returned false)
          else handle [OutHelp]
                 (ConanError (ConanException
                                ("Unknown command " +:+ key_error_text command)))
      | Some method =>
          match method rest with
          | Done tt => ([], Returned false)
          | Raised r => handle [] r
          end
      end
  end.

End commands.

Section info.

Variable loads : string -> option ConanFileReference.
Variable Scopes : Type.
Variable Scopes_from_list : list string -> result Scopes.
Variable current_path : string.

(** The keyword arguments handed to [ConanManager.info]. *)
Record info_call := {
  nf_reference : ref_or_path;
  nf_current_path : string;
  nf_remote : option string;
  nf_options : list (string * string);
  nf_settings : list (string * string);
  nf_package_settings : gmap string (list (string * string));
  nf_info : option string;
  nf_check_updates : bool;
  nf_filename : option string;
  nf_build_order : option (list string);
  nf_build_mode : build_mode;
  nf_scopes : option Scopes }.

Definition info (args : info_args.t) : result info_call :=
  options ← _get_tuples_list_from_extender_arg (info_args.options args);
  '(settings, package_settings) ←
    _get_simple_and_package_tuples (info_args.settings args);
  let build := _get_build_sources_parameter (info_args.build args) in
  let reference := resolve_reference loads current_path (info_args.reference args) in
  scopes ←
    (if PyStr.ltruthy (info_args.scope args)
     then s ← Scopes_from_list (PyStr.or_nil (info_args.scope args)); Ok (Some s)
     else Ok None);
  Ok {| nf_reference := reference;
        nf_current_path := current_path;
        nf_remote := info_args.remote args;
        nf_options := options;
        nf_settings := settings;
        nf_package_settings := package_settings;
        nf_info := info_args.only args;
        nf_check_updates := info_args.update args;
        nf_filename := info_args.file args;
        nf_build_order := info_args.build_order args;
        nf_build_mode := build;
        nf_scopes := scopes |}.

End info.

End Cli.

(** ** Command lines used as concrete inputs *)

(** [conan install <reference>] with no flag. *)
Definition install_defaults (reference : string) : Command.install_args.t :=
  {| Command.install_args.reference := reference;
     Command.install_args.package := None;
     Command.install_args.all := false;
     Command.install_args.file := None;
     Command.install_args.update := false;
     Command.install_args.scope := None;
     Command.install_args.profile := None;
     Command.install_args.generator := None;
     Command.install_args.werror := false;
     Command.install_args.manifests := None;
     Command.install_args.manifests_interactive := None;
     Command.install_args.verify := None;
     Command.install_args.no_imports := false;
     Command.install_args.remote := None;
     Command.install_args.options := None;
     Command.install_args.settings := None;
     Command.install_args.env := None;
     Command.install_args.build := Command.BuildNone |}.

(** Adds [--all]. *)
Definition with_all (a : Command.install_args.t) : Command.install_args.t :=
  {| Command.install_args.reference := Command.install_args.reference a;
     Command.install_args.package := Command.install_args.package a;
     Command.install_args.all := true;
     Command.install_args.file := Command.install_args.file a;
     Command.install_args.update := Command.install_args.update a;
     Command.install_args.scope := Command.install_args.scope a;
     Command.install_args.profile := Command.install_args.profile a;
     Command.install_args.generator := Command.install_args.generator a;
     Command.install_args.werror := Command.install_args.werror a;
     Command.install_args.manifests := Command.install_args.manifests a;
     Command.install_args.manifests_interactive :=
       Command.install_args.manifests_interactive a;
     Command.install_args.verify := Command.install_args.verify a;
     Command.install_args.no_imports := Command.install_args.no_imports a;
     Command.install_args.remote := Command.install_args.remote a;
     Command.install_args.options := Command.install_args.options a;
     Command.install_args.settings := Command.install_args.settings a;
     Command.install_args.env := Command.install_args.env a;
     Command.install_args.build := Command.install_args.build a |}.

(** Sets [--manifests], [--manifests-interactive] and [--verify]. *)
Definition with_manifest_flags (m mi v : option string)
    (a : Command.install_args.t) : Command.install_args.t :=
  {| Command.install_args.reference := Command.install_args.reference a;
     Command.install_args.package := Command.install_args.package a;
     Command.install_args.all := Command.install_args.all a;
     Command.install_args.file := Command.install_args.file a;
     Command.install_args.update := Command.install_args.update a;
     Command.install_args.scope := Command.install_args.scope a;
     Command.install_args.profile := Command.install_args.profile a;
     Command.install_args.generator := Command.install_args.generator a;
     Command.install_args.werror := Command.install_args.werror a;
     Command.install_args.manifests := m;
     Command.install_args.manifests_interactive := mi;
     Command.install_args.verify := v;
     Command.install_args.no_imports := Command.install_args.no_imports a;
     Command.install_args.remote := Command.install_args.remote a;
     Command.install_args.options := Command.install_args.options a;
     Command.install_args.settings := Command.install_args.settings a;
     Command.install_args.env := Command.install_args.env a;
     Command.install_args.build := Command.install_args.build a |}.

(** [conan upload Hello/0.1@lasote/testing --all] *)
Definition upload_hello_all : Command.upload_args.t :=
  {| Command.upload_args.pattern := "Hello/0.1@lasote/testing";
     Command.upload_args.package := None;
     Command.upload_args.remote := None;
     Command.upload_args.all := true;
     Command.upload_args.force := false;
     Command.upload_args.confirm := false;
     Command.upload_args.retry := None;
     Command.upload_args.retry_wait := None |}.

(** The folder exported by the test in its [exports] mode. *)
Definition hello_folder : gmap string string :=
  <["conanfile.py" := "from conans import ConanFile"]> (<["hello.h" := "hello"]> ∅).

(** What the test exports in its mode [exports_sources]: the recipe as
    exported file, [hello.h] as exported source. *)
Definition recipe_file : gmap string string :=
  <["conanfile.py" := "from conans import ConanFile"]> ∅.

Definition hello_source : gmap string string := <["hello.h" := "hello"]> ∅.

(** The client of the test before any command: an empty cache and the two
    configured remotes, both empty. *)
Definition fresh_client : Sync.world :=
  {| Sync.cache := ∅;
     Sync.remotes := [("default", ∅); ("other", ∅)];
     Sync.provenance := ∅ |}.

(** The commands of the round trip of the test, run one after the other on
    the fresh client. *)
Definition round_trip (excluded : string -> bool)
    (source_stage package_stage : gmap string string -> option (gmap string string))
    (ref P : string) (files sources : gmap string string) (t1 t2 t3 t4 : Z)
  : result Sync.world :=
  let install := Sync.install excluded source_stage package_stage in
  let w1 := Sync.export_recipe excluded ref t1 files sources fresh_client in
  r2 ← install ref P Sync.Missing false t2 w1;
  r3 ← Sync.upload excluded ref true None "default" false t3 r2.1;
  w4 ← Sync.remove ref true r3.1;
  r5 ← install ref P Sync.Never false t4 w4;
  Ok r5.1.

(** The package stage of the test recipe: the headers go to [include]. *)
Definition copy_headers (tree : gmap string string) : option (gmap string string) :=
  Some (<["include/hello.h" := default "" (tree !! "hello.h")]> ∅).










(** A scope parser that accepts everything. *)
Definition no_scopes (items : list string) : result unit := Ok tt.

(** The reference of the test recipe. *)
Definition hello : Command.ConanFileReference :=
  {| Command.name := "Hello"; Command.version := "0.1";
     Command.user := "lasote"; Command.channel := "testing" |}.


(** [ConanFileReference.loads] as a function that raises: the parser of
    the canonical form, with a [ConanException] for any other text. *)
Definition loads_or_raise (text : string) : Cli.outcome Command.ConanFileReference :=
  match Reference.loads text with
  | Some r => Cli.Done r
  | None =>
      Cli.Raised (Cli.ConanError
                    (ConanException ("Wrong package recipe reference " +:+ text)))
  end.

(** The [info] command line that corresponds to an [install] one. *)
Definition info_like (a : Command.install_args.t) (only : option string)
    (build_order : option (list string)) : Cli.info_args.t :=
  {| Cli.info_args.reference := Command.install_args.reference a;
     Cli.info_args.file := Command.install_args.file a;
     Cli.info_args.remote := Command.install_args.remote a;
     Cli.info_args.options := Command.install_args.options a;
     Cli.info_args.settings := Command.install_args.settings a;
     Cli.info_args.only := only;
     Cli.info_args.update := Command.install_args.update a;
     Cli.info_args.build_order := build_order;
     Cli.info_args.build := Command.install_args.build a;
     Cli.info_args.scope := Command.install_args.scope a |}.

(** [key=value] *)
Definition key_value (kv : string * string) : string := kv.1 +:+ "=" +:+ kv.2.

(** A pair whose key and value are free of ["="]. *)
Definition plain_pair (kv : string * string) : Prop :=
  PyStr.contains "=" kv.1 = false /\ PyStr.contains "=" kv.2 = false.

(** A tuple whose name is not scoped by a package. *)
Definition unscoped (kv : string * string) : Prop := PyStr.contains ":" kv.1 = false.

Global Instance unscoped_dec kv : Decision (unscoped kv).
Proof. unfold unscoped. apply _. Defined.

(** A tuple whose name is scoped by the package [pkg]. *)
Definition scoped_by (pkg : string) (kv : string * string) : Prop :=
  String.prefix (pkg +:+ ":") kv.1 = true.

Global Instance scoped_by_dec pkg kv : Decision (scoped_by pkg kv).
Proof. unfold scoped_by. apply _. Defined.

(** [pkg:name] with its value. *)
Definition rescope (pkg : string) (nv : string * string) : string * string :=
  (pkg +:+ ":" +:+ nv.1, nv.2).

(** [conan remove Hello/* -p 5ab84d6,9cf83af] *)
Definition remove_two : Cli.remove_args.t :=
  {| Cli.remove_args.pattern := "Hello/*";
     Cli.remove_args.packages := Cli.IdsText "5ab84d6,9cf83af";
     Cli.remove_args.builds := Cli.IdsAbsent;
     Cli.remove_args.src := false;
     Cli.remove_args.force := false;
     Cli.remove_args.remote := None |}.

(** A manager whose operations succeed. *)
Definition package_succeeds (r : Command.ConanFileReference) (package_id : string)
  : Cli.outcome unit := Cli.Done tt.
Definition local_package_succeeds (current_path build_folder : string)
  : Cli.outcome unit := Cli.Done tt.

(** The same [new] command line with another [--pure_c]. *)
Definition with_pure_c (b : bool) (a : Cli.new_args.t) : Cli.new_args.t :=
  {| Cli.new_args.name := Cli.new_args.name a;
     Cli.new_args.test := Cli.new_args.test a;
     Cli.new_args.header := Cli.new_args.header a;
     Cli.new_args.pure_c := b |}.

(** The separator [os.path.join] puts after a first component. *)
Definition join_separator (a : string) : string :=
  if negb (PyStr.truthy a) || PyStr.endswith_char "/" a then "" else "/".

(** [conan install Hello/0.1@lasote/testing --all -o broken] *)
Definition install_all_broken_option : Command.install_args.t :=
  {| Command.install_args.reference := "Hello/0.1@lasote/testing";
     Command.install_args.package := None;
     Command.install_args.all := true;
     Command.install_args.file := None;
     Command.install_args.update := false;
     Command.install_args.scope := None;
     Command.install_args.profile := None;
     Command.install_args.generator := None;
     Command.install_args.werror := false;
     Command.install_args.manifests := None;
     Command.install_args.manifests_interactive := None;
     Command.install_args.verify := None;
     Command.install_args.no_imports := false;
     Command.install_args.remote := None;
     Command.install_args.options := Some ["broken"];
     Command.install_args.settings := None;
     Command.install_args.env := None;
     Command.install_args.build := Command.BuildNone |}.

(** [conan install . -o shared=True -s os -e CC -m -mi] *)
Definition install_two_broken_items : Command.install_args.t :=
  {| Command.install_args.reference := ".";
     Command.install_args.package := None;
     Command.install_args.all := false;
     Command.install_args.file := None;
     Command.install_args.update := false;
     Command.install_args.scope := None;
     Command.install_args.profile := None;
     Command.install_args.generator := None;
     Command.install_args.werror := false;
     Command.install_args.manifests := Some ".conan_manifests";
     Command.install_args.manifests_interactive := Some ".conan_manifests";
     Command.install_args.verify := None;
     Command.install_args.no_imports := false;
     Command.install_args.remote := None;
     Command.install_args.options := Some ["shared=True"];
     Command.install_args.settings := Some ["os"];
     Command.install_args.env := Some ["CC"];
     Command.install_args.build := Command.BuildNone |}.

(** The raw [args.build] after the occurrences of [--build] on a command
    line (the flag is declared with the [Extender] action and no default). *)
Definition build_of_command_line (occurrences : list (list string))
  : Command.build_param :=
  match Cli.extended None occurrences with
  | Some values => Command.BuildList values
  | None => Command.BuildNone
  end.

(** ** Auxiliary predicates of the statements *)

(** An item that splits on ["="] into exactly two chunks. *)
Definition well_formed_item (item : string) : Prop :=
  length (PyStr.split "=" item) = 2.

(** The argument checks that precede the manifest flags. *)
Definition parsed_arguments {Scopes : Type}
    (Scopes_from_list : list string -> result Scopes)
    (args : Command.install_args.t) : result unit :=
  _ ← Command._get_tuples_list_from_extender_arg (Command.install_args.options args);
  _ ← Command._get_simple_and_package_tuples (Command.install_args.settings args);
  _ ← Command._get_simple_and_package_tuples (Command.install_args.env args);
  if PyStr.ltruthy (Command.install_args.scope args)
  then _ ← Scopes_from_list (PyStr.or_nil (Command.install_args.scope args)); Ok tt
  else Ok tt.

(** The two conflicts among the manifest flags, on truthy values. *)
Definition flags_conflict (args : Command.install_args.t) : bool :=
  PyStr.otruthy (Command.install_args.manifests args)
  && PyStr.otruthy (Command.install_args.manifests_interactive args)
  || PyStr.otruthy (Command.install_args.verify args)
     && (PyStr.otruthy (Command.install_args.manifests args)
         || PyStr.otruthy (Command.install_args.manifests_interactive args)).

(** [args.verify or args.manifests or args.manifests_interactive] *)
Definition given_folder (args : Command.install_args.t) : option string :=
  Command.por (Command.por (Command.install_args.verify args)
                           (Command.install_args.manifests args))
              (Command.install_args.manifests_interactive args).

(** * Properties *)

(** ** Test vectors *)

Example loads_hello : Reference.loads "Hello/0.1@lasote/testing" = Some hello.
Proof. reflexivity. Qed.
Example loads_folder : Reference.loads "./my_project/" = None.
Proof. reflexivity. Qed.
Example split_name : PyStr.split "=" "name" = ["name"].
Proof. reflexivity. Qed.
Example split_abc : PyStr.split "=" "a=b=c" = ["a"; "b"; "c"].
Proof. reflexivity. Qed.
Example split_trailing : PyStr.split "=" "a=" = ["a"; ""].
Proof. reflexivity. Qed.

Example sha1_abc :
  Digest.sha1_hexdigest "abc" = "a9993e364706816aba3e25717850c26c9cd0d89d".
Proof. vm_compute. reflexivity. Qed.
Example sha1_two_blocks :
  Digest.sha1_hexdigest
    "aaaaaaaaaaaaaaaaaaaaaaaaaaaaaaaaaaaaaaaaaaaaaaaaaaaaaaaaaaaaaaaaaaaaaa"
  = "ed6c69d9e8b4373af86303dfaa3528dfbc129902".
Proof. vm_compute. reflexivity. Qed.
Example md5_empty :
  Digest.md5_hexdigest "" = "d41d8cd98f00b204e9800998ecf8427e".
Proof. vm_compute. reflexivity. Qed.
Example md5_abc :
  Digest.md5_hexdigest "abc" = "900150983cd24fb0d6963f7d28e17f72".
Proof. vm_compute. reflexivity. Qed.
Example md5_two_blocks :
  Digest.md5_hexdigest
    "aaaaaaaaaaaaaaaaaaaaaaaaaaaaaaaaaaaaaaaaaaaaaaaaaaaaaaaaaaaaaaaaaaaaaa"
  = "0f5c6c4e740bfcc08c3c26ccb2673d46".
Proof. vm_compute. reflexivity. Qed.

(** ** Appending and joining strings *)

Lemma append_cons c a b : String c a +:+ b = String c (a +:+ b).
Proof. reflexivity. Qed.

Lemma append_nil_r a : a +:+ "" = a.
Proof. induction a as [|x a IH]; [reflexivity|]. now rewrite append_cons, IH. Qed.

Lemma append_assoc a b c : (a +:+ b) +:+ c = a +:+ (b +:+ c).
Proof. induction a as [|x a IH]; [reflexivity|]. now rewrite !append_cons, IH. Qed.

Lemma concat_cons x l : String.concat "" (x :: l) = x +:+ String.concat "" l.
Proof.
  destruct l as [|y l]; [now rewrite append_nil_r|reflexivity].
Qed.

Lemma concat_app l1 l2 :
  String.concat "" (l1 ++ l2) = String.concat "" l1 +:+ String.concat "" l2.
Proof.
  induction l1 as [|x l1 IH]; [reflexivity|].
  change ((x :: l1) ++ l2) with (x :: (l1 ++ l2)).
  now rewrite !concat_cons, IH, append_assoc.
Qed.

(** ** Splitting strings *)

Section split_facts.
Variable sep : ascii.

Lemma split_not_nil s : PyStr.split sep s <> [].
Proof.
  destruct s as [|c r]; simpl; [discriminate|].
  destruct (Ascii.eqb c sep); [discriminate|].
  destruct (PyStr.split sep r); discriminate.
Qed.

(** Joining the chunks with the separator gives the string back. *)
Lemma split_join s : String.concat (String sep "") (PyStr.split sep s) = s.
Proof.
  induction s as [|c r IH]; [reflexivity|].
  simpl. destruct (Ascii.eqb_spec c sep) as [->|Hne].
  - pose proof (split_not_nil r) as Hnil.
    destruct (PyStr.split sep r) as [|h t]; [contradiction|].
    simpl in *. now rewrite IH.
  - pose proof (split_not_nil r) as Hnil.
    destruct (PyStr.split sep r) as [|h t]; [contradiction|].
    destruct t; simpl in *; now rewrite <- IH.
Qed.

(** No chunk contains the separator. *)
Lemma split_no_sep s :
  Forall (fun chunk => PyStr.contains sep chunk = false) (PyStr.split sep s).
Proof.
  induction s as [|c r IH]; simpl; [repeat constructor|].
  destruct (Ascii.eqb c sep) eqn:E.
  - constructor; [reflexivity|exact IH].
  - destruct (PyStr.split sep r) as [|h t]; simpl.
    + repeat constructor. simpl. now rewrite E.
    + inversion IH; subst. constructor; [|assumption].
      simpl. now rewrite E.
Qed.

(** A split in two chunks cuts the string at its only separator. *)
Lemma split_two s k v :
  PyStr.split sep s = [k; v] ->
  s = k +:+ String sep v
  /\ PyStr.contains sep k = false /\ PyStr.contains sep v = false.
Proof.
  intros H. pose proof (split_join s) as J. pose proof (split_no_sep s) as N.
  rewrite H in J, N. simpl in J.
  apply Forall_cons in N as [Hk N]. apply Forall_cons in N as [Hv _].
  split; [symmetry; exact J|]. now split.
Qed.
End split_facts.

(** ** [_get_tuples_list_from_extender_arg] *)

Lemma validate_pairs_ok items :
  Forall well_formed_item items -> Command.validate_pairs items = Ok tt.
Proof.
  induction 1 as [|item rest Hi _ IH]; [reflexivity|].
  simpl. unfold well_formed_item in Hi. now rewrite Hi.
Qed.

Lemma validate_pairs_raise items :
  ~ Forall well_formed_item items ->
  exists before item after,
    items = before ++ item :: after
    /\ Forall well_formed_item before /\ ~ well_formed_item item
    /\ Command.validate_pairs items = Raise (Command.invalid_input item).
Proof.
  induction items as [|item rest IH]; intros Hbad.
  - exfalso. apply Hbad. constructor.
  - simpl. destruct (Nat.eqb_spec (length (PyStr.split "=" item)) 2) as [E|E].
    + destruct IH as (before & bad & after & -> & Hb & Hn & Hr).
      { intros Hall. apply Hbad. now constructor. }
      exists (item :: before), bad, after. simpl.
      split; [reflexivity|]. split; [now constructor|]. now split.
    + exists [], item, rest. simpl. repeat split; auto.
  Qed.

Lemma first_two_pairs items :
  Forall well_formed_item items ->
  let pairs := map Command.first_two (map (PyStr.split "=") items) in
  map (fun kv => kv.1 +:+ "=" +:+ kv.2) pairs = items
  /\ Forall (fun kv => PyStr.contains "=" kv.1 = false
                       /\ PyStr.contains "=" kv.2 = false) pairs.
Proof.
  induction 1 as [|item rest Hi _ [IH1 IH2]]; simpl; [split; constructor|].
  unfold well_formed_item in Hi.
  destruct (PyStr.split "=" item) as [|k [|v [|? ?]]] eqn:E; try discriminate.
  apply split_two in E as (-> & Hk & Hv). simpl in *.
  split; [now rewrite IH1|]. constructor; [now split|assumption].
Qed.

(** The early return on an empty or absent list agrees with the general
    path, whose loops then run over no item. *)
Lemma tuples_from_extender_arg_unfold items :
  Command._get_tuples_list_from_extender_arg items
  = (_ ← Command.validate_pairs (PyStr.or_nil items);
     Ok (map Command.first_two (map (PyStr.split "=") (PyStr.or_nil items)))).
Proof. destruct items as [[|i l]|]; reflexivity. Qed.

(** C9: [_get_tuples_list_from_extender_arg] raises a [ConanException]
    naming the (first) offending item whenever some item does not split on
    ["="] into exactly two chunks, so that ["name"] and ["a=b=c"] are both
    rejected; otherwise it returns the [(key, value)] pairs in the input
    order, each item being [key=value] with no ["="] in either part; an
    empty or absent list yields the empty list without error. *)
Theorem tuples_from_extender_arg (items : option (list string)) :
  (~ Forall well_formed_item (PyStr.or_nil items) ->
     exists item, item ∈ PyStr.or_nil items /\ ~ well_formed_item item
       /\ Command._get_tuples_list_from_extender_arg items
          = Raise (ConanException ("Invalid input '" +:+ item +:+ "', use 'name=value'")))
  /\ (Forall well_formed_item (PyStr.or_nil items) ->
      exists pairs,
        Command._get_tuples_list_from_extender_arg items = Ok pairs
        /\ map (fun kv => kv.1 +:+ "=" +:+ kv.2) pairs = PyStr.or_nil items
        /\ Forall (fun kv => PyStr.contains "=" kv.1 = false
                             /\ PyStr.contains "=" kv.2 = false) pairs)
  /\ (PyStr.or_nil items = [] ->
      Command._get_tuples_list_from_extender_arg items = Ok [])
  /\ ~ well_formed_item "name" /\ ~ well_formed_item "a=b=c".
Proof.
  rewrite tuples_from_extender_arg_unfold.
  split; [|split; [|split]].
  - intros Hbad.
    destruct (validate_pairs_raise _ Hbad) as (before & item & after & E & _ & Hn & Hr).
    exists item. split; [rewrite E; set_solver|]. split; [exact Hn|].
    rewrite Hr. reflexivity.
  - intros Hall.
    destruct (first_two_pairs _ Hall) as [H1 H2].
    rewrite (validate_pairs_ok _ Hall).
    eexists. split; [reflexivity|]. now split.
  - intros ->. reflexivity.
  - split; unfold well_formed_item; vm_compute; discriminate.
Qed.

(** C9 at concrete inputs: a list with an offending item, and a
    well-formed list. *)
Lemma tuples_from_extender_arg_witness :
  (~ Forall well_formed_item ["os=Linux"; "bad"]
   /\ exists item, item ∈ ["os=Linux"; "bad"] /\ ~ well_formed_item item
        /\ Command._get_tuples_list_from_extender_arg (Some ["os=Linux"; "bad"])
           = Raise (ConanException ("Invalid input '" +:+ item +:+ "', use 'name=value'")))
  /\ (Forall well_formed_item ["os=Linux"; "arch=x86"]
      /\ exists pairs,
           Command._get_tuples_list_from_extender_arg (Some ["os=Linux"; "arch=x86"])
           = Ok pairs
           /\ map (fun kv => kv.1 +:+ "=" +:+ kv.2) pairs = ["os=Linux"; "arch=x86"]
           /\ Forall (fun kv => PyStr.contains "=" kv.1 = false
                                /\ PyStr.contains "=" kv.2 = false) pairs).
Proof.
  assert (Hbad : ~ Forall well_formed_item ["os=Linux"; "bad"]).
  { intros H. apply Forall_cons in H as [_ H]. apply Forall_cons in H as [H _].
    vm_compute in H. discriminate. }
  assert (Hok : Forall well_formed_item ["os=Linux"; "arch=x86"]).
  { repeat constructor. }
  split; split; try assumption.
  - exact (proj1 (tuples_from_extender_arg (Some ["os=Linux"; "bad"])) Hbad).
  - exact (proj1 (proj2 (tuples_from_extender_arg (Some ["os=Linux"; "arch=x86"]))) Hok).
Defined.

Example tuples_in_order :
  Command._get_tuples_list_from_extender_arg (Some ["os=Linux"; "arch=x86"])
  = Ok [("os", "Linux"); ("arch", "x86")].
Proof. reflexivity. Qed.

(** ** [_get_build_sources_parameter] *)

(** C2: [_get_build_sources_parameter] returns [False] when the input is
    not a list or is [["never"]], [True] for [["missing"]], the keyword
    ["outdated"] for [["outdated"]], the pattern list [["*"]] for the empty
    list, and otherwise the given expressions each suffixed with ["*"]; no
    other result is possible. *)
Theorem build_sources_parameter_variants :
  Command._get_build_sources_parameter Command.BuildNone = Command.ModeFalse
  /\ (forall s, Command._get_build_sources_parameter (Command.BuildOther s)
                = Command.ModeFalse)
  /\ Command._get_build_sources_parameter (Command.BuildList ["never"])
     = Command.ModeFalse
  /\ Command._get_build_sources_parameter (Command.BuildList ["missing"])
     = Command.ModeTrue
  /\ Command._get_build_sources_parameter (Command.BuildList ["outdated"])
     = Command.ModeKeyword "outdated"
  /\ Command._get_build_sources_parameter (Command.BuildList [])
     = Command.ModePatterns ["*"]
  /\ (forall l, l <> [] -> l <> ["never"] -> l <> ["missing"] -> l <> ["outdated"] ->
        Command._get_build_sources_parameter (Command.BuildList l)
        = Command.ModePatterns (map (fun ref_expr => ref_expr +:+ "*") l))
  /\ (forall p,
        let r := Command._get_build_sources_parameter p in
        r = Command.ModeFalse \/ r = Command.ModeTrue
        \/ r = Command.ModeKeyword "outdated"
        \/ r = Command.ModePatterns ["*"]
        \/ exists l, p = Command.BuildList l /\ l <> []
             /\ r = Command.ModePatterns (map (fun ref_expr => ref_expr +:+ "*") l)).
Proof.
  assert (Hsingle : forall l k,
             (length l =? 1)%nat && String.eqb (nth 0 l "") k = true <-> l = [k]).
  { intros l k. split.
    - intros H. apply andb_prop in H as [Hl Hk].
      apply Nat.eqb_eq in Hl. apply String.eqb_eq in Hk.
      destruct l as [|x [|y l]]; try discriminate. simpl in Hk. now subst.
    - intros ->. simpl. now rewrite String.eqb_refl. }
  assert (Hgen : forall l, l <> [] -> l <> ["never"] -> l <> ["missing"] ->
             l <> ["outdated"] ->
             Command._get_build_sources_parameter (Command.BuildList l)
             = Command.ModePatterns (map (fun ref_expr => ref_expr +:+ "*") l)).
  { intros l H0 H1 H2 H3. unfold Command._get_build_sources_parameter.
    assert (E0 : (length l =? 0)%nat = false)
      by (destruct l; [contradiction|reflexivity]).
    rewrite E0.
    repeat match goal with
    | |- context [(?a =? 1)%nat && String.eqb ?b ?k] =>
        destruct ((a =? 1)%nat && String.eqb b k) eqn:?E;
        [apply Hsingle in E; contradiction|clear E]
    end.
    reflexivity. }
  repeat split; try reflexivity; try exact Hgen.
  intros p r. subst r. destruct p as [|s|l]; auto.
  destruct (decide (l = [])) as [->|H0]; [auto 6|].
  destruct (decide (l = ["never"])) as [->|H1]; [auto|].
  destruct (decide (l = ["missing"])) as [->|H2]; [auto|].
  destruct (decide (l = ["outdated"])) as [->|H3]; [auto|].
  do 4 right. exists l. auto.
Qed.

(** ** The build-folder digest of [test_package] *)

Lemma hex_byte_length b : String.length (Digest.hex_byte b) = 2.
Proof. reflexivity. Qed.

Lemma hex_be32_length w : String.length (Digest.hex_be32 w) = 8.
Proof. reflexivity. Qed.

Lemma sha1_hexdigest_length s : String.length (Digest.sha1_hexdigest s) = 40.
Proof. reflexivity. Qed.

(** C6: with no options and no settings the digest is taken over the empty
    string and is the constant SHA-1 of the empty message; the computation
    is total (it yields a string, never an exception) and every digest has
    40 characters. *)
Theorem empty_configuration_digest :
  PyStr.join (PyStr.or_nil (@None (list string)) ++ PyStr.or_nil (@None (list string))) = ""
  /\ Command.test_package_sha None None = "da39a3ee5e6b4b0d3255bfef95601890afd80709"
  /\ Command.test_package_sha (Some []) (Some [])
     = "da39a3ee5e6b4b0d3255bfef95601890afd80709"
  /\ forall options settings,
       String.length (Command.test_package_sha options settings) = 40.
Proof.
  split; [reflexivity|]. split; [vm_compute; reflexivity|].
  split; [vm_compute; reflexivity|].
  intros options settings. apply sha1_hexdigest_length.
Qed.

(** The digest depends on the order of the items. *)
Example digest_of_two_orders :
  Command.test_package_sha (Some ["a=1"; "b=2"]) None
  = "10cf73d13b980e22c78ecdc13f556962f871d697"
  /\ Command.test_package_sha (Some ["b=2"; "a=1"]) None
     = "1d434d5ae8a543161745a8dab26dad473985fc74".
Proof. split; vm_compute; reflexivity. Qed.

(** C1 as stated fails: two option lists with the same pairs in a different
    order have different digests. *)
Lemma digest_not_order_invariant :
  ~ (forall o1 o2 s1 s2 : list string,
       o1 ≡ₚ o2 -> s1 ≡ₚ s2 ->
       Command.test_package_sha (Some o1) (Some s1)
       = Command.test_package_sha (Some o2) (Some s2)).
Proof.
  intros H.
  specialize (H ["a=1"; "b=2"] ["b=2"; "a=1"] [] []).
  assert (E : Command.test_package_sha (Some ["a=1"; "b=2"]) (Some [])
              = Command.test_package_sha (Some ["b=2"; "a=1"]) (Some [])).
  { apply H; [apply Permutation_swap|reflexivity]. }
  vm_compute in E. discriminate.
Qed.

(** C1, amended: the digest is the SHA-1 hex digest of the text obtained
    by concatenating the option strings and then the setting strings in
    the order given (the FIPS 180-4 digest: [abc] gives [a9993e36...],
    and the text [a=1b=2] gives [10cf73d1...] however it is divided
    between options and settings); configurations with the same
    concatenated text, in particular the same lists in the same order,
    have the same digest, and the same pairs in the other order give
    another one. *)
Theorem digest_of_concatenation (o1 s1 o2 s2 : option (list string)) :
  Command.test_package_sha o1 s1
  = Digest.sha1_hexdigest
      (String.concat "" (PyStr.or_nil o1) +:+ String.concat "" (PyStr.or_nil s1))
  /\ (PyStr.join (PyStr.or_nil o1 ++ PyStr.or_nil s1)
      = PyStr.join (PyStr.or_nil o2 ++ PyStr.or_nil s2) ->
      Command.test_package_sha o1 s1 = Command.test_package_sha o2 s2)
  /\ Digest.sha1_hexdigest "abc" = "a9993e364706816aba3e25717850c26c9cd0d89d"
  /\ Command.test_package_sha (Some ["a=1"; "b=2"]) None
     = "10cf73d13b980e22c78ecdc13f556962f871d697"
  /\ Command.test_package_sha (Some ["a=1"]) (Some ["b=2"])
     = "10cf73d13b980e22c78ecdc13f556962f871d697"
  /\ Command.test_package_sha None (Some ["a=1"; "b=2"])
     = "10cf73d13b980e22c78ecdc13f556962f871d697"
  /\ Command.test_package_sha (Some ["b=2"; "a=1"]) None
     = "1d434d5ae8a543161745a8dab26dad473985fc74".
Proof.
  split; [|split].
  - unfold Command.test_package_sha, PyStr.join. now rewrite concat_app.
  - unfold Command.test_package_sha. intros ->. reflexivity.
  - repeat split; vm_compute; reflexivity.
Qed.

Lemma digest_of_concatenation_witness :
  Command.test_package_sha (Some ["a=1"]) (Some ["b=2"])
  = Command.test_package_sha (Some ["a=1"; "b=2"]) None.
Proof.
  apply (proj1 (proj2 (digest_of_concatenation (Some ["a=1"]) (Some ["b=2"])
                                               (Some ["a=1"; "b=2"]) None))).
  reflexivity.
Defined.

(** ** The [install] command *)

Lemma install_fixed_ids
    (loads : string -> option Command.ConanFileReference) (Scopes : Type)
    (Scopes_from_list : list string -> result Scopes) (current_path : string)
    (args : Command.install_args.t) :
  Command.install_args.all args || PyStr.ltruthy (Command.install_args.package args)
  = true ->
  Command.install loads Scopes Scopes_from_list current_path args
  = match loads (Command.install_args.reference args) with
    | Some r =>
        if PyStr.truthy (Command.install_args.reference args)
        then Ok (Command.CallDownload Scopes r
                   (if Command.install_args.all args then []
                    else PyStr.or_nil (Command.install_args.package args))
                   (Command.install_args.remote args))
        else Raise Command.invalid_reference
    | None => Raise Command.invalid_reference
    end.
Proof.
  intros H. unfold Command.install, Command.resolve_reference.
  rewrite H. destruct (loads _); [|reflexivity].
  now destruct (PyStr.truthy _).
Qed.

(** C8: when [install] is invoked with [--all] or with at least one
    [--package], an empty reference argument or one that does not parse as
    a recipe reference raises the [ConanException] "Invalid package recipe
    reference" and nothing is downloaded; with a reference that parses,
    the download is requested with the given package ids, or with the
    empty list (all packages) under [--all]. *)
Theorem install_fixed_ids_needs_reference
    (loads : string -> option Command.ConanFileReference) (Scopes : Type)
    (Scopes_from_list : list string -> result Scopes) (current_path : string)
    (args : Command.install_args.t) :
  Command.install_args.all args = true
  \/ PyStr.ltruthy (Command.install_args.package args) = true ->
  ((Command.install_args.reference args = ""
    \/ loads (Command.install_args.reference args) = None) ->
   Command.install loads Scopes Scopes_from_list current_path args
   = Raise (ConanException
              "Invalid package recipe reference. e.g., MyPackage/1.2@user/channel"))
  /\ (forall r,
        Command.install_args.reference args <> "" ->
        loads (Command.install_args.reference args) = Some r ->
        Command.install loads Scopes Scopes_from_list current_path args
        = Ok (Command.CallDownload Scopes r
                (if Command.install_args.all args then []
                 else PyStr.or_nil (Command.install_args.package args))
                (Command.install_args.remote args))).
Proof.
  intros Hfixed.
  assert (H : Command.install_args.all args
              || PyStr.ltruthy (Command.install_args.package args) = true).
  { destruct Hfixed as [-> | ->]; [reflexivity|apply orb_true_r]. }
  rewrite (install_fixed_ids _ _ _ _ _ H). split.
  - intros [E | E].
    + rewrite E. now destruct (loads "").
    + now rewrite E.
  - intros r Hne ->.
    destruct (Command.install_args.reference args); [contradiction|reflexivity].
Qed.

(** C8 at [install ./my_project/ --all] and at
    [install Hello/0.1@lasote/testing --all]. *)
Lemma install_fixed_ids_needs_reference_witness :
  Command.install Reference.loads unit no_scopes "/home/user"
    (with_all (install_defaults "./my_project/"))
  = Raise (ConanException
             "Invalid package recipe reference. e.g., MyPackage/1.2@user/channel")
  /\ Command.install Reference.loads unit no_scopes "/home/user"
       (with_all (install_defaults "Hello/0.1@lasote/testing"))
     = Ok (Command.CallDownload unit hello [] None).
Proof.
  split.
  - apply (install_fixed_ids_needs_reference Reference.loads unit no_scopes
             "/home/user" (with_all (install_defaults "./my_project/"))).
    + left. reflexivity.
    + right. reflexivity.
  - apply (install_fixed_ids_needs_reference Reference.loads unit no_scopes
             "/home/user" (with_all (install_defaults "Hello/0.1@lasote/testing"))).
    + left. reflexivity.
    + discriminate.
    + reflexivity.
Defined.

(** C10 as stated fails: [install Hello/0.1@lasote/testing --all --manifests
    --manifests-interactive] raises nothing; the download is requested. *)
Lemma install_all_ignores_manifest_flags :
  let args := with_manifest_flags (Some ".conan_manifests") (Some ".conan_manifests")
                None (with_all (install_defaults "Hello/0.1@lasote/testing")) in
  Command.install_args.manifests args = Some ".conan_manifests"
  /\ Command.install_args.manifests_interactive args = Some ".conan_manifests"
  /\ Command.install Reference.loads unit no_scopes "/home/user" args
     = Ok (Command.CallDownload unit hello [] None).
Proof. repeat split. Qed.

(** ** Paths *)

Lemma prefix_slash c r : String.prefix "/" (String c r) = Ascii.eqb c "/".
Proof.
  cbn [String.prefix]. destruct (ascii_dec "/" c) as [<-|Hne].
  - now destruct r.
  - symmetry. apply Ascii.eqb_neq. congruence.
Qed.

Lemma isabs_cons s : PosixPath.isabs s = true -> exists r, s = String "/" r.
Proof.
  unfold PosixPath.isabs, PyStr.startswith. destruct s as [|c r]; [discriminate|].
  rewrite prefix_slash. intros H. apply Ascii.eqb_eq in H as ->. eauto.
Qed.

Lemma isabs_append r t : PosixPath.isabs (String "/" r +:+ t) = true.
Proof.
  unfold PosixPath.isabs, PyStr.startswith.
  now rewrite append_cons, prefix_slash.
Qed.

Lemma join_isabs a b :
  PosixPath.isabs a = true -> PosixPath.isabs (PosixPath.join a b) = true.
Proof.
  intros Ha. unfold PosixPath.join.
  destruct (PyStr.startswith "/" b) eqn:Eb; [exact Eb|].
  apply isabs_cons in Ha as [r ->].
  destruct (_ || _); apply isabs_append.
Qed.

Lemma normpath_isabs p :
  PosixPath.isabs p = true -> PosixPath.isabs (PosixPath.normpath p) = true.
Proof.
  intros Hp. pose proof Hp as Hp'. apply isabs_cons in Hp' as [r ->].
  unfold PosixPath.normpath. cbn [PyStr.truthy negb].
  unfold PosixPath.isabs in Hp. rewrite Hp.
  destruct (_ && _);
    cbn [Nat.eqb PosixPath.slashes]; rewrite !append_cons; cbn [PyStr.truthy];
    unfold PosixPath.isabs, PyStr.startswith; now rewrite prefix_slash.
Qed.

Example normpath_project :
  PosixPath.normpath (PosixPath.join "/home/user" "./my_project/../lib//")
  = "/home/user/lib".
Proof. vm_compute. reflexivity. Qed.
Example normpath_empty : PosixPath.normpath "" = ".".
Proof. reflexivity. Qed.
Example normpath_double_slash : PosixPath.normpath "//a/./b" = "//a/b".
Proof. vm_compute. reflexivity. Qed.
Example normpath_parent_of_root : PosixPath.normpath "/../a" = "/a".
Proof. vm_compute. reflexivity. Qed.
Example normpath_relative_parent : PosixPath.normpath "../../a" = "../../a".
Proof. vm_compute. reflexivity. Qed.

(** ** Manifest flags of [install] *)

Ltac step_parse :=
  match goal with
  | |- context [mbind _ ?r] =>
      let E := fresh "E" in
      destruct r as [?|?] eqn:E; cbn [mbind result_bind]
  end.

Lemma install_classic_raise
    (loads : string -> option Command.ConanFileReference) (Scopes : Type)
    (Scopes_from_list : list string -> result Scopes) (current_path : string)
    (args : Command.install_args.t) e :
  Command.install_args.all args = false ->
  PyStr.ltruthy (Command.install_args.package args) = false ->
  parsed_arguments Scopes_from_list args = Raise e ->
  Command.install loads Scopes Scopes_from_list current_path args = Raise e.
Proof.
  intros Hall Hpkg. unfold parsed_arguments, Command.install.
  rewrite Hall, Hpkg. cbn [orb].
  step_parse; [|now intros [= ->]].
  step_parse; [|now intros [= ->]]. destruct a0 as [s ps]. cbn [mbind result_bind].
  step_parse; [|now intros [= ->]]. destruct a0 as [en pe]. cbn [mbind result_bind].
  destruct (PyStr.ltruthy (Command.install_args.scope args)); [|discriminate].
  step_parse; [discriminate|now intros [= ->]].
Qed.

Lemma install_classic_ok
    (loads : string -> option Command.ConanFileReference) (Scopes : Type)
    (Scopes_from_list : list string -> result Scopes) (current_path : string)
    (args : Command.install_args.t) :
  Command.install_args.all args = false ->
  PyStr.ltruthy (Command.install_args.package args) = false ->
  parsed_arguments Scopes_from_list args = Ok tt ->
  if PyStr.otruthy (Command.install_args.manifests args)
     && PyStr.otruthy (Command.install_args.manifests_interactive args)
  then Command.install loads Scopes Scopes_from_list current_path args
       = Raise Command.both_manifests
  else if PyStr.otruthy (Command.install_args.verify args)
          && (PyStr.otruthy (Command.install_args.manifests args)
              || PyStr.otruthy (Command.install_args.manifests_interactive args))
  then Command.install loads Scopes Scopes_from_list current_path args
       = Raise Command.verify_and_manifests
  else exists c,
      Command.install loads Scopes Scopes_from_list current_path args
      = Ok (Command.CallInstall Scopes c)
      /\ Command.in_reference Scopes c
         = Command.resolve_reference loads current_path
             (Command.install_args.reference args)
      /\ match given_folder args with
         | Some folder =>
             if PyStr.truthy folder then
               Command.in_manifest_folder Scopes c
               = Some (if PosixPath.isabs folder then folder
                       else match Command.in_reference Scopes c with
                            | Command.IsReference _ =>
                                PosixPath.join current_path folder
                            | Command.IsPath p => PosixPath.join p folder
                            end)
               /\ Command.in_manifest_verify Scopes c
                  = Command.is_some (Command.install_args.verify args)
               /\ Command.in_manifest_interactive Scopes c
                  = Command.is_some (Command.install_args.manifests_interactive args)
             else Command.in_manifest_folder Scopes c = Some folder
                  /\ Command.in_manifest_verify Scopes c = false
                  /\ Command.in_manifest_interactive Scopes c = false
         | None =>
             Command.in_manifest_folder Scopes c = None
             /\ Command.in_manifest_verify Scopes c = false
             /\ Command.in_manifest_interactive Scopes c = false
         end.
Proof.
  intros Hall Hpkg. unfold parsed_arguments, Command.install.
  rewrite Hall, Hpkg. cbn [orb].
  step_parse; [|discriminate].
  step_parse; [|discriminate]. destruct a0 as [s ps]. cbn [mbind result_bind].
  step_parse; [|discriminate]. destruct a0 as [en pe]. cbn [mbind result_bind].
  intros Hscope.
  set (scopes := if PyStr.ltruthy (Command.install_args.scope args) then _ else _).
  assert (Hsc : exists sc, scopes = Ok sc).
  { subst scopes. destruct (PyStr.ltruthy (Command.install_args.scope args)); [|eauto].
    destruct (Scopes_from_list _); [eauto|discriminate]. }
  destruct Hsc as [sc ->]. cbn [mbind result_bind].
  destruct (_ && _); [reflexivity|].
  destruct (_ && _); [reflexivity|].
  unfold given_folder.
  destruct (Command.por _ _) as [folder|]; [destruct (PyStr.truthy folder) eqn:Ef|].
  - eexists. split; [reflexivity|]. cbn. split; [reflexivity|].
    destruct (PosixPath.isabs folder); cbn; auto.
  - eexists. split; [reflexivity|]. cbn. auto.
  - eexists. split; [reflexivity|]. cbn. auto.
Qed.

(** C10, amended: on the classic path of [install] (neither [--all] nor a
    [--package]), giving non-empty values to both [--manifests] and
    [--manifests-interactive], or to [--verify] together with either of
    them, never reaches the install operation: an exception is raised, and
    it is the [ConanException] of the flag check whenever the options,
    settings, environment and scope arguments are well formed.  Without
    such a conflict and with well-formed arguments the install operation
    is requested, and a non-empty folder given by one of the three flags
    is passed on as an absolute path: unchanged when already absolute,
    otherwise joined to the current directory when the reference argument
    parses as a reference, and to the normalised project path (the
    reference argument joined to the current directory) when it does not;
    the verify and interactive marks are set from the flags present. *)
Theorem install_manifest_flags
    (loads : string -> option Command.ConanFileReference) (Scopes : Type)
    (Scopes_from_list : list string -> result Scopes) (current_path : string)
    (args : Command.install_args.t) :
  Command.install_args.all args = false ->
  PyStr.ltruthy (Command.install_args.package args) = false ->
  let run := Command.install loads Scopes Scopes_from_list current_path args in
  (flags_conflict args = true ->
     (exists e, run = Raise e)
     /\ (parsed_arguments Scopes_from_list args = Ok tt ->
         run = Raise
                 (if PyStr.otruthy (Command.install_args.manifests args)
                     && PyStr.otruthy (Command.install_args.manifests_interactive args)
                  then ConanException
                         "Do not specify both manifests and manifests-interactive arguments"
                  else ConanException
                         "Do not specify both 'verify' and 'manifests' or 'manifests-interactive' arguments")))
  /\ (flags_conflict args = false ->
      parsed_arguments Scopes_from_list args = Ok tt ->
      exists c, run = Ok (Command.CallInstall Scopes c))
  /\ (PosixPath.isabs current_path = true ->
      forall folder c,
        given_folder args = Some folder -> PyStr.truthy folder = true ->
        run = Ok (Command.CallInstall Scopes c) ->
        exists absolute,
          Command.in_manifest_folder Scopes c = Some absolute
          /\ PosixPath.isabs absolute = true
          /\ (PosixPath.isabs folder = true -> absolute = folder)
          /\ Command.in_manifest_verify Scopes c
             = Command.is_some (Command.install_args.verify args)
          /\ Command.in_manifest_interactive Scopes c
             = Command.is_some (Command.install_args.manifests_interactive args)
          /\ absolute
             = (if PosixPath.isabs folder then folder
                else match loads (Command.install_args.reference args) with
                     | Some _ => PosixPath.join current_path folder
                     | None =>
                         PosixPath.join
                           (PosixPath.normpath
                              (PosixPath.join current_path
                                 (Command.install_args.reference args)))
                           folder
                     end)).
Proof.
  intros Hall Hpkg run. subst run.
  destruct (parsed_arguments Scopes_from_list args) as [[]|e] eqn:Hparse.
  - pose proof (install_classic_ok loads Scopes Scopes_from_list current_path
                  args Hall Hpkg Hparse) as H.
    unfold flags_conflict.
    destruct (PyStr.otruthy (Command.install_args.manifests args)
              && PyStr.otruthy (Command.install_args.manifests_interactive args))
      eqn:E1.
    { rewrite H. cbn [orb]. repeat split; try discriminate; eauto. }
    destruct (PyStr.otruthy (Command.install_args.verify args)
              && (PyStr.otruthy (Command.install_args.manifests args)
                  || PyStr.otruthy (Command.install_args.manifests_interactive args)))
      eqn:E2.
    { rewrite H. cbn [orb]. repeat split; try discriminate; eauto. }
    destruct H as (c & Hrun & Href & Hfolder). rewrite Hrun. cbn [orb].
    split; [discriminate|]. split; [eauto|].
    intros Habs folder c' Hgiven Htruthy [= <-].
    rewrite Hgiven, Htruthy in Hfolder. destruct Hfolder as (Hf & Hv & Hi).
    eexists. split; [exact Hf|]. split; [|split; [|split; [exact Hv|split; [exact Hi|]]]].
    + destruct (PosixPath.isabs folder) eqn:Ef; [exact Ef|].
      rewrite Href. unfold Command.resolve_reference.
      destruct (loads _); apply join_isabs; [exact Habs|].
      apply normpath_isabs, join_isabs, Habs.
    + now intros ->.
    + rewrite Href. unfold Command.resolve_reference.
      destruct (PosixPath.isabs folder); [reflexivity|].
      now destruct (loads _).
  - rewrite (install_classic_raise loads Scopes Scopes_from_list current_path
               args e Hall Hpkg Hparse).
    split; [intros _; split; [eauto|discriminate]|].
    split; [discriminate|]. discriminate.
Qed.

(** C10 (amended) at [install Hello/0.1@lasote/testing --manifests
    --manifests-interactive] and at [install ./my_project --verify checks],
    run from [/home/user]. *)
Lemma install_manifest_flags_witness :
  Command.install Reference.loads unit no_scopes "/home/user"
    (with_manifest_flags (Some ".conan_manifests") (Some ".conan_manifests") None
       (install_defaults "Hello/0.1@lasote/testing"))
  = Raise (ConanException
             "Do not specify both manifests and manifests-interactive arguments")
  /\ exists c absolute,
       Command.install Reference.loads unit no_scopes "/home/user"
         (with_manifest_flags None None (Some "checks")
            (install_defaults "./my_project"))
       = Ok (Command.CallInstall unit c)
       /\ Command.in_manifest_folder unit c = Some absolute
       /\ PosixPath.isabs absolute = true
       /\ Command.in_manifest_verify unit c = true
       /\ Command.in_manifest_interactive unit c = false
       /\ absolute = "/home/user/my_project/checks".
Proof.
  split.
  - apply (install_manifest_flags Reference.loads unit no_scopes "/home/user"
             (with_manifest_flags (Some ".conan_manifests") (Some ".conan_manifests")
                None (install_defaults "Hello/0.1@lasote/testing")));
      reflexivity.
  - pose proof (install_manifest_flags Reference.loads unit no_scopes "/home/user"
                  (with_manifest_flags None None (Some "checks")
                     (install_defaults "./my_project"))
                  eq_refl eq_refl) as (_ & Hrun & Hfolder).
    destruct (Hrun eq_refl eq_refl) as [c Hc].
    destruct (Hfolder eq_refl "checks" c eq_refl eq_refl Hc)
      as (absolute & Hf & Ha & _ & Hv & Hi & Hexact).
    exists c, absolute.
    split; [exact Hc|]. split; [exact Hf|]. split; [exact Ha|].
    split; [exact Hv|]. split; [exact Hi|]. exact Hexact.
Defined.

Example install_verify_folder :
  exists c,
    Command.install Reference.loads unit no_scopes "/home/user"
      (with_manifest_flags None None (Some "checks") (install_defaults "./my_project"))
    = Ok (Command.CallInstall unit c)
    /\ Command.in_manifest_folder unit c = Some "/home/user/my_project/checks".
Proof. eexists. split; vm_compute; reflexivity. Qed.

(** An explicitly empty folder counts as an absent flag in the checks. *)
Example install_empty_manifest_folder :
  exists c,
    Command.install Reference.loads unit no_scopes "/home/user"
      (with_manifest_flags (Some "") (Some "m") None (install_defaults "./my_project"))
    = Ok (Command.CallInstall unit c)
    /\ Command.in_manifest_folder unit c = Some "/home/user/my_project/m".
Proof. eexists. split; vm_compute; reflexivity. Qed.

(** ** The [upload] command and its retry policy *)

Lemma sleeps_step i wait tr :
  Retry.sleeps (Retry.Attempt i :: Retry.Sleep wait :: tr) = wait :: Retry.sleeps tr.
Proof. reflexivity. Qed.

Lemma attempts_step i wait tr :
  Retry.attempts (Retry.Attempt i :: Retry.Sleep wait :: tr)
  = i :: Retry.attempts tr.
Proof. reflexivity. Qed.

Lemma with_retry_exhausted transport wait n : forall i,
  (forall j, j <= n -> is_Some (transport (i + j))) ->
  exists err tr,
    Retry.with_retry transport wait n i = (Raise (RemoteError err), tr)
    /\ transport (i + n) = Some err
    /\ Retry.sleeps tr = repeat wait n
    /\ Retry.attempts tr = seq i (S n).
Proof.
  induction n as [|n IH]; intros i Hfail.
  - destruct (Hfail 0 (Nat.le_refl _)) as [err Herr].
    rewrite Nat.add_0_r in *. exists err, [Retry.Attempt i].
    cbn. rewrite Herr. auto.
  - destruct (Hfail 0 (Nat.le_0_l _)) as [err0 Herr0].
    rewrite Nat.add_0_r in Herr0.
    destruct (IH (S i)) as (err & tr & Hrun & Hlast & Hs & Ha).
    { intros j Hj. replace (S i + j) with (i + S j) by lia. apply Hfail. lia. }
    exists err, (Retry.Attempt i :: Retry.Sleep wait :: tr).
    cbn [Retry.with_retry]. rewrite Herr0, Hrun.
    replace (i + S n) with (S i + n) by lia.
    rewrite sleeps_step, attempts_step, Hs, Ha. auto.
Qed.

Lemma with_retry_recovers transport wait n : forall i k,
  k <= n ->
  (forall j, j < k -> is_Some (transport (i + j))) ->
  transport (i + k) = None ->
  exists tr,
    Retry.with_retry transport wait n i = (Ok tt, tr)
    /\ Retry.sleeps tr = repeat wait k
    /\ Retry.attempts tr = seq i (S k).
Proof.
  induction n as [|n IH]; intros i k Hk Hfail Hok.
  - assert (k = 0) as -> by lia. rewrite Nat.add_0_r in Hok.
    exists [Retry.Attempt i]. cbn. rewrite Hok. auto.
  - destruct k as [|k].
    + rewrite Nat.add_0_r in Hok. exists [Retry.Attempt i].
      cbn. rewrite Hok. auto.
    + destruct (Hfail 0 (Nat.lt_0_succ _)) as [err0 Herr0].
      rewrite Nat.add_0_r in Herr0.
      destruct (IH (S i) k) as (tr & Hrun & Hs & Ha).
      { lia. }
      { intros j Hj. replace (S i + j) with (i + S j) by lia. apply Hfail. lia. }
      { replace (S i + k) with (i + S k) by lia. exact Hok. }
      exists (Retry.Attempt i :: Retry.Sleep wait :: tr).
      cbn [Retry.with_retry]. rewrite Herr0, Hrun.
      rewrite sleeps_step, attempts_step, Hs, Ha. auto.
Qed.

(** C7: the [upload] command hands the caller's [--retry] and
    [--retry_wait] values, 2 and 5 when absent, unchanged to the upload
    operation (which it reaches unless [-p] comes with a pattern that is
    not a reference); the transfer then retries a failing transport that
    many times, sleeping that delay before each retry, and once the retries
    are used up the last failure is surfaced as an error; a transport that
    recovers within the retries yields success. *)
Theorem upload_retry_policy (is_a_reference : string -> bool)
    (transport : nat -> option string) (args : Command.upload_args.t) :
  PyStr.otruthy (Command.upload_args.package args)
  && negb (is_a_reference (Command.upload_args.pattern args)) = false ->
  exists call,
    Command.upload is_a_reference args = Ok call
    /\ Command.up_retry call = default 2%Z (Command.upload_args.retry args)
    /\ Command.up_retry_wait call = default 5%Z (Command.upload_args.retry_wait args)
    /\ Retry.upload_command is_a_reference transport args
       = Retry.with_retry transport (Command.up_retry_wait call)
           (Z.to_nat (Command.up_retry call)) 0
    /\ let n := Z.to_nat (Command.up_retry call) in
       ((forall j, j <= n -> is_Some (transport j)) ->
        exists err tr,
          Retry.upload_command is_a_reference transport args
          = (Raise (RemoteError err), tr)
          /\ transport n = Some err
          /\ Retry.sleeps tr = repeat (Command.up_retry_wait call) n
          /\ Retry.attempts tr = seq 0 (S n))
       /\ (forall k, k <= n -> (forall j, j < k -> is_Some (transport j)) ->
           transport k = None ->
           exists tr,
             Retry.upload_command is_a_reference transport args = (Ok tt, tr)
             /\ Retry.sleeps tr = repeat (Command.up_retry_wait call) k
             /\ Retry.attempts tr = seq 0 (S k)).
Proof.
  intros Hguard. unfold Retry.upload_command, Command.upload. rewrite Hguard.
  eexists. split; [reflexivity|]. cbn [Command.up_retry Command.up_retry_wait].
  repeat split.
  - intros Hfail. apply (with_retry_exhausted transport _ _ 0). exact Hfail.
  - intros k Hk Hfail Hok. apply (with_retry_recovers transport _ _ 0 k); assumption.
Qed.

(** C7 at [upload Hello/0.1@lasote/testing --all] (default retry values)
    against a transport that always fails: three attempts, two sleeps of
    five seconds, then the error. *)
Lemma upload_retry_policy_witness :
  exists tr,
    Retry.upload_command Reference.is_a_reference (fun _ => Some "timeout")
      upload_hello_all
    = (Raise (RemoteError "timeout"), tr)
    /\ Retry.sleeps tr = [5%Z; 5%Z]
    /\ Retry.attempts tr = [0; 1; 2].
Proof.
  destruct (upload_retry_policy Reference.is_a_reference (fun _ => Some "timeout")
              upload_hello_all eq_refl)
    as (call & Hcall & Hretry & Hwait & _ & Hfail & _).
  destruct Hfail as (err & tr & Hrun & Herr & Hs & Ha); [eauto|].
  injection Herr as <-.
  rewrite Hretry in Hs, Ha. rewrite Hwait in Hs.
  exists tr. repeat split; assumption.
Defined.

Example upload_package_with_pattern :
  Command.upload Reference.is_a_reference
    {| Command.upload_args.pattern := "Hello/*";
       Command.upload_args.package := Some "5ab84d6acfe1f23c4fae0ab88f26e3a396351ac9";
       Command.upload_args.remote := None;
       Command.upload_args.all := false;
       Command.upload_args.force := false;
       Command.upload_args.confirm := false;
       Command.upload_args.retry := Some 7%Z;
       Command.upload_args.retry_wait := None |}
  = Raise (ConanException
             "-p parameter only allowed with a valid recipe reference, not with a pattern").
Proof. reflexivity. Qed.

(** ** Manifests *)

Global Instance by_path_total : Total Manifest.by_path.
Proof. intros a b. unfold Manifest.by_path. apply total, _. Qed.

Global Instance by_path_trans : Transitive Manifest.by_path.
Proof. intros a b c. unfold Manifest.by_path. apply transitivity. Qed.

Lemma sorted_items_perm (m : gmap string string) :
  merge_sort Manifest.by_path (map_to_list m) ≡ₚ map_to_list m.
Proof. apply merge_sort_Permutation. Qed.

Lemma sums_lookup excluded (f : gmap string string) p :
  Manifest.sums excluded f !! p
  = if excluded p then None else Digest.md5_hexdigest <$> f !! p.
Proof.
  unfold Manifest.sums, Manifest.tracked. rewrite lookup_fmap.
  destruct (excluded p) eqn:Ex.
  - rewrite map_lookup_filter_None_2; [reflexivity|].
    right. intros x _. cbn. congruence.
  - destruct (f !! p) as [c|] eqn:Ef.
    + erewrite map_lookup_filter_Some_2; [reflexivity|exact Ef|exact Ex].
    + rewrite map_lookup_filter_None_2; [reflexivity|]. now left.
Qed.

Example manifest_of_export_folder :
  Manifest.serialize
    {| Manifest.time := 1490000000;
       Manifest.file_sums :=
         Manifest.sums (fun _ => false)
           (<["hello.h" := "hello"]> (<["data.txt" := "data"]> ∅)) |}
  = "1490000000" +:+ Manifest.newline
    +:+ "data.txt: 8d777f385d3dfec8815d20f7496026dc" +:+ Manifest.newline
    +:+ "hello.h: 5d41402abc4b2a76b9719d911017c592" +:+ Manifest.newline.
Proof. vm_compute. reflexivity. Qed.

Lemma serialize_lines (m : Manifest.t) :
  Manifest.serialize m
  = pretty (Manifest.time m) +:+ String "010" ""
    +:+ String.concat ""
          ((fun kv => kv.1 +:+ ": " +:+ kv.2 +:+ String "010" "")
           <$> merge_sort Manifest.by_path (map_to_list (Manifest.file_sums m))).
Proof.
  unfold Manifest.serialize, Manifest.lines, Manifest.sum_lines.
  rewrite fmap_cons, concat_cons, append_assoc. do 2 f_equal.
  rewrite <- list_fmap_compose. f_equal. apply list_fmap_ext.
  intros _ kv _. cbn [compose]. unfold Manifest.line.
  now rewrite !append_assoc.
Qed.

(** In a text made of terminated lines after a first terminated line, every
    line stands between two line ends. *)
Lemma line_between_line_ends (before : list (string * string))
    (kv : string * string) (after : list (string * string)) (first : string) :
  exists head tail,
    first +:+ String "010" ""
    +:+ String.concat ""
          ((fun kv => kv.1 +:+ ": " +:+ kv.2 +:+ String "010" "")
           <$> (before ++ kv :: after))
    = head +:+ String "010" "" +:+ (kv.1 +:+ ": " +:+ kv.2) +:+ String "010" ""
      +:+ tail.
Proof.
  revert first. induction before as [|x before IH]; intros first.
  - exists first. eexists. rewrite app_nil_l, fmap_cons, concat_cons.
    rewrite !append_assoc. reflexivity.
  - destruct (IH (first +:+ String "010" "" +:+ x.1 +:+ ": " +:+ x.2))
      as (head & tail & E).
    exists head, tail. rewrite <- E.
    change ((x :: before) ++ kv :: after) with (x :: (before ++ kv :: after)).
    rewrite fmap_cons, concat_cons, !append_assoc. reflexivity.
Qed.

(** C5: the serialised manifest of a folder is the timestamp followed by a
    line end and then, for the tracked files in the order of their paths,
    [relative/path: checksum] followed by a line end, one for each tracked
    file and nothing else; so the text has, between two line ends, the
    line [relative/path: checksum] of every tracked file.  Serialising a
    manifest computed again over unchanged content, at whatever time,
    gives a text that differs in the timestamp line only; a file [hello.h]
    with content ["hello"] gives the line
    [hello.h: 5d41402abc4b2a76b9719d911017c592]. *)
Theorem manifest_lines_of_folder (excluded : string -> bool) (now : Z)
    (f : gmap string string) (m : Manifest.t) :
  Manifest.compute excluded now (Some f) = Ok m ->
  (exists items,
     Manifest.serialize m
     = pretty now +:+ String "010" ""
       +:+ String.concat ""
             ((fun kv => kv.1 +:+ ": " +:+ kv.2 +:+ String "010" "") <$> items)
     /\ StronglySorted Manifest.by_path items
     /\ NoDup items.*1
     /\ length items = size (Manifest.tracked excluded f)
     /\ forall p sum, (p, sum) ∈ items <->
          exists c, f !! p = Some c /\ excluded p = false
                    /\ sum = Digest.md5_hexdigest c)
  /\ (forall p c, f !! p = Some c -> excluded p = false ->
        exists head tail,
          Manifest.serialize m
          = head +:+ String "010" ""
            +:+ (p +:+ ": " +:+ Digest.md5_hexdigest c) +:+ String "010" ""
            +:+ tail)
  /\ (forall now' m', Manifest.compute excluded now' (Some f) = Ok m' ->
        exists checksum_lines,
          Manifest.serialize m = pretty now +:+ String "010" "" +:+ checksum_lines
          /\ Manifest.serialize m'
             = pretty now' +:+ String "010" "" +:+ checksum_lines)
  /\ (f !! "hello.h" = Some "hello" -> excluded "hello.h" = false ->
        exists head tail,
          Manifest.serialize m
          = head +:+ String "010" ""
            +:+ "hello.h: 5d41402abc4b2a76b9719d911017c592" +:+ String "010" ""
            +:+ tail).
Proof.
  intros [= <-]. rewrite serialize_lines. cbn [Manifest.time Manifest.file_sums].
  assert (Hin : forall p sum,
             (p, sum) ∈ merge_sort Manifest.by_path
                          (map_to_list (Manifest.sums excluded f)) <->
             exists c, f !! p = Some c /\ excluded p = false
                       /\ sum = Digest.md5_hexdigest c).
  { intros p sum. rewrite sorted_items_perm, elem_of_map_to_list, sums_lookup.
    destruct (excluded p); [split; [discriminate|intros (? & _ & ? & _); discriminate]|].
    destruct (f !! p) as [c|]; cbn; split.
    - intros [= <-]. eauto.
    - intros (c' & [= <-] & _ & ->). reflexivity.
    - discriminate.
    - intros (? & ? & _). discriminate. }
  assert (Hline : forall p c, f !! p = Some c -> excluded p = false ->
             exists head tail,
               pretty now +:+ String "010" ""
               +:+ String.concat ""
                     ((fun kv => kv.1 +:+ ": " +:+ kv.2 +:+ String "010" "")
                      <$> merge_sort Manifest.by_path
                            (map_to_list (Manifest.sums excluded f)))
               = head +:+ String "010" ""
                 +:+ (p +:+ ": " +:+ Digest.md5_hexdigest c) +:+ String "010" ""
                 +:+ tail).
  { intros p c Hp Hex.
    assert (Hmem : (p, Digest.md5_hexdigest c)
                   ∈ merge_sort Manifest.by_path
                       (map_to_list (Manifest.sums excluded f))).
    { apply Hin. eauto. }
    apply list_elem_of_split in Hmem as (before & after & ->).
    apply (line_between_line_ends before (p, Digest.md5_hexdigest c) after). }
  split; [|split; [exact Hline|split]].
  - eexists. split; [reflexivity|].
    split; [apply StronglySorted_merge_sort; apply _|].
    split; [rewrite sorted_items_perm; apply NoDup_fst_map_to_list|].
    split; [|exact Hin].
    rewrite sorted_items_perm, length_map_to_list.
    unfold Manifest.sums. apply map_size_fmap.
  - intros now' m' [= <-]. rewrite serialize_lines.
    cbn [Manifest.time Manifest.file_sums]. eexists. split; reflexivity.
  - intros Hp Hex. apply (Hline _ _ Hp Hex).
Qed.

(** C5 at the folder of the test, with files [conanfile.py] and [hello.h]. *)
Lemma manifest_lines_of_folder_witness :
  exists head tail,
    Manifest.serialize
      {| Manifest.time := 1490000000;
         Manifest.file_sums := Manifest.sums (fun _ => false) hello_folder |}
    = head +:+ String "010" ""
      +:+ "hello.h: 5d41402abc4b2a76b9719d911017c592" +:+ String "010" ""
      +:+ tail.
Proof.
  apply (manifest_lines_of_folder (fun _ => false) 1490000000 hello_folder);
    reflexivity.
Defined.

(** ** Synchronisation *)

Lemma unpack_pack (f : gmap string string) :
  Sync.safe f = true -> Sync.unpack (Sync.pack f) = Ok f.
Proof.
  unfold Sync.safe, Sync.unpack, Sync.pack. intros Hsafe.
  assert (Hsorted : forallb (fun kv : string * string => negb (Sync.escapes kv.1))
                      (merge_sort Manifest.by_path (map_to_list f)) = true).
  { apply forallb_forall. intros kv Hkv.
    apply (proj1 (forallb_forall _ _) Hsafe).
    apply list_elem_of_In. rewrite <- (sorted_items_perm f).
    now apply list_elem_of_In. }
  rewrite Hsorted. f_equal.
  rewrite (list_to_map_proper _ (map_to_list f)).
  - apply list_to_map_to_list.
  - rewrite sorted_items_perm. apply NoDup_fst_map_to_list.
  - apply sorted_items_perm.
Qed.


Lemma unpack_rejects (a : Sync.archive) p c :
  (p, c) ∈ a -> Sync.escapes p = true -> Sync.unpack a = Raise (Integrity "archive").
Proof.
  intros Hin Hp. unfold Sync.unpack.
  destruct (forallb _ a) eqn:Hall; [|reflexivity].
  apply list_elem_of_In in Hin.
  apply (proj1 (forallb_forall _ _) Hall) in Hin. cbn in Hin.
  rewrite Hp in Hin. discriminate.
Qed.

Global Instance under_sources_inj : Inj (=) (=) Sync.under_sources.
Proof.
  intros p q H. unfold Sync.under_sources in H.
  now apply (inj (String.app _)), (inj (String.app _)) in H.
Qed.

Lemma in_sources_under p : Sync.in_sources (Sync.under_sources p) = true.
Proof. destruct p; reflexivity. Qed.

Lemma export_tree_lookup_outside (files : gmap string string)
    (sources : option (gmap string string)) p :
  Sync.in_sources p = false ->
  Sync.export_tree files sources !! p = files !! p.
Proof.
  intros Hp. destruct sources as [srcs|]; [|reflexivity].
  cbn [Sync.export_tree]. apply lookup_union_l.
  destruct (kmap Sync.under_sources srcs !! p) as [c|] eqn:E; [|reflexivity].
  apply lookup_kmap_Some in E as (q & -> & _); [|apply _].
  rewrite in_sources_under in Hp. discriminate.
Qed.

Lemma export_tree_lookup_source (files sources : gmap string string) p :
  files !! Sync.under_sources p = None ->
  Sync.export_tree files (Some sources) !! Sync.under_sources p = sources !! p.
Proof.
  intros Hp. cbn [Sync.export_tree].
  rewrite lookup_union_r by exact Hp. apply lookup_kmap, _.
Qed.

(** The export archive accounts for the part of the recipe manifest that
    lies outside [export_source/]. *)
Lemma outside_sources_export_tree excluded (files : gmap string string)
    (sources : option (gmap string string)) :
  Sync.outside_sources (Manifest.sums excluded (Sync.export_tree files sources))
  = Sync.outside_sources (Manifest.sums excluded files).
Proof.
  apply map_eq. intros p. apply option_eq. intros sum.
  unfold Sync.outside_sources. rewrite !map_lookup_filter_Some, !sums_lookup.
  cbn [fst]. split; intros [H Hp]; (split; [|exact Hp]).
  - now rewrite export_tree_lookup_outside in H.
  - now rewrite export_tree_lookup_outside.
Qed.

Lemma glob_star s : Sync.glob "*" s = true.
Proof.
  cbn [Sync.glob]. change (Ascii.eqb "*" "*") with true. cbn iota.
  induction s as [|c s IH]; [reflexivity|].
  cbn [Sync.glob PyStr.truthy negb orb] in *. exact IH.
Qed.

Arguments Sync.export_tree : simpl never.

Ltac decide_names :=
  repeat first [rewrite decide_True by done | rewrite decide_False by done
               | rewrite bool_decide_eq_true_2 by eauto ].

Ltac lookups :=
  repeat first [rewrite lookup_insert_eq | rewrite lookup_delete_eq
               | rewrite lookup_empty | rewrite lookup_singleton_eq
               | progress decide_names | progress cbn ].

(** C3: a fresh client exports a recipe (exported files and exported
    sources), builds one package [P] of it, uploads recipe and packages to
    a remote and removes its cache entry; the next install retrieves the
    recipe and downloads the package, so that the cache entry has the
    exported files and the package payload with the manifests of the
    originals (the recipe manifest covering the exported sources under
    [export_source/]), while the exported sources and [source], which the
    build had populated, are absent; they are there again only after an
    operation that needs them (a forced build).  The folders are taken
    free of escaping paths (absolute, or with a [..] component): an
    archive with such an entry is rejected. *)
Theorem round_trip_through_remote (excluded : string -> bool)
    (source_stage package_stage : gmap string string -> option (gmap string string))
    (ref P : string) (files sources tree out : gmap string string)
    (t1 t2 t3 t4 t5 : Z) :
  Sync.safe files = true -> Sync.safe sources = true -> Sync.safe out = true ->
  source_stage (files ∪ sources) = Some tree ->
  package_stage tree = Some out ->
  let install := Sync.install excluded source_stage package_stage in
  let w1 := Sync.export_recipe excluded ref t1 files sources fresh_client in
  exists w2 w3 w4 w5 w6 e1 e2 p2 e5 p5 e6,
    install ref P Sync.Missing false t2 w1 = Ok (w2, [Sync.PackageBuilt])
    /\ Sync.upload excluded ref true None "default" false t3 w2
       = Ok (w3, [Sync.RecipeUploaded])
    /\ Sync.remove ref true w3 = Ok w4
    /\ Sync.cache w4 !! ref = None
    /\ install ref P Sync.Never false t4 w4
       = Ok (w5, [Sync.RecipeRetrieved "default"; Sync.PackageDownloaded])
    /\ Sync.cache w1 !! ref = Some e1
    /\ Sync.export e1 = files
    /\ Sync.export_sources e1 = Some sources
    /\ Sync.export_manifest e1
       = {| Manifest.time := t1;
            Manifest.file_sums :=
              Manifest.sums excluded (Sync.export_tree files (Some sources)) |}
    /\ (forall p c,
          sources !! p = Some c ->
          files !! ("export_source/" +:+ p) = None ->
          excluded ("export_source/" +:+ p) = false ->
          Manifest.file_sums (Sync.export_manifest e1) !! ("export_source/" +:+ p)
          = Some (Digest.md5_hexdigest c))
    /\ (forall p c,
          files !! p = Some c -> excluded p = false ->
          Manifest.file_sums (Sync.export_manifest e1) !! p
          = Some (Digest.md5_hexdigest c))
    /\ Sync.cache w2 !! ref = Some e2
    /\ Sync.source e2 = Some tree
    /\ Sync.packages e2 !! P = Some p2
    /\ Sync.payload p2 = out
    /\ Manifest.file_sums (Sync.package_manifest p2) = Manifest.sums excluded out
    /\ Sync.cache w5 !! ref = Some e5
    /\ Sync.export e5 = Sync.export e1
    /\ Sync.export_manifest e5 = Sync.export_manifest e1
    /\ Sync.packages e5 !! P = Some p5
    /\ p5 = p2
    /\ Sync.export_sources e5 = None
    /\ Sync.source e5 = None
    /\ install ref P (Sync.ForcePatterns ["*"]) false t5 w5
       = Ok (w6, [Sync.PackageBuilt])
    /\ Sync.cache w6 !! ref = Some e6
    /\ Sync.export_sources e6 = Some sources
    /\ Sync.source e6 = Some tree
    /\ (forall (a : Sync.archive) p c,
          (p, c) ∈ a -> Sync.escapes p = true ->
          Sync.unpack a = Raise (Integrity "archive"))
    /\ Sync.escapes "../hello.h" = true
    /\ Sync.escapes "include/../../hello.h" = true
    /\ Sync.escapes "/etc/hello.h" = true
    /\ Sync.escapes "include/hello.h" = false.
Proof.
  intros files_ok sources_ok out_ok source_ok package_ok install w1.
  subst install w1.
  unfold Sync.install, Sync.ensure_recipe, Sync.export_recipe, Sync.checkUpdates.
  lookups.
  unfold Sync.resolve, Sync.reusable, Sync.remote_has. lookups.
  unfold Sync.build, Sync.retrieve_sources. lookups.
  rewrite source_ok. cbn. rewrite package_ok. cbn.
  do 11 eexists. split; [reflexivity|].
  unfold Sync.upload. lookups.
  rewrite !insert_empty, map_to_list_singleton. cbn.
  unfold Sync.fresh. lookups.
  split; [reflexivity|].
  unfold Sync.remove. lookups.
  split; [reflexivity|]. lookups. split; [reflexivity|].
  unfold Sync.download_recipe. lookups. rewrite (unpack_pack _ files_ok). lookups.
  rewrite outside_sources_export_tree. lookups.
  unfold Sync.download_package. lookups. rewrite (unpack_pack _ out_ok). lookups.
  split; [reflexivity|]. lookups.
  repeat (split; [first [reflexivity | lookups; reflexivity]|]).
  split.
  { intros p c Hs Hf Hex. cbn [Sync.export_manifest Manifest.file_sums].
    rewrite sums_lookup, Hex.
    change ("export_source/" +:+ p) with (Sync.under_sources p) in Hf |- *.
    now rewrite (export_tree_lookup_source _ _ _ Hf), Hs. }
  split.
  { intros p c Hf Hex. cbn [Sync.export_manifest Manifest.file_sums].
    rewrite sums_lookup, Hex. unfold Sync.export_tree.
    now rewrite (lookup_union_Some_l _ _ _ _ Hf). }
  repeat (split; [first [reflexivity | lookups; reflexivity]|]).
  unfold Sync.compare_manifests. lookups.
  unfold Sync.forced. cbn [existsb]. rewrite glob_star. cbn [orb].
  lookups. rewrite (unpack_pack _ sources_ok). lookups.
  rewrite source_ok. cbn. rewrite package_ok. cbn.
  split; [reflexivity|]. lookups.
  split; [reflexivity|]. split; [reflexivity|]. split; [reflexivity|].
  split; [exact unpack_rejects|]. repeat split.
Qed.

(** C3 at the recipe of the test in its mode [exports_sources]:
    [conanfile.py] exported, [hello.h] exported as source, the package
    holding [include/hello.h]. *)
Lemma round_trip_through_remote_witness :
  exists w5 e5 p5,
    round_trip (fun _ => false) Some copy_headers "Hello/0.1@lasote/testing"
      "5ab84d6acfe1f23c4fae0ab88f26e3a396351ac9" recipe_file hello_source
      10 20 30 40
    = Ok w5
    /\ Sync.cache w5 !! "Hello/0.1@lasote/testing" = Some e5
    /\ Sync.export e5 = recipe_file
    /\ Manifest.file_sums (Sync.export_manifest e5) !! "export_source/hello.h"
       = Some "5d41402abc4b2a76b9719d911017c592"
    /\ Sync.packages e5 !! "5ab84d6acfe1f23c4fae0ab88f26e3a396351ac9" = Some p5
    /\ Sync.payload p5 = <["include/hello.h" := "hello"]> ∅
    /\ Sync.export_sources e5 = None
    /\ Sync.source e5 = None.
Proof.
  destruct (round_trip_through_remote (fun _ => false) Some copy_headers
              "Hello/0.1@lasote/testing" "5ab84d6acfe1f23c4fae0ab88f26e3a396351ac9"
              recipe_file hello_source (recipe_file ∪ hello_source)
              (<["include/hello.h" := "hello"]> ∅) 10 20 30 40 50)
    as (w2 & w3 & w4 & w5 & w6 & e1 & e2 & p2 & e5 & p5 & e6
        & H2 & H3 & H4 & _ & H5 & _ & He1 & _ & _ & Hsrc & _ & _ & _ & _ & Hp2 & _
        & Hc5 & Hx5 & Hm5 & Hp5 & Heq & Hes5 & Hs5 & _);
    [vm_compute; reflexivity..|].
  exists w5, e5, p5. unfold round_trip.
  rewrite H2. cbn [mbind result_bind fst]. rewrite H3. cbn [mbind result_bind fst].
  rewrite H4. cbn [mbind result_bind]. rewrite H5. cbn [mbind result_bind fst].
  split; [reflexivity|]. split; [exact Hc5|]. split; [congruence|].
  split; [rewrite Hm5; apply (Hsrc "hello.h" "hello"); reflexivity|].
  split; [exact Hp5|]. split; [congruence|]. split; [exact Hes5|exact Hs5].
Defined.

(** The manifest of the exported recipe, as the test reads it. *)
Example export_manifest_lists_sources :
  Manifest.serialize
    {| Manifest.time := 10;
       Manifest.file_sums :=
         Manifest.sums (fun _ => false)
           (Sync.export_tree recipe_file (Some hello_source)) |}
  = "10" +:+ String "010" ""
    +:+ "conanfile.py: f38622042d32f61784e151521128b41f" +:+ String "010" ""
    +:+ "export_source/hello.h: 5d41402abc4b2a76b9719d911017c592" +:+ String "010" "".
Proof. vm_compute. reflexivity. Qed.

Example unpack_escaping_entry :
  Sync.unpack [("conanfile.py", "recipe"); ("../../.bashrc", "payload")]
  = Raise (Integrity "archive").
Proof. reflexivity. Qed.





(** * Further properties of [command.py] *)

(** ** Formatting and parsing [name=value] items *)

Lemma split_of_two sep k v :
  PyStr.contains sep k = false -> PyStr.contains sep v = false ->
  PyStr.split sep (k +:+ String sep v) = [k; v].
Proof.
  intros Hk Hv. induction k as [|c k IH].
  - change ("" +:+ String sep v) with (String sep v).
    cbn [PyStr.split]. rewrite Ascii.eqb_refl. f_equal.
    clear Hk. induction v as [|d v IHv]; [reflexivity|].
    cbn [PyStr.contains] in Hv. apply orb_false_iff in Hv as [Hd Hv].
    cbn [PyStr.split]. rewrite Hd, (IHv Hv). reflexivity.
  - cbn [PyStr.contains] in Hk. apply orb_false_iff in Hk as [Hc Hk].
    rewrite append_cons. cbn [PyStr.split]. rewrite Hc, (IH Hk). reflexivity.
Qed.

(** X1: formatting pairs as [key=value] and parsing them back gives the
    pairs again, in order, whenever no key and no value contains ["="];
    empty keys and empty values are accepted. *)
Theorem tuples_of_formatted_pairs (pairs : list (string * string)) :
  Forall plain_pair pairs ->
  Command._get_tuples_list_from_extender_arg (Some (key_value <$> pairs)) = Ok pairs.
Proof.
  intros Hplain. rewrite tuples_from_extender_arg_unfold. cbn [PyStr.or_nil].
  assert (Hsplit : forall kv, plain_pair kv ->
             PyStr.split "=" (key_value kv) = [kv.1; kv.2]).
  { intros [k v] [Hk Hv]. apply split_of_two; assumption. }
  rewrite validate_pairs_ok.
  - cbn. f_equal. induction Hplain as [|kv rest Hkv _ IH]; [reflexivity|].
    cbn. rewrite (Hsplit _ Hkv), IH. now destruct kv.
  - induction Hplain as [|kv rest Hkv _ IH]; constructor; [|exact IH].
    unfold well_formed_item. now rewrite (Hsplit _ Hkv).
Qed.

Lemma tuples_of_formatted_pairs_witness :
  Command._get_tuples_list_from_extender_arg
    (Some (key_value <$> [("compiler", "gcc"); ("", "x"); ("flag", "")]))
  = Ok [("compiler", "gcc"); ("", "x"); ("flag", "")].
Proof.
  apply (tuples_of_formatted_pairs [("compiler", "gcc"); ("", "x"); ("flag", "")]).
  repeat constructor.
Defined.

(** ** [_get_simple_and_package_tuples] *)

Lemma split1_cut sep n :
  PyStr.contains sep n = true ->
  exists p rest,
    PyStr.split1 sep n = [p; rest]
    /\ n = p +:+ String sep rest /\ PyStr.contains sep p = false.
Proof.
  induction n as [|c n IH]; [discriminate|].
  cbn [PyStr.contains PyStr.split1]. destruct (Ascii.eqb_spec c sep) as [->|Hne].
  - intros _. exists "", n. repeat split.
  - cbn [orb]. intros Hn. destruct (IH Hn) as (p & rest & -> & -> & Hp).
    exists (String c p), rest. split; [reflexivity|]. split; [reflexivity|].
    cbn [PyStr.contains]. rewrite Hp. apply Ascii.eqb_neq in Hne. now rewrite Hne.
Qed.

Lemma prefix_cons a p b n :
  String.prefix (String a p) (String b n)
  = if Ascii.eqb a b then String.prefix p n else false.
Proof.
  cbn [String.prefix]. destruct (ascii_dec a b) as [->|Hne].
  - now rewrite Ascii.eqb_refl.
  - apply Ascii.eqb_neq in Hne. now rewrite Hne.
Qed.

Lemma prefix_nil n : String.prefix "" n = true.
Proof. now destruct n. Qed.

(** A name starts with [pkg:] exactly when its part before the first
    separator is [pkg]. *)
Lemma prefix_scope sep p q rest :
  PyStr.contains sep p = false -> PyStr.contains sep q = false ->
  String.prefix (p +:+ String sep "") (q +:+ String sep rest) = true <-> p = q.
Proof.
  revert q. induction p as [|a p IH]; intros q Hp Hq.
  - change ("" +:+ String sep "") with (String sep "").
    destruct q as [|d q].
    + change ("" +:+ String sep rest) with (String sep rest).
      rewrite prefix_cons, Ascii.eqb_refl, prefix_nil. tauto.
    + rewrite append_cons, prefix_cons.
      cbn [PyStr.contains] in Hq. apply orb_false_iff in Hq as [Hd _].
      rewrite Ascii.eqb_sym, Hd. split; discriminate.
  - cbn [PyStr.contains] in Hp. apply orb_false_iff in Hp as [Ha Hp].
    rewrite append_cons. destruct q as [|d q].
    + change ("" +:+ String sep rest) with (String sep rest).
      rewrite prefix_cons, Ha. split; discriminate.
    + cbn [PyStr.contains] in Hq. apply orb_false_iff in Hq as [_ Hq].
      rewrite append_cons, prefix_cons.
      destruct (Ascii.eqb_spec a d) as [->|Hne].
      * rewrite (IH q Hp Hq). split; [now intros ->|now intros [= ->]].
      * split; [discriminate|intros [= ? _]; contradiction].
Qed.

Lemma prefix_needs_sep sep p n :
  String.prefix (p +:+ String sep "") n = true -> PyStr.contains sep n = true.
Proof.
  revert n. induction p as [|a p IH]; intros [|b n]; try discriminate.
  - change ("" +:+ String sep "") with (String sep "").
    rewrite prefix_cons. cbn [PyStr.contains].
    destruct (Ascii.eqb_spec sep b) as [->|]; [|discriminate].
    now rewrite Ascii.eqb_refl.
  - rewrite append_cons, prefix_cons. cbn [PyStr.contains].
    destruct (Ascii.eqb a b); [|discriminate].
    intros H. rewrite (IH _ H). apply orb_true_r.
Qed.

Lemma scatter_spec tuples : forall simple_items package_items,
  (forall p l, package_items !! p = Some l -> PyStr.contains ":" p = false /\ l <> []) ->
  let r := Command.scatter tuples simple_items package_items in
  r.1 = simple_items ++ filter unscoped tuples
  /\ (forall p, PyStr.contains ":" p = false ->
        rescope p <$> default [] (r.2 !! p)
        = (rescope p <$> default [] (package_items !! p)) ++ filter (scoped_by p) tuples)
  /\ (forall p l, r.2 !! p = Some l -> PyStr.contains ":" p = false /\ l <> []).
Proof.
  induction tuples as [|[n v] tuples IH]; intros s0 m0 Hkeys r; subst r.
  - cbn. rewrite app_nil_r. split; [reflexivity|]. split; [|exact Hkeys].
    intros p _. now rewrite app_nil_r.
  - cbn [Command.scatter]. destruct (PyStr.contains ":" n) eqn:Hn.
    + destruct (split1_cut ":" n Hn) as (q & rest & Hcut & -> & Hq).
      rewrite Hcut. cbn [nth].
      set (m1 := <[q := default [] (m0 !! q) ++ [(rest, v)]]> m0).
      assert (Hkeys1 : forall p l, m1 !! p = Some l ->
                 PyStr.contains ":" p = false /\ l <> []).
      { intros p l. subst m1. rewrite lookup_insert.
        case_decide as Hpq; [|apply Hkeys].
        intros [= <-]. subst p. split; [exact Hq|]. now destruct (default [] (m0 !! q)). }
      destruct (IH s0 m1 Hkeys1) as (H1 & H2 & H3).
      split; [|split; [|exact H3]].
      * rewrite H1. f_equal. rewrite filter_cons_False; [reflexivity|].
        unfold unscoped. cbn [fst]. rewrite Hn. discriminate.
      * intros p Hp. rewrite (H2 p Hp). subst m1. rewrite lookup_insert.
        case_decide as Hpq.
        -- subst p.
           change (default [] (Some (default [] (m0 !! q) ++ [(rest, v)])))
             with (default [] (m0 !! q) ++ [(rest, v)]).
           rewrite fmap_app, <- app_assoc. f_equal.
           rewrite filter_cons_True; [reflexivity|].
           unfold scoped_by. cbn [fst]. now apply prefix_scope.
        -- f_equal. rewrite filter_cons_False; [reflexivity|].
           unfold scoped_by. cbn [fst]. rewrite prefix_scope by assumption. congruence.
    + destruct (IH (s0 ++ [(n, v)]) m0 Hkeys) as (H1 & H2 & H3).
      split; [|split; [|exact H3]].
      * rewrite H1, <- app_assoc. f_equal. rewrite filter_cons_True; [reflexivity|].
        exact Hn.
      * intros p Hp. rewrite (H2 p Hp). f_equal.
        rewrite filter_cons_False; [reflexivity|].
        unfold scoped_by. cbn [fst]. intros Hpre.
        apply prefix_needs_sep in Hpre. congruence.
Qed.

(** X2: [_get_simple_and_package_tuples] fails exactly as the parsing of
    the items fails; otherwise its list of simple items is the parsed
    tuples whose name has no [":"], in the input order. *)
Theorem simple_tuples_are_the_unscoped (items : option (list string)) :
  (forall e, Command._get_tuples_list_from_extender_arg items = Raise e ->
             Command._get_simple_and_package_tuples items = Raise e)
  /\ (forall tuples,
        Command._get_tuples_list_from_extender_arg items = Ok tuples ->
        exists package_items,
          Command._get_simple_and_package_tuples items
          = Ok (filter unscoped tuples, package_items)).
Proof.
  unfold Command._get_simple_and_package_tuples. split.
  - intros e ->. reflexivity.
  - intros tuples ->. cbn [mbind result_bind].
    destruct (scatter_spec tuples [] ∅) as (H1 & _).
    { intros p l. rewrite lookup_empty. discriminate. }
    destruct (Command.scatter tuples [] ∅) as [s m]. cbn in H1. subst s. eauto.
Qed.

(** X3: the dictionary of package items has an entry exactly for the
    packages named before the first [":"] of some tuple; the entry lists,
    in the input order, the tuples scoped by that package, their name cut
    after that first [":"]; no entry is empty and no key contains [":"]. *)
Theorem package_tuples_are_the_scoped (items : option (list string))
    (tuples simple_items : list (string * string))
    (package_items : gmap string (list (string * string))) :
  Command._get_tuples_list_from_extender_arg items = Ok tuples ->
  Command._get_simple_and_package_tuples items = Ok (simple_items, package_items) ->
  (forall pkg, PyStr.contains ":" pkg = false ->
     rescope pkg <$> default [] (package_items !! pkg) = filter (scoped_by pkg) tuples)
  /\ (forall pkg l, package_items !! pkg = Some l ->
        PyStr.contains ":" pkg = false /\ l <> []).
Proof.
  unfold Command._get_simple_and_package_tuples. intros ->.
  cbn [mbind result_bind]. intros [= Hrun].
  destruct (scatter_spec tuples [] ∅) as (_ & H2 & H3).
  { intros p l. rewrite lookup_empty. discriminate. }
  rewrite Hrun in H2, H3. cbn [snd] in H2, H3. split; [|exact H3].
  intros pkg Hpkg. rewrite (H2 pkg Hpkg), lookup_empty. reflexivity.
Qed.

Lemma simple_and_package_tuples_example :
  Command._get_tuples_list_from_extender_arg
    (Some ["os=Linux"; "zlib:shared=True"; "arch=x86"; "zlib:a:b=1"])
  = Ok [("os", "Linux"); ("zlib:shared", "True"); ("arch", "x86"); ("zlib:a:b", "1")]
  /\ Command._get_simple_and_package_tuples
       (Some ["os=Linux"; "zlib:shared=True"; "arch=x86"; "zlib:a:b=1"])
     = Ok ([("os", "Linux"); ("arch", "x86")],
           {["zlib" := [("shared", "True"); ("a:b", "1")]]}).
Proof. split; reflexivity. Qed.

Lemma simple_tuples_are_the_unscoped_witness :
  exists package_items,
    Command._get_simple_and_package_tuples
      (Some ["os=Linux"; "zlib:shared=True"; "arch=x86"; "zlib:a:b=1"])
    = Ok (filter unscoped
            [("os", "Linux"); ("zlib:shared", "True"); ("arch", "x86"); ("zlib:a:b", "1")],
          package_items).
Proof.
  apply (simple_tuples_are_the_unscoped
           (Some ["os=Linux"; "zlib:shared=True"; "arch=x86"; "zlib:a:b=1"])).
  reflexivity.
Defined.

Lemma package_tuples_are_the_scoped_witness :
  rescope "zlib" <$> [("shared", "True"); ("a:b", "1")]
  = filter (scoped_by "zlib")
      [("os", "Linux"); ("zlib:shared", "True"); ("arch", "x86"); ("zlib:a:b", "1")].
Proof.
  exact (proj1 (package_tuples_are_the_scoped
                  (Some ["os=Linux"; "zlib:shared=True"; "arch=x86"; "zlib:a:b=1"])
                  [("os", "Linux"); ("zlib:shared", "True"); ("arch", "x86");
                   ("zlib:a:b", "1")]
                  [("os", "Linux"); ("arch", "x86")]
                  {["zlib" := [("shared", "True"); ("a:b", "1")]]}
                  eq_refl eq_refl) "zlib" eq_refl).
Defined.

(** ** [Extender] *)

Lemma extender_accumulates l occurrences :
  foldl Cli.Extender_call
        {| Cli.action_default := None; Cli.dest := Some l |} occurrences
  = {| Cli.action_default := None; Cli.dest := Some (l ++ concat occurrences) |}.
Proof.
  revert l. induction occurrences as [|values occurrences IH]; intros l.
  - cbn. now rewrite app_nil_r.
  - cbn [foldl concat]. unfold Cli.Extender_call at 2.
    cbn [Cli.dest Cli.action_default].
    rewrite bool_decide_eq_false_2 by discriminate.
    rewrite IH, app_assoc. reflexivity.
Qed.

Lemma extended_concat default values occurrences :
  Cli.extended default (values :: occurrences) = Some (concat (values :: occurrences)).
Proof.
  unfold Cli.extended. cbn [foldl].
  assert (Hfirst : Cli.Extender_call
                     {| Cli.action_default := default; Cli.dest := default |} values
                   = {| Cli.action_default := None; Cli.dest := Some values |}).
  { unfold Cli.Extender_call. cbn [Cli.dest Cli.action_default].
    destruct default; [|reflexivity].
    rewrite bool_decide_eq_true_2 by reflexivity. reflexivity. }
  rewrite Hfirst, extender_accumulates. reflexivity.
Qed.

(** X4: a flag declared with the [Extender] action and given at least once
    ends up as the list of all its values, in the order of the command
    line, whatever default the flag was declared with (the default is
    dropped, not extended); a flag never given keeps its default. *)
Theorem extender_collects_values (default : option (list string))
    (occurrences : list (list string)) :
  occurrences <> [] ->
  Cli.extended default occurrences = Some (concat occurrences)
  /\ Cli.extended default [] = default.
Proof.
  intros Hne. split; [|reflexivity].
  destruct occurrences as [|values occurrences]; [contradiction|].
  apply extended_concat.
Qed.

(** X4 at [-o a=1 -o b=2] and at [--build x y --build z]. *)
Lemma extender_collects_values_witness :
  Cli.extended None [["a=1"]; ["b=2"]] = Some ["a=1"; "b=2"]
  /\ Cli.extended (Some ["default"]) [["x"; "y"]; ["z"]] = Some ["x"; "y"; "z"].
Proof.
  split.
  - apply (extender_collects_values None [["a=1"]; ["b=2"]]). discriminate.
  - apply (extender_collects_values (Some ["default"]) [["x"; "y"]; ["z"]]).
    discriminate.
Defined.

(** ** [remove] *)

(** X5: [remove] turns a non-empty [--packages] (or [--builds]) text into
    the list of its comma-separated chunks: the list is not empty, no
    chunk contains a comma and joining the chunks with commas gives the
    text back; for [--packages] and for [--builds] alike, the flag without
    a value stays the empty list, an absent flag stays [None], and an empty
    text is handed on as it is. *)
Theorem remove_splits_ids (args : Cli.remove_args.t) :
  (forall s, Cli.remove_args.packages args = Cli.IdsText s -> s <> "" ->
     exists ids,
       Cli.rm_package_ids_filter (Cli.remove args) = Cli.FilterList ids
       /\ ids <> [] /\ String.concat "," ids = s
       /\ Forall (fun id => PyStr.contains "," id = false) ids)
  /\ (forall s, Cli.remove_args.builds args = Cli.IdsText s -> s <> "" ->
        exists ids,
          Cli.rm_build_ids (Cli.remove args) = Cli.FilterList ids
          /\ ids <> [] /\ String.concat "," ids = s
          /\ Forall (fun id => PyStr.contains "," id = false) ids)
  /\ (Cli.remove_args.packages args = Cli.IdsConst ->
      Cli.rm_package_ids_filter (Cli.remove args) = Cli.FilterList [])
  /\ (Cli.remove_args.packages args = Cli.IdsAbsent ->
      Cli.rm_package_ids_filter (Cli.remove args) = Cli.FilterNone)
  /\ (Cli.remove_args.packages args = Cli.IdsText "" ->
      Cli.rm_package_ids_filter (Cli.remove args) = Cli.FilterText "")
  /\ (Cli.remove_args.builds args = Cli.IdsConst ->
      Cli.rm_build_ids (Cli.remove args) = Cli.FilterList [])
  /\ (Cli.remove_args.builds args = Cli.IdsAbsent ->
      Cli.rm_build_ids (Cli.remove args) = Cli.FilterNone)
  /\ (Cli.remove_args.builds args = Cli.IdsText "" ->
      Cli.rm_build_ids (Cli.remove args) = Cli.FilterText "").
Proof.
  assert (Hsplit : forall s, s <> "" ->
             exists ids, Cli.split_ids (Cli.IdsText s) = Cli.FilterList ids
               /\ ids <> [] /\ String.concat "," ids = s
               /\ Forall (fun id => PyStr.contains "," id = false) ids).
  { intros s Hs. exists (PyStr.split "," s). unfold Cli.split_ids.
    destruct s; [contradiction|]. cbn [PyStr.truthy].
    split; [reflexivity|]. split; [apply split_not_nil|].
    split; [apply split_join|apply split_no_sep]. }
  unfold Cli.remove. cbn [Cli.rm_package_ids_filter Cli.rm_build_ids].
  repeat split.
  - intros s -> Hs. now apply Hsplit.
  - intros s -> Hs. now apply Hsplit.
  - now intros ->.
  - now intros ->.
  - now intros ->.
  - now intros ->.
  - now intros ->.
  - now intros ->.
Qed.

Example remove_two_packages :
  Cli.split_ids (Cli.IdsText "5ab84d6,9cf83af") = Cli.FilterList ["5ab84d6"; "9cf83af"]
  /\ Cli.split_ids (Cli.IdsText "5ab84d6,") = Cli.FilterList ["5ab84d6"; ""].
Proof. split; reflexivity. Qed.

Lemma remove_splits_ids_witness :
  exists ids,
    Cli.rm_package_ids_filter (Cli.remove remove_two) = Cli.FilterList ids
    /\ ids <> [] /\ String.concat "," ids = "5ab84d6,9cf83af"
    /\ Forall (fun id => PyStr.contains "," id = false) ids.
Proof.
  apply (proj1 (remove_splits_ids remove_two) "5ab84d6,9cf83af");
    [reflexivity|discriminate].
Defined.

(** ** References and folders *)

Lemma abspath_isabs cwd path :
  PosixPath.isabs cwd = true -> PosixPath.isabs (Cli.abspath cwd path) = true.
Proof.
  intros Hcwd. unfold Cli.abspath. apply normpath_isabs.
  destruct (PosixPath.isabs path) eqn:Hp; cbn [negb]; [exact Hp|].
  now apply join_isabs.
Qed.

(** X6: [_get_reference] never takes a text that contains ["@"] for a
    folder: it yields the parsed reference or lets the parser's exception
    through unchanged.  When it yields a folder, run from an absolute
    current directory, the folder is absolute: a relative one is joined to
    the current directory and normalised, an absolute one is returned
    exactly as given. *)
Theorem get_reference_folder_or_reference
    (loads : string -> Cli.outcome Command.ConanFileReference)
    (current_path reference : string) :
  (PyStr.contains "@" reference = true ->
     Cli._get_reference loads current_path reference
     = match loads reference with
       | Cli.Done r => Cli.Done (current_path, Command.IsReference r)
       | Cli.Raised e => Cli.Raised e
       end)
  /\ (PosixPath.isabs current_path = true ->
      forall cwd folder,
        Cli._get_reference loads current_path reference
        = Cli.Done (cwd, Command.IsPath folder) ->
        cwd = current_path
        /\ PyStr.contains "@" reference = false
        /\ PosixPath.isabs folder = true
        /\ (PosixPath.isabs reference = true -> folder = reference)
        /\ (PosixPath.isabs reference = false ->
            folder = PosixPath.normpath (PosixPath.join current_path reference))).
Proof.
  unfold Cli._get_reference. split.
  - intros ->. reflexivity.
  - intros Hcwd cwd folder. destruct (loads reference); [discriminate|].
    destruct (PyStr.contains "@" reference); [discriminate|].
    destruct (PosixPath.isabs reference) eqn:Habs; cbn [negb]; intros [= <- <-].
    + repeat split; try assumption; discriminate.
    + repeat split; try discriminate.
      apply normpath_isabs, join_isabs, Hcwd.
Qed.

Lemma get_reference_folder_or_reference_witness :
  Cli._get_reference loads_or_raise "/home/user" "Hello/0.1@lasote"
  = Cli.Raised (Cli.ConanError
                  (ConanException "Wrong package recipe reference Hello/0.1@lasote"))
  /\ PosixPath.isabs "/home/user/my_project" = true.
Proof.
  split.
  - apply (proj1 (get_reference_folder_or_reference loads_or_raise "/home/user"
                    "Hello/0.1@lasote")).
    reflexivity.
  - apply (proj2 (get_reference_folder_or_reference loads_or_raise "/home/user"
                    "./my_project") eq_refl "/home/user" "/home/user/my_project").
    vm_compute. reflexivity.
Defined.

Ltac member_cases H :=
  apply list_elem_of_In in H; cbn [In app] in H;
  repeat (destruct H as [H|H]; try discriminate H); try contradiction.

(** X7: the [package] command never packages a local folder for a text
    that contains ["@"]; when it does package a local folder, run from an
    absolute current directory, that is the last thing it does, the folder
    is absolute, and the command ends as the local packaging ends. *)
Theorem package_local_only_without_at
    (loads : string -> Cli.outcome Command.ConanFileReference)
    (manager_package : Command.ConanFileReference -> string -> Cli.outcome unit)
    (manager_local_package : string -> string -> Cli.outcome unit)
    (current_path reference package_id : string) :
  let run := Cli.package loads current_path manager_package manager_local_package
               reference package_id in
  (PyStr.contains "@" reference = true ->
     forall cwd folder, Cli.CallLocalPackage cwd folder ∉ run.1)
  /\ (PosixPath.isabs current_path = true ->
      forall cwd folder,
        Cli.CallLocalPackage cwd folder ∈ run.1 ->
        cwd = current_path
        /\ PosixPath.isabs folder = true
        /\ last run.1 = Some (Cli.CallLocalPackage cwd folder)
        /\ run.2 = manager_local_package cwd folder).
Proof.
  intros run. subst run. unfold Cli.package.
  set (build_folder := if negb (PosixPath.isabs reference) then _ else reference).
  assert (Habs : PosixPath.isabs current_path = true ->
                 PosixPath.isabs build_folder = true).
  { intros Hcwd. subst build_folder.
    destruct (PosixPath.isabs reference) eqn:Hr; cbn [negb]; [exact Hr|].
    apply normpath_isabs, join_isabs, Hcwd. }
  split.
  - intros Hat cwd folder. rewrite Hat.
    destruct (loads reference) as [r|e]; [destruct (manager_package r package_id) as [[]|e]|];
      cbn [fst]; intros Hin; member_cases Hin.
  - intros Hcwd cwd folder.
    destruct (PyStr.contains "@" reference);
      (destruct (loads reference) as [r|e];
       [destruct (manager_package r package_id) as [[]|e]|]); cbn [fst snd app];
      intros Hin; member_cases Hin; injection Hin as <- <-; auto.
Qed.

Lemma package_local_only_without_at_witness :
  Cli.package loads_or_raise "/home/user" package_succeeds local_package_succeeds
    "Hello/0.1@lasote/testing" "5ab84d6"
  = ([Cli.CallPackage hello "5ab84d6"], Cli.Done tt)
  /\ forall cwd folder,
       Cli.CallLocalPackage cwd folder
       ∉ (Cli.package loads_or_raise "/home/user" package_succeeds
            local_package_succeeds "Hello/0.1@lasote/testing" "5ab84d6").1.
Proof.
  split; [reflexivity|].
  apply (proj1 (package_local_only_without_at loads_or_raise package_succeeds
                  local_package_succeeds "/home/user" "Hello/0.1@lasote/testing"
                  "5ab84d6")).
  reflexivity.
Defined.

Example package_of_build_folder :
  Cli.package loads_or_raise "/home/user" package_succeeds local_package_succeeds
    "build/../out" ""
  = ([Cli.CallLocalPackage "/home/user" "/home/user/out"], Cli.Done tt).
Proof. vm_compute. reflexivity. Qed.

(** X8: run from an absolute current directory, the [build] and [export]
    commands hand an absolute folder to the manager; [build] without a
    path (and [export] without one) works on the current directory. *)
Theorem build_and_export_folders (current_path : string) (args : Cli.build_args.t)
    (user : string) (path : option string) (keep_source : bool) :
  PosixPath.isabs current_path = true ->
  PosixPath.isabs (Cli.build current_path args).1.1.1 = true
  /\ (Cli.build_args.path args = "" -> (Cli.build current_path args).1.1.1 = current_path)
  /\ (Cli.build current_path args).1.1.2 = current_path
  /\ PosixPath.isabs (Cli.export current_path user path keep_source).1.2 = true
  /\ (PyStr.otruthy path = false ->
      (Cli.export current_path user path keep_source).1.2
      = PosixPath.normpath current_path).
Proof.
  intros Hcwd. unfold Cli.build, Cli.export. cbn [fst snd].
  split; [|split; [|split; [|split]]].
  - destruct (PyStr.truthy _); [now apply abspath_isabs|exact Hcwd].
  - now intros ->.
  - reflexivity.
  - now apply abspath_isabs.
  - intros ->. unfold Cli.abspath. now rewrite Hcwd.
Qed.

Lemma build_and_export_folders_witness :
  PosixPath.isabs
    (Cli.build "/home/user"
       {| Cli.build_args.path := "../other/./project"; Cli.build_args.file := None;
          Cli.build_args.profile := None |}).1.1.1 = true.
Proof.
  apply (build_and_export_folders "/home/user"
           {| Cli.build_args.path := "../other/./project"; Cli.build_args.file := None;
              Cli.build_args.profile := None |} "lasote" None false).
  reflexivity.
Defined.

Example build_in_sibling_folder :
  (Cli.build "/home/user"
     {| Cli.build_args.path := "../other/./project"; Cli.build_args.file := None;
        Cli.build_args.profile := None |}).1.1.1 = "/home/other/project".
Proof. vm_compute. reflexivity. Qed.

(** ** [search] *)

(** X9: the only [ConanException] the [search] command raises itself is
    the one about [-q], and it raises it exactly when a non-empty pattern
    fails to parse as a reference (with a [ConanException]) and a query is
    given; a query without any pattern is handed on.  When the search is
    requested it looks for the parsed reference if the pattern parses and
    for the raw pattern otherwise, ignoring case unless [--case-sensitive]
    is given: a non-empty pattern that parses is always handed on as the
    parsed reference, and one that fails to parse, no query being given,
    as the raw pattern. *)
Theorem search_query_needs_reference
    (loads : string -> Cli.outcome Command.ConanFileReference)
    (args : Cli.search_args.t) :
  let pattern := Cli.search_args.pattern args in
  (forall e,
     Cli.search loads args = Cli.Raised (Cli.ConanError e)
     <-> e = Cli.query_needs_reference
         /\ PyStr.otruthy pattern = true
         /\ Command.is_some (Cli.search_args.query args) = true
         /\ exists e', loads (default "" pattern) = Cli.Raised (Cli.ConanError e'))
  /\ (PyStr.otruthy pattern = false ->
      exists call, Cli.search loads args = Cli.Done call
                   /\ Cli.se_target call = Cli.TargetPattern pattern)
  /\ (forall call,
        Cli.search loads args = Cli.Done call ->
        Cli.se_ignorecase call = negb (Cli.search_args.case_sensitive args)
        /\ Cli.se_packages_query call = Cli.search_args.query args
        /\ Cli.se_remote call = Cli.search_args.remote args
        /\ match Cli.se_target call with
           | Cli.TargetReference r =>
               PyStr.otruthy pattern = true /\ loads (default "" pattern) = Cli.Done r
           | Cli.TargetPattern p => p = pattern
           end)
  /\ (forall r,
        PyStr.otruthy pattern = true ->
        loads (default "" pattern) = Cli.Done r ->
        exists call, Cli.search loads args = Cli.Done call
                     /\ Cli.se_target call = Cli.TargetReference r)
  /\ (forall e',
        PyStr.otruthy pattern = true ->
        loads (default "" pattern) = Cli.Raised (Cli.ConanError e') ->
        Cli.search_args.query args = None ->
        exists call, Cli.search loads args = Cli.Done call
                     /\ Cli.se_target call = Cli.TargetPattern pattern).
Proof.
  intros pattern. subst pattern. unfold Cli.search.
  destruct (PyStr.otruthy (Cli.search_args.pattern args)) eqn:Hp.
  - destruct (loads (default "" (Cli.search_args.pattern args))) as [r|[e0|w|w]] eqn:Hl;
      [| destruct (Command.is_some (Cli.search_args.query args)) eqn:Hq | |];
      cbn [mbind Cli.outcome_bind].
    + split; [|split; [|split; [|split]]].
      * intros e. split; [discriminate|]. intros (_ & _ & _ & e' & [=]).
      * discriminate.
      * intros call [= <-]. cbn. auto.
      * intros r' _ [= <-]. eexists. split; reflexivity.
      * discriminate.
    + split; [|split; [|split; [|split]]].
      * intros e. split; [intros [= <-]; eauto 6|]. now intros (-> & _).
      * discriminate.
      * discriminate.
      * discriminate.
      * intros e' _ _ Hnone. rewrite Hnone in Hq. discriminate.
    + split; [|split; [|split; [|split]]].
      * intros e. split; [discriminate|]. intros (_ & _ & [=] & _).
      * discriminate.
      * intros call [= <-]. cbn. auto.
      * discriminate.
      * intros e' _ _ _. eexists. split; reflexivity.
    + split; [|split; [|split; [|split]]].
      * intros e. split; [discriminate|]. intros (_ & _ & _ & e' & [=]).
      * discriminate.
      * discriminate.
      * discriminate.
      * discriminate.
    + split; [|split; [|split; [|split]]].
      * intros e. split; [discriminate|]. intros (_ & _ & _ & e' & [=]).
      * discriminate.
      * discriminate.
      * discriminate.
      * discriminate.
  - cbn [mbind Cli.outcome_bind]. split; [|split; [|split; [|split]]].
    + intros e. split; [discriminate|]. intros (_ & [=] & _).
    + intros _. eexists. split; reflexivity.
    + intros call [= <-]. cbn. auto.
    + discriminate.
    + discriminate.
Qed.

Example search_query_without_reference :
  Cli.search loads_or_raise
    {| Cli.search_args.pattern := Some "zlib*"; Cli.search_args.case_sensitive := false;
       Cli.search_args.remote := None; Cli.search_args.query := Some "os=Windows" |}
  = Cli.Raised (Cli.ConanError Cli.query_needs_reference)
  /\ exists call,
       Cli.search loads_or_raise
         {| Cli.search_args.pattern := None; Cli.search_args.case_sensitive := false;
            Cli.search_args.remote := None; Cli.search_args.query := Some "os=Windows" |}
       = Cli.Done call
       /\ Cli.se_target call = Cli.TargetPattern None.
Proof. split; [reflexivity|]. eexists. split; reflexivity. Qed.

(** ** [run] *)

(** X10: the dispatcher [run] reports an error (returns [True]) exactly
    when the command is unknown and is not one of [-v], [--version], [-h],
    [--help], or when the command raised a [ConanException], a
    [KeyboardInterrupt] or a [SystemExit]; it lets an exception through
    exactly when the command raised one of another kind; with no argument
    it shows the help and reports no error; for an unknown command it
    shows the help and then the "Unknown command" error. *)
Theorem run_reports_errors
    (commands : gmap string (list string -> Cli.outcome unit))
    (CLIENT_VERSION : string) (key_error_text : string -> string)
    (exception_message_safe : Cli.raised -> string) (argv : list string) :
  let run := Cli.run commands CLIENT_VERSION key_error_text exception_message_safe in
  ((run argv).2 = Cli.Returned true
   <-> exists command rest,
         argv = command :: rest
         /\ ((commands !! command = None
              /\ command ∉ ["-v"; "--version"; "-h"; "--help"])
             \/ exists method r,
                  commands !! command = Some method /\ method rest = Cli.Raised r
                  /\ forall what, r <> Cli.OtherError what))
  /\ (forall r,
        (run argv).2 = Cli.Propagated r
        <-> exists command rest method what,
              argv = command :: rest /\ commands !! command = Some method
              /\ method rest = Cli.Raised r /\ r = Cli.OtherError what)
  /\ run [] = ([Cli.OutHelp], Cli.Returned false)
  /\ (forall command rest,
        argv = command :: rest -> commands !! command = None ->
        command ∉ ["-v"; "--version"; "-h"; "--help"] ->
        (run argv).1
        = [Cli.OutHelp;
           Cli.OutError
             (exception_message_safe
                (Cli.ConanError
                   (ConanException ("Unknown command " +:+ key_error_text command))))]).
Proof.
  intros run. subst run.
  assert (Hknown : forall command : string,
             command ∉ ["-v"; "--version"; "-h"; "--help"]
             <-> (command ∉ ["-v"; "--version"]) /\ (command ∉ ["-h"; "--help"])).
  { intros command. rewrite !list_elem_of_In. cbn [In]. tauto. }
  unfold Cli.run. destruct argv as [|command rest].
  { cbn [snd fst]. split; [|split; [|split]].
    - split; [discriminate|]. intros (? & ? & [=] & _).
    - intros r. split; [discriminate|]. intros (? & ? & ? & ? & [=] & _).
    - reflexivity.
    - discriminate. }
  destruct (commands !! command) as [method|] eqn:Hc.
  - destruct (method rest) as [[]|r] eqn:Hm.
    + cbn [snd fst]. split; [|split; [|split]].
      * split; [discriminate|].
        intros (c & a & [= <- <-] & [[Hn _]|(m & r & Hs & Hr & _)]); congruence.
      * intros r. split; [discriminate|].
        intros (c & a & m & w & [= <- <-] & Hs & Hr & _). congruence.
      * reflexivity.
      * intros c a [= <- <-] Hn. congruence.
    + split; [|split; [|split]].
      * destruct r as [e|w|w]; cbn [Cli.handle snd].
        -- split; [intros _|reflexivity].
           exists command, rest. split; [reflexivity|]. right.
           exists method, (Cli.ConanError e). repeat split; try assumption. discriminate.
        -- split; [intros _|reflexivity].
           exists command, rest. split; [reflexivity|]. right.
           exists method, (Cli.Interrupt w). repeat split; try assumption. discriminate.
        -- split; [discriminate|].
           intros (c & a & [= <- <-] & [[Hn _]|(m & r & Hs & Hr & Hno)]);
             [congruence|].
           rewrite Hc in Hs. injection Hs as <-. rewrite Hm in Hr.
           injection Hr as <-. now destruct (Hno w).
      * intros r'. destruct r as [e|w|w]; cbn [Cli.handle snd].
        -- split; [discriminate|].
           intros (c & a & m & w & [= <- <-] & Hs & Hr & ->).
           rewrite Hc in Hs. injection Hs as <-. rewrite Hm in Hr. discriminate.
        -- split; [discriminate|].
           intros (c & a & m & w' & [= <- <-] & Hs & Hr & ->).
           rewrite Hc in Hs. injection Hs as <-. rewrite Hm in Hr. discriminate.
        -- split.
           ++ intros [= <-]. exists command, rest, method, w. auto.
           ++ intros (c & a & m & w' & [= <- <-] & Hs & Hr & ->).
              rewrite Hc in Hs. injection Hs as <-. rewrite Hm in Hr.
              now injection Hr as <-.
      * reflexivity.
      * intros c a [= <- <-] Hn. congruence.
  - split; [|split; [|split]].
    + repeat case_bool_decide; cbn [Cli.handle snd].
      * split; [discriminate|].
        intros (c & a & [= <- <-] & [[_ Hn]|(m & r & Hs & _)]); [|congruence].
        apply Hknown in Hn. tauto.
      * split; [discriminate|].
        intros (c & a & [= <- <-] & [[_ Hn]|(m & r & Hs & _)]); [|congruence].
        apply Hknown in Hn. tauto.
      * split; [intros _|reflexivity].
        exists command, rest. split; [reflexivity|]. left.
        split; [exact Hc|]. now apply Hknown.
    + intros r. split.
      * repeat case_bool_decide; cbn [Cli.handle snd]; discriminate.
      * intros (c & a & m & w & [= <- <-] & Hs & _). congruence.
    + reflexivity.
    + intros c a [= <- <-] _ Hn. apply Hknown in Hn as [Hv Hh].
      rewrite !bool_decide_eq_false_2 by assumption. reflexivity.
Qed.

(** ** [info] and [install] *)

(** X11: [info] resolves its arguments as [install] does: whenever the
    classic [install] of a command line reaches the install operation, the
    [info] command with the same reference, options, settings, build,
    scope, remote, file and update arguments reaches the info operation
    with the same reference, options, settings, package settings, build
    mode and scopes. *)
Theorem info_agrees_with_install
    (loads : string -> option Command.ConanFileReference) (Scopes : Type)
    (Scopes_from_list : list string -> result Scopes) (current_path : string)
    (args : Command.install_args.t) (c : Command.install_call Scopes)
    (only : option string) (build_order : option (list string)) :
  Command.install loads Scopes Scopes_from_list current_path args
  = Ok (Command.CallInstall Scopes c) ->
  exists i,
    Cli.info loads Scopes Scopes_from_list current_path
      (info_like args only build_order) = Ok i
    /\ Cli.nf_reference Scopes i = Command.in_reference Scopes c
    /\ Cli.nf_options Scopes i = Command.in_options Scopes c
    /\ Cli.nf_settings Scopes i = Command.in_settings Scopes c
    /\ Cli.nf_package_settings Scopes i = Command.in_package_settings Scopes c
    /\ Cli.nf_build_mode Scopes i = Command.in_build_mode Scopes c
    /\ Cli.nf_scopes Scopes i = Command.in_scopes Scopes c
    /\ Cli.nf_check_updates Scopes i = Command.in_update Scopes c
    /\ Cli.nf_filename Scopes i = Command.in_filename Scopes c
    /\ Cli.nf_remote Scopes i = Command.in_remote Scopes c
    /\ Cli.nf_current_path Scopes i = Command.in_current_path Scopes c.
Proof.
  unfold Command.install, Cli.info, info_like.
  cbn [Cli.info_args.reference Cli.info_args.file Cli.info_args.remote
       Cli.info_args.options Cli.info_args.settings Cli.info_args.only
       Cli.info_args.update Cli.info_args.build_order Cli.info_args.build
       Cli.info_args.scope].
  destruct (_ || _).
  { destruct (Command.resolve_reference _ _ _); [|discriminate].
    destruct (negb _); discriminate. }
  destruct (Command._get_tuples_list_from_extender_arg _) as [o|]; [|discriminate].
  cbn [mbind result_bind].
  destruct (Command._get_simple_and_package_tuples (Command.install_args.settings args))
    as [[s ps]|]; [|discriminate].
  cbn [mbind result_bind].
  destruct (Command._get_simple_and_package_tuples (Command.install_args.env args))
    as [[en pe]|]; [|discriminate].
  cbn [mbind result_bind].
  set (scopes := if PyStr.ltruthy (Command.install_args.scope args) then _ else _).
  destruct scopes as [sc|]; [|discriminate]. cbn [mbind result_bind].
  destruct (_ && _); [discriminate|]. destruct (_ && _); [discriminate|].
  destruct (match Command.por _ _ with Some _ => _ | None => _ end) as [[mf mv] mi].
  intros [= <-]. eexists. split; [reflexivity|]. cbn. repeat split.
Qed.

Lemma info_agrees_with_install_witness :
  exists c i,
    Command.install Reference.loads unit no_scopes "/home/user"
      (install_defaults "./my_project") = Ok (Command.CallInstall unit c)
    /\ Cli.info Reference.loads unit no_scopes "/home/user"
         (info_like (install_defaults "./my_project") None None) = Ok i
    /\ Cli.nf_reference unit i = Command.in_reference unit c
    /\ Cli.nf_build_mode unit i = Command.in_build_mode unit c.
Proof.
  eexists.
  destruct (info_agrees_with_install Reference.loads unit no_scopes "/home/user"
              (install_defaults "./my_project") _ None None eq_refl)
    as (i & Hi & Hr & _ & _ & _ & Hb & _).
  exists i. repeat split; assumption.
Defined.

(** ** [test_package]: folders and build mode *)

Lemma join_relative a b :
  PyStr.startswith "/" b = false ->
  PosixPath.join a b = a +:+ join_separator a +:+ b.
Proof.
  intros Hb. unfold PosixPath.join, join_separator. rewrite Hb.
  now destruct (_ || _).
Qed.

Lemma endswith_append c a b x :
  PyStr.endswith_char c (a +:+ String x b) = PyStr.endswith_char c (String x b).
Proof.
  induction a as [|y a IH]; [reflexivity|].
  rewrite append_cons. cbn [PyStr.endswith_char].
  destruct (a +:+ String x b) eqn:E; [|exact IH].
  destruct a; discriminate.
Qed.

Lemma truthy_append a x b : PyStr.truthy (a +:+ String x b) = true.
Proof. now destruct a. Qed.

Lemma nibble_not_slash x : Digest.nibble (Z.land x 15) <> "/"%char.
Proof.
  change 15%Z with (Z.ones 4). rewrite Z.land_ones by lia.
  pose proof (Z.mod_pos_bound x (2 ^ 4) eq_refl) as Hb.
  assert (H : exists n, (n < 16)%nat /\ (x mod 2 ^ 4)%Z = Z.of_nat n).
  { exists (Z.to_nat (x mod 2 ^ 4)). lia. }
  destruct H as (n & Hn & ->).
  do 16 (destruct n as [|n]; [vm_compute; discriminate|]).
  lia.
Qed.

Lemma sha_not_absolute options settings :
  PyStr.startswith "/" (Command.test_package_sha options settings) = false.
Proof.
  unfold Command.test_package_sha, Digest.sha1_hexdigest, Digest.sha1_hex,
    Digest.hex_be32, Digest.hex_byte, PyStr.startswith.
  rewrite !append_cons, prefix_cons, prefix_nil.
  match goal with
  | |- (if Ascii.eqb ?a ?b then true else false) = false =>
      destruct (Ascii.eqb_spec a b) as [H|H]; [|reflexivity]
  end.
  symmetry in H. now apply nibble_not_slash in H.
Qed.

Lemma separator_after_build a : join_separator (a +:+ "build") = "/".
Proof.
  unfold join_separator.
  replace (a +:+ "build") with ((a +:+ "buil") +:+ "d") by now rewrite append_assoc.
  now rewrite truthy_append, endswith_append.
Qed.

(** X12: the build folder of [test_package] is [build/<digest>] inside the
    test folder: the test folder, a ["/"] unless it is empty or already
    ends with one, then ["build/"] and the digest of the configuration. *)
Theorem build_folder_inside_test_folder (test_folder : string)
    (options settings : option (list string)) :
  Cli.build_folder test_folder options settings
  = test_folder +:+ join_separator test_folder +:+ "build/"
    +:+ Command.test_package_sha options settings.
Proof.
  unfold Cli.build_folder.
  rewrite (join_relative test_folder "build") by reflexivity.
  rewrite join_relative by apply sha_not_absolute.
  rewrite <- (append_assoc test_folder), separator_after_build.
  now rewrite !append_assoc.
Qed.

Example build_folder_of_test_package :
  Cli.build_folder "/home/user/project/test_package" (Some ["a=1"; "b=2"]) None
  = "/home/user/project/test_package/build/10cf73d13b980e22c78ecdc13f556962f871d697".
Proof. vm_compute. reflexivity. Qed.


Example test_folder_fallback :
  Cli.test_folder (fun f => String.eqb f "/home/user/lib/test/conanfile.py")
    "/home/user" "lib" None
  = Ok ("test", "/home/user/lib/test")
  /\ Cli.test_folder (fun f => String.eqb f "/home/user/lib/test/conanfile.py")
       "/home/user" "lib" (Some "checks")
     = Raise (ConanException
                "test folder 'checks' not available, or it doesn't have a conanfile.py").
Proof. split; vm_compute; reflexivity. Qed.

(** X14: without [--build], [test_package] forces the build of the tested
    library and of nothing else (the pattern is its name followed by
    ["*"]), where [install] would build nothing; with [--build] given, both
    commands resolve the argument in the same way. *)
Theorem test_package_builds_tested_library (first_dep_name : string)
    (build : Command.build_param) :
  Cli.test_package_build_mode first_dep_name Command.BuildNone
  = Command.ModePatterns [first_dep_name +:+ "*"]
  /\ Command._get_build_sources_parameter Command.BuildNone = Command.ModeFalse
  /\ (build <> Command.BuildNone ->
      Cli.test_package_build_mode first_dep_name build
      = Command._get_build_sources_parameter build)
  /\ Cli.test_package_build_mode first_dep_name (Command.BuildList ["never"])
     = Command.ModeFalse.
Proof.
  split; [|split; [reflexivity|split; [|reflexivity]]].
  - unfold Cli.test_package_build_mode.
    replace (first_dep_name +:+ "*") with (first_dep_name +:+ String "*" "")
      by reflexivity.
    now rewrite truthy_append.
  - intros Hb. now destruct build.
Qed.

(** ** [new] *)

(** X15: [new] raises "Bad parameter" whenever the name does not parse as
    a reference, whatever the parser raised.  Otherwise it saves
    [conanfile.py] and, with [--test], the three files of [test_package],
    and nothing else, and reports each saved file once, in sorted order;
    [conanfile.py] comes from the header template with [--header], else
    from the plain template, with the [configure] method appended under
    [--pure_c]; with [--header] the [--pure_c] flag changes nothing. *)
Theorem new_saves_the_templates
    (loads : string -> Cli.outcome Command.ConanFileReference)
    (conanfile conanfile_header : string -> string -> string -> string)
    (test_conanfile : string -> string -> string -> string -> string -> string)
    (test_cmake test_main : string) (package_name_of : string -> string)
    (args : Cli.new_args.t) :
  let new := Cli.new loads conanfile conanfile_header test_conanfile test_cmake
               test_main package_name_of in
  (forall e, loads (Cli.new_args.name args) = Cli.Raised e ->
     new args = Raise (ConanException
                         "Bad parameter, please use full package name,e.g: MyLib/1.2.3@user/testing"))
  /\ (forall r, loads (Cli.new_args.name args) = Cli.Done r ->
      exists files,
        new args
        = Ok (files,
              Cli.OutSuccess "File saved: conanfile.py"
              :: (if Cli.new_args.test args
                  then [Cli.OutSuccess "File saved: test_package/CMakeLists.txt";
                        Cli.OutSuccess "File saved: test_package/conanfile.py";
                        Cli.OutSuccess "File saved: test_package/example.cpp"]
                  else []))
        /\ dom files
           = (if Cli.new_args.test args
              then {["conanfile.py"; "test_package/CMakeLists.txt";
                     "test_package/conanfile.py"; "test_package/example.cpp"]}
              else {["conanfile.py"]})
        /\ files !! "conanfile.py"
           = Some (let n := Command.name r in
                   let v := Command.version r in
                   if Cli.new_args.header args
                   then conanfile_header n v (package_name_of n)
                   else if Cli.new_args.pure_c args
                   then conanfile n v (package_name_of n) +:+ Cli.pure_c_config
                   else conanfile n v (package_name_of n)))
  /\ (Cli.new_args.header args = true ->
      forall b, new (with_pure_c b args) = new args).
Proof.
  intros new. subst new. unfold Cli.new. split; [|split].
  - intros e ->. reflexivity.
  - intros r ->. destruct args as [n t h c]. cbn [Cli.new_args.header
      Cli.new_args.pure_c Cli.new_args.test Cli.new_args.name].
    destruct h, c, t; eexists; (split; [reflexivity|]); split;
      try reflexivity; apply set_eq; intros f;
      rewrite ?dom_insert, ?dom_singleton; set_solver.
  - intros Hh b. unfold with_pure_c.
    cbn [Cli.new_args.header Cli.new_args.pure_c Cli.new_args.test Cli.new_args.name].
    now rewrite Hh.
Qed.

(** ** More on [install] *)

(** X16: with [--all] or a [--package], [install] looks at nothing but the
    reference, the package ids and the remote: two command lines that
    agree on these behave alike, so that options, settings, environment,
    scopes, build mode and manifest flags are neither checked nor used. *)
Theorem install_fixed_ids_ignores_the_rest
    (loads : string -> option Command.ConanFileReference) (Scopes : Type)
    (Scopes_from_list : list string -> result Scopes) (current_path : string)
    (a b : Command.install_args.t) :
  Command.install_args.all a || PyStr.ltruthy (Command.install_args.package a) = true ->
  Command.install_args.reference b = Command.install_args.reference a ->
  Command.install_args.all b = Command.install_args.all a ->
  Command.install_args.package b = Command.install_args.package a ->
  Command.install_args.remote b = Command.install_args.remote a ->
  Command.install loads Scopes Scopes_from_list current_path b
  = Command.install loads Scopes Scopes_from_list current_path a.
Proof.
  intros Hfixed Hr Ha Hp Hm.
  rewrite (install_fixed_ids _ _ _ _ a Hfixed).
  rewrite (install_fixed_ids _ _ _ _ b) by now rewrite Ha, Hp.
  now rewrite Hr, Ha, Hp, Hm.
Qed.

Lemma install_fixed_ids_ignores_the_rest_witness :
  Command.install Reference.loads unit no_scopes "/home/user" install_all_broken_option
  = Ok (Command.CallDownload unit hello [] None).
Proof.
  rewrite (install_fixed_ids_ignores_the_rest Reference.loads unit no_scopes
             "/home/user" (with_all (install_defaults "Hello/0.1@lasote/testing"))
             install_all_broken_option); reflexivity.
Defined.

Lemma validate_pairs_app a b :
  Command.validate_pairs (a ++ b)
  = (_ ← Command.validate_pairs a; Command.validate_pairs b).
Proof.
  induction a as [|item a IH]; [reflexivity|].
  cbn [app Command.validate_pairs]. destruct (negb _); [reflexivity|exact IH].
Qed.

(** X17: on the classic path, [install] checks the options, then the
    settings, then the environment items, and stops at the first item that
    is not of the form [name=value]: the error names the first malformed
    item of the three lists taken in that order, before the manifest flags
    are looked at. *)
Theorem install_reports_first_malformed_item
    (loads : string -> option Command.ConanFileReference) (Scopes : Type)
    (Scopes_from_list : list string -> result Scopes) (current_path : string)
    (args : Command.install_args.t) :
  Command.install_args.all args = false ->
  PyStr.ltruthy (Command.install_args.package args) = false ->
  let items := PyStr.or_nil (Command.install_args.options args)
               ++ PyStr.or_nil (Command.install_args.settings args)
               ++ PyStr.or_nil (Command.install_args.env args) in
  ~ Forall well_formed_item items ->
  exists before item after,
    items = before ++ item :: after
    /\ Forall well_formed_item before /\ ~ well_formed_item item
    /\ Command.install loads Scopes Scopes_from_list current_path args
       = Raise (ConanException ("Invalid input '" +:+ item +:+ "', use 'name=value'")).
Proof.
  intros Hall Hpkg items Hbad.
  destruct (validate_pairs_raise items Hbad)
    as (before & item & after & Hsplit & Hbefore & Hitem & Hraise).
  exists before, item, after. repeat split; try assumption.
  subst items. rewrite !validate_pairs_app in Hraise.
  unfold Command.install. rewrite Hall, Hpkg. cbn [orb].
  unfold Command._get_simple_and_package_tuples.
  rewrite !tuples_from_extender_arg_unfold.
  destruct (Command.validate_pairs (PyStr.or_nil (Command.install_args.options args)))
    as [[]|e1]; cbn [mbind result_bind] in *; [|now injection Hraise as ->].
  destruct (Command.validate_pairs (PyStr.or_nil (Command.install_args.settings args)))
    as [[]|e2]; cbn [mbind result_bind] in *; [|now injection Hraise as ->].
  destruct (Command.scatter _ _ _) as [s ps]. cbn [mbind result_bind].
  destruct (Command.validate_pairs (PyStr.or_nil (Command.install_args.env args)))
    as [[]|e3]; cbn [mbind result_bind] in *; [discriminate|now injection Hraise as ->].
Qed.

Lemma install_reports_first_malformed_item_witness :
  exists before item after,
    ["shared=True"; "os"; "CC"] = before ++ item :: after
    /\ Forall well_formed_item before /\ ~ well_formed_item item
    /\ Command.install Reference.loads unit no_scopes "/home/user"
         install_two_broken_items
       = Raise (ConanException ("Invalid input '" +:+ item +:+ "', use 'name=value'")).
Proof.
  apply (install_reports_first_malformed_item Reference.loads unit no_scopes
           "/home/user" install_two_broken_items eq_refl eq_refl).
  intros H. apply Forall_cons in H as [_ H]. apply Forall_cons in H as [H _].
  vm_compute in H. discriminate.
Defined.

Example install_two_broken_items_error :
  Command.install Reference.loads unit no_scopes "/home/user" install_two_broken_items
  = Raise (ConanException "Invalid input 'os', use 'name=value'").
Proof. vm_compute. reflexivity. Qed.

(** ** [--build] on the command line *)

(** X18: the build mode of a command line is decided on all the values of
    all its [--build] flags taken together: no flag means no build;
    otherwise the mode is that of the list of all values, so that the
    keywords [never], [missing] and [outdated] count only when they are the
    single value, and two or more values are always patterns, each
    suffixed with ["*"]. *)
Theorem build_flags_taken_together (occurrences : list (list string)) :
  Command._get_build_sources_parameter (build_of_command_line []) = Command.ModeFalse
  /\ (occurrences <> [] ->
      Command._get_build_sources_parameter (build_of_command_line occurrences)
      = Command._get_build_sources_parameter (Command.BuildList (concat occurrences)))
  /\ (2 <= length (concat occurrences) ->
      Command._get_build_sources_parameter (build_of_command_line occurrences)
      = Command.ModePatterns ((fun ref_expr => ref_expr +:+ "*") <$> concat occurrences)).
Proof.
  split; [reflexivity|].
  assert (Hsome : occurrences <> [] ->
            build_of_command_line occurrences = Command.BuildList (concat occurrences)).
  { intros Hne. destruct occurrences as [|values occurrences]; [contradiction|].
    unfold build_of_command_line. now rewrite extended_concat. }
  split; [intros Hne; now rewrite Hsome|].
  intros Hlen. rewrite Hsome.
  - unfold Command._get_build_sources_parameter.
    destruct (concat occurrences) as [|x [|y l]]; cbn [length] in Hlen; try lia.
    reflexivity.
  - intros ->. cbn in Hlen. lia.
Qed.

Example build_never_and_missing :
  Command._get_build_sources_parameter (build_of_command_line [["never"]; ["missing"]])
  = Command.ModePatterns ["never*"; "missing*"]
  /\ Command._get_build_sources_parameter (build_of_command_line [[]])
     = Command.ModePatterns ["*"]
  /\ Command._get_build_sources_parameter (build_of_command_line [["never"]])
     = Command.ModeFalse.
Proof. repeat split. Qed.

(** ** [_test_check] *)

Lemma chosen_folder_has_conanfile exists_ current_path path folder name test_folder :
  Cli.test_folder exists_ current_path path folder = Ok (name, test_folder) ->
  exists_ (PosixPath.join test_folder "conanfile.py") = true.
Proof.
  unfold Cli.test_folder. destruct (PyStr.otruthy folder).
  - destruct (exists_ _) eqn:Hx; cbn [negb]; [|discriminate].
    now intros [= <- <-].
  - cbn [Cli.first_test_folder].
    destruct (exists_ (PosixPath.join (PosixPath.join _ "test_package") _)) eqn:H1;
      [now intros [= <- <-]|].
    destruct (exists_ (PosixPath.join (PosixPath.join _ "test") _)) eqn:H2;
      [now intros [= <- <-]|discriminate].
Qed.

Lemma layout_messages_differ name :
  Cli.conanfile_layout_message name <> Cli.cmake_layout_message name.
Proof.
  unfold Cli.conanfile_layout_message, Cli.cmake_layout_message.
  cbn [String.concat]. rewrite !append_assoc. intros H.
  repeat apply (inj (String.append _)) in H.
  vm_compute in H. discriminate.
Qed.

Ltac layout_member Hdiff :=
  rewrite list_elem_of_In; cbn [In]; split;
  [ let H := fresh "H" in
    intros H; repeat (destruct H as [H|H]); try contradiction;
    try (apply (f_equal (fun o => match o with
                                  | Cli.OutError msg => msg
                                  | _ => EmptyString
                                  end)) in H;
         first [now destruct (Hdiff H) | now destruct (Hdiff (eq_sym H))]);
    auto
  | let H := fresh "H" in
    intros H; first [discriminate H | now destruct H | auto] ].

(** X19: [_test_check] raises only when the test folder has no
    [conanfile.py]; problems of layout never stop it: it then writes at
    most two errors, one when [conanfile.py] does not mention
    [.conanfile_directory] and one when a [CMakeLists.txt] exists and does
    not include [${CMAKE_BINARY_DIR}/conanbuildinfo.cmake] (a missing
    [CMakeLists.txt] is not an error).  In particular it never raises on
    the folder that [test_package] has chosen. *)
Theorem test_check_reports_layout (exists_ : string -> bool) (load : string -> string)
    (test_folder test_folder_name : string) :
  let conanfile := PosixPath.join test_folder "conanfile.py" in
  let cmake := PosixPath.join test_folder "CMakeLists.txt" in
  let run := Cli._test_check exists_ load test_folder test_folder_name in
  (run = Raise (ConanException "Test conanfile.py does not exist")
   <-> exists_ conanfile = false)
  /\ (exists_ conanfile = true ->
      exists errors,
        run = Ok errors /\ length errors <= 2
        /\ (Cli.OutError (Cli.conanfile_layout_message test_folder_name) ∈ errors
            <-> Cli.contains_text ".conanfile_directory" (load conanfile) = false)
        /\ (Cli.OutError (Cli.cmake_layout_message test_folder_name) ∈ errors
            <-> exists_ cmake = true
                /\ Cli.contains_text "${CMAKE_BINARY_DIR}/conanbuildinfo.cmake"
                     (load cmake) = false))
  /\ (forall current_path path folder,
        Cli.test_folder exists_ current_path path folder
        = Ok (test_folder_name, test_folder) ->
        exists errors, run = Ok errors).
Proof.
  intros conanfile cmake run. subst run. unfold Cli._test_check.
  fold conanfile cmake.
  pose proof (layout_messages_differ test_folder_name) as Hdiff.
  split; [|split].
  - destruct (exists_ conanfile); cbn [negb]; split; try reflexivity; discriminate.
  - intros ->. cbn [negb]. eexists. split; [reflexivity|].
    destruct (Cli.contains_text ".conanfile_directory" _);
      destruct (exists_ cmake);
      try destruct (Cli.contains_text "${CMAKE_BINARY_DIR}/conanbuildinfo.cmake" _);
      cbn [negb app length]; (split; [lia|]); split; layout_member Hdiff.
  - intros current_path path folder Hchosen.
    subst conanfile.
    rewrite (chosen_folder_has_conanfile _ _ _ _ _ _ Hchosen). cbn [negb]. eauto.
Qed.
